(** * DetoxEdge booking engine: holds, conflicts, availability, confirmation

    A shallow embedding of the reservation core of the two server variants
    of the repository: [src/server.js] (MongoDB store) and the PostgreSQL /
    Prisma variant of the same server.

    Conventions of the embedding.
    - A JavaScript [Date] is its epoch value in milliseconds, a [Z].  The
      process time zone is taken to be UTC without daylight saving, so that
      local wall-clock time and epoch time coincide, and strings without an
      offset (["2024-01-02T11:00:00"]) denote the instant they parse to.
    - An ISO string kept in the store is represented by the instant that
      [parseISO] reads back from it; [formatISO(d).slice(0,19)] therefore
      becomes truncation to whole seconds.
    - Service keys are the six keys of [SERVICES]; a request naming another
      key is answered 400 by the routes that test [SERVICES[service]].
    - [nanoid()] and database generated ids are drawn from a counter kept
      with the store.
    - Every [new Date()] of one request reads the same instant [now].
    - A request runs to completion before the next one is served: the
      awaits of two handlers are not interleaved.
    - The tables of the Prisma server hold what the calls pass them.  Its
      schema is not among the sources, and what the client would refuse
      when it validates a value against a column type is outside the
      embedding. *)

From Stdlib Require Import ZArith List Bool Lia Sorted.
From Equations Require Import Equations.
From stdpp Require Import gmap strings list pretty.

Open Scope string_scope.
Open Scope list_scope.
Open Scope Z_scope.

(** ** Catalog *)

Inductive ServiceKey := sauna | hbot | icebath | redlight | hydrogen | lymph.

#[global] Instance ServiceKey_eq_dec : EqDecision ServiceKey.
Proof. solve_decision. Defined.

Module Service.
Record t := { name : string; duration : Z; price : Z }.
End Service.

Definition SERVICES (k : ServiceKey) : Service.t :=
  match k with
  | sauna    => {| Service.name := "Infrared Sauna";                 Service.duration := 15; Service.price := 10 |}
  | hbot     => {| Service.name := "Mild Hyperbaric Oxygen Therapy"; Service.duration := 60; Service.price := 75 |}
  | icebath  => {| Service.name := "Cold Plunge";                    Service.duration := 10; Service.price := 10 |}
  | redlight => {| Service.name := "Red Light Therapy";              Service.duration := 15; Service.price := 10 |}
  | hydrogen => {| Service.name := "Hydrogen Therapy";               Service.duration := 20; Service.price := 20 |}
  | lymph    => {| Service.name := "Lymph Vibe Plate";               Service.duration := 15; Service.price := 10 |}
  end.

Definition BUFFERS (k : ServiceKey) : Z :=
  match k with
  | sauna => 0 | hbot => 30 | icebath => 0 | redlight => 5 | hydrogen => 5 | lymph => 5
  end.

Module Bundle.
Record t := {
  id : string; label : string; services : list ServiceKey;
  price : Z; totalMinutes : Z }.
End Bundle.

Definition BUNDLES : list Bundle.t :=
  [ {| Bundle.id := "bundle_alt_cold_sauna"; Bundle.label := "Cold Plunge + Sauna Alternating Therapy";
       Bundle.services := [icebath; sauna]; Bundle.price := 20; Bundle.totalMinutes := 30 |};
    {| Bundle.id := "bundle_red_lymph"; Bundle.label := "Red Light + Lymph Vibe Plate";
       Bundle.services := [redlight; lymph]; Bundle.price := 15; Bundle.totalMinutes := 15 |};
    {| Bundle.id := "bundle_hbot_sauna"; Bundle.label := "mHBOT + Sauna";
       Bundle.services := [hbot; sauna]; Bundle.price := 80; Bundle.totalMinutes := 90 |};
    {| Bundle.id := "bundle_hbot_sauna_cold"; Bundle.label := "mHBOT + Sauna + Ice Bath";
       Bundle.services := [hbot; sauna; icebath]; Bundle.price := 85; Bundle.totalMinutes := 90 |};
    {| Bundle.id := "bundle_premium_rejuv"; Bundle.label := "Premium Rejuvenation Bundle";
       Bundle.services := [hbot; sauna; icebath; redlight]; Bundle.price := 95; Bundle.totalMinutes := 105 |};
    {| Bundle.id := "bundle_platinum_rejuv"; Bundle.label := "Platinum Rejuvenation Bundle";
       Bundle.services := [hbot; sauna; icebath; redlight; hydrogen]; Bundle.price := 105; Bundle.totalMinutes := 120 |} ].

(** [WEEKLY_HOURS]: weekday number (0 = Sunday) to opening hours; an
    ["HH:MM"] string is the pair that [split(":").map(Number)] yields. *)
Module Hours.
Record t := { open : Z * Z; close : Z * Z }.
End Hours.

Definition WEEKLY_HOURS (dow : Z) : option Hours.t :=
  if dow =? 1 then Some {| Hours.open := (7, 0); Hours.close := (18, 0) |}
  else if dow =? 2 then Some {| Hours.open := (7, 0); Hours.close := (12, 0) |}
  else if dow =? 3 then Some {| Hours.open := (7, 0); Hours.close := (18, 0) |}
  else if dow =? 4 then Some {| Hours.open := (7, 0); Hours.close := (12, 0) |}
  else if dow =? 5 then Some {| Hours.open := (7, 0); Hours.close := (18, 0) |}
  else None.

Definition SLOT : Z := 15.
Definition SAME_DAY_CUTOFF_MIN : Z := 0.
Definition HOLD_TTL_MIN : Z := 12.

(** ** Dates (date-fns and [Date]) *)

Definition SECOND : Z := 1000.
Definition MINUTE : Z := 60000.
Definition HOUR : Z := 3600000.
Definition DAY : Z := 86400000.

Definition addMinutes (d m : Z) : Z := d + m * MINUTE.
Definition isBefore (a b : Z) : bool := a <? b.
Definition isAfter (a b : Z) : bool := b <? a.
Definition startOfDay (d : Z) : Z := DAY * (d / DAY).
Definition setHours (d h : Z) : Z := d - ((d mod DAY) / HOUR) * HOUR + h * HOUR.
Definition setMinutes (d m : Z) : Z := d - ((d mod HOUR) / MINUTE) * MINUTE + m * MINUTE.
Definition setSeconds (d s : Z) : Z := d - ((d mod MINUTE) / SECOND) * SECOND + s * SECOND.
Definition isSameDay (a b : Z) : bool := startOfDay a =? startOfDay b.

(** [Date.prototype.getDay]: 1 January 1970 was a Thursday. *)
Definition getDay (d : Z) : Z := (d / DAY + 4) mod 7.

(** [formatISO(d, {representation:"complete"}).slice(0,19)], read back by
    [parseISO]: the milliseconds are dropped. *)
Definition formatISO (d : Z) : Z := SECOND * (d / SECOND).

(** [formatISO(d, {representation:"date"})], read back by [new Date]:
    midnight UTC of the local date, which is the local midnight in the
    zone of the embedding.  [Prisma.dateOnlyIn] is the same in a zone at
    an offset from UTC. *)
Definition formatISODate (d : Z) : Z := startOfDay d.

(** [areIntervalsOverlapping(left, right, {inclusive:true})] of date-fns 3,
    which orders the two ends of each interval before comparing (date-fns 2
    raises [RangeError] on an interval whose start is after its end and
    compares the ends as given otherwise). *)
Definition areIntervalsOverlapping (ls le rs re : Z) : bool :=
  (Z.min ls le <=? Z.max rs re) && (Z.min rs re <=? Z.max ls le).

(** ** Calendar helpers shared by both servers *)

Module Interval.
Record t := { start : Z; end_ : Z; endWB : Z }.
End Interval.

Definition intervalWithBuffer (serviceKey : ServiceKey) (start : Z) : Interval.t :=
  let end_ := addMinutes start (Service.duration (SERVICES serviceKey)) in
  let endWB := addMinutes end_ (BUFFERS serviceKey) in
  {| Interval.start := start; Interval.end_ := end_; Interval.endWB := endWB |}.

Module Window.
Record t := { open : Z; close : Z }.
End Window.

(** ** Store records *)

(** The [type] field of a hold: ["single"] or ["bundle"]. *)
Inductive HoldType := type_single | type_bundle.

Module Hold.
Record t := {
  id : nat;
  type : HoldType;
  groupId : option nat;
  bundleId : option string;
  service : ServiceKey;
  startISO : Z;
  endISO : Z;
  endISOWB : Z;
  email : option string;
  unitAmount : option Z;
  amount : option Z;
  expireAt : Z;
  createdAt : Z }.
End Hold.

Module Booking.
Record t := {
  id : nat;
  groupId : option nat;
  service : ServiceKey;
  startISO : Z;
  endISO : Z;
  clientEmail : option string;
  paidSessionId : string;
  createdAt : Z }.
End Booking.

Module User.
Record t := { email : string; name : string; hbotCredits : Z }.
End User.

(** The three collections (tables) and the id supply.  Users are keyed by
    their email: [/api/login] inserts a user only when [findOne({email})]
    finds none, and the Prisma variant updates [where: { email }]. *)
Record Store := {
  Bookings : list Booking.t;
  Holds : list Hold.t;
  Users : gmap string User.t;
  nextId : nat }.

Definition emptyStore : Store :=
  {| Bookings := []; Holds := []; Users := ∅; nextId := 0%nat |}.

Definition withHolds (hs : list Hold.t) (st : Store) : Store :=
  {| Bookings := Bookings st; Holds := hs; Users := Users st; nextId := nextId st |}.
Definition withBookings (bs : list Booking.t) (st : Store) : Store :=
  {| Bookings := bs; Holds := Holds st; Users := Users st; nextId := nextId st |}.
Definition withUsers (us : gmap string User.t) (st : Store) : Store :=
  {| Bookings := Bookings st; Holds := Holds st; Users := us; nextId := nextId st |}.
Definition withNextId (n : nat) (st : Store) : Store :=
  {| Bookings := Bookings st; Holds := Holds st; Users := Users st; nextId := n |}.

(** JavaScript truthiness of a possibly missing string, and [a || b]. *)
Definition truthy (s : option string) : option string :=
  match s with
  | Some "" => None
  | _ => s
  end.
Definition jsOr (a b : option string) : option string :=
  match truthy a with
  | Some x => Some x
  | None => b
  end.

(** ** Helpers of [src/server.js] (MongoDB) *)

Module Mongo.

Definition weekdayKey (date : Z) : Z := getDay date.

Definition toDay (dateStr : Z) (hhmm : Z * Z) : Z :=
  let '(H, M) := hhmm in
  let d := startOfDay dateStr in
  let d := setHours d H in
  let d := setMinutes d M in
  let d := setSeconds d 0 in
  d.

Definition businessWindowOn (dateISO : Z) : option Window.t :=
  match WEEKLY_HOURS (weekdayKey dateISO) with
  | None => None
  | Some cfg =>
      Some {| Window.open := toDay dateISO (Hours.open cfg);
              Window.close := toDay dateISO (Hours.close cfg) |}
  end.

Definition overlapsMongo (st : Store) (now : Z) (serviceKey : ServiceKey) (start endWB : Z) : bool :=
  let existing := List.filter (fun b => bool_decide (Booking.service b = serviceKey)) (Bookings st) in
  let hitBooking := existsb (fun b =>
      let buf := BUFFERS (Booking.service b) in
      let startB := Booking.startISO b in
      let endBWB := addMinutes (Booking.endISO b) buf in
      areIntervalsOverlapping start endWB startB endBWB) existing in
  if hitBooking then true
  else
    let holds := List.filter (fun h =>
        bool_decide (Hold.service h = serviceKey) && (now <? Hold.expireAt h)) (Holds st) in
    let hitHold := existsb (fun h =>
        let s := Hold.startISO h in
        let e := Hold.endISOWB h in
        areIntervalsOverlapping start endWB s e) holds in
    hitHold.

Definition withinHours (serviceKey : ServiceKey) (startISO : Z) : bool :=
  match businessWindowOn startISO with
  | None => false
  | Some win =>
      let iv := intervalWithBuffer serviceKey startISO in
      if isBefore (Interval.start iv) (Window.open win) then false
      else if isAfter (Interval.end_ iv) (Window.close win) then false
      else true
  end.

Definition sameDayCutoffOK (now startISO : Z) : bool :=
  if SAME_DAY_CUTOFF_MIN =? 0 then true
  else
    let start := startISO in
    if negb (isSameDay start now) then true
    else SAME_DAY_CUTOFF_MIN * MINUTE <=? start - now.

(** The TTL index [Holds.createIndex({expireAt:1},{expireAfterSeconds:0})]:
    the database's background monitor removes, whenever it runs, the holds
    whose [expireAt] has passed. *)
Definition ttlSweep (now : Z) (st : Store) : Store :=
  withHolds (List.filter (fun h => now <? Hold.expireAt h) (Holds st)) st.

End Mongo.

(** ** Helpers of the Prisma (PostgreSQL) server *)

Module Prisma.

Definition businessWindowOn (dateISO : Z) : option Window.t :=
  let d := dateISO in
  let dow := getDay d in
  match WEEKLY_HOURS dow with
  | None => None
  | Some hours =>
      let base := startOfDay d in
      let '(oh, om) := Hours.open hours in
      let '(ch, cm) := Hours.close hours in
      let open := setSeconds (setMinutes (setHours base oh) om) 0 in
      let close := setSeconds (setMinutes (setHours base ch) cm) 0 in
      Some {| Window.open := open; Window.close := close |}
  end.

(** The window is looked up from the date-only string of the start, which
    [new Date] reads as midnight UTC: the local midnight in the zone of the
    embedding. *)
Definition withinHours (serviceKey : ServiceKey) (startISO : Z) : bool :=
  let d := startISO in
  match businessWindowOn (formatISODate d) with
  | None => false
  | Some win =>
      let iv := intervalWithBuffer serviceKey d in
      negb (isAfter d (Window.close win))
      && negb (isAfter (Interval.end_ iv) (Window.close win))
      && negb (isAfter (Window.open win) d)
  end.

(** The same check in a process zone whose wall clock is [offset]
    milliseconds ahead of UTC (negative west of Greenwich), instants being
    counted on the wall clock.  [new Date("YYYY-MM-DD")] is midnight UTC
    of the date: the wall clock then shows [offset] past the local
    midnight of that date, a time of the day before when [offset] is
    negative.  Everything else in the check is local time. *)
Definition dateOnlyIn (offset : Z) (d : Z) : Z := startOfDay d + offset.

Definition withinHoursIn (offset : Z) (serviceKey : ServiceKey) (startISO : Z) : bool :=
  let d := startISO in
  match businessWindowOn (dateOnlyIn offset d) with
  | None => false
  | Some win =>
      let iv := intervalWithBuffer serviceKey d in
      negb (isAfter d (Window.close win))
      && negb (isAfter (Interval.end_ iv) (Window.close win))
      && negb (isAfter (Window.open win) d)
  end.

Definition sameDayCutoffOK (now startISO : Z) : bool :=
  if SAME_DAY_CUTOFF_MIN <=? 0 then true
  else
    let start := startISO in
    if negb (isSameDay now start) then true
    else addMinutes now SAME_DAY_CUTOFF_MIN <=? start.

Definition overlapsPrisma (st : Store) (now : Z) (serviceKey : ServiceKey) (start endWB : Z) : bool :=
  let existing := List.filter (fun b =>
      bool_decide (Booking.service b = serviceKey)
      && (Booking.startISO b <? endWB)
      && (start <? Booking.endISO b)) (Bookings st) in
  let holds := List.filter (fun h =>
      bool_decide (Hold.service h = serviceKey)
      && (Hold.startISO h <? endWB)
      && (start <? Hold.endISOWB h)
      && (now <? Hold.expireAt h)) (Holds st) in
  (0 <? length existing)%nat || (0 <? length holds)%nat.

(** [orderBy: { startISO: 'asc' }] of the [Holds.find] wrapper. *)
Fixpoint insertByStartISO (h : Hold.t) (l : list Hold.t) : list Hold.t :=
  match l with
  | [] => [h]
  | x :: r =>
      if Hold.startISO h <=? Hold.startISO x then h :: l
      else x :: insertByStartISO h r
  end.

Definition orderByStartISO (l : list Hold.t) : list Hold.t :=
  foldr insertByStartISO [] l.

End Prisma.

(** ** The two backends behind one interface

    The request handlers of the two servers are the same text up to the
    conflict check they call, the formulation of the calendar helpers, the
    order in which [Holds.find] returns its rows, what [insertMany] does
    with an empty batch (the MongoDB driver rejects it, which is why the
    confirm route guards its own [insertMany] with [batch.length]), and
    what [/api/confirm] does after a lookup of the hold that finds
    nothing: [src/server.js] has the one lookup [Holds.findOne({ _id })];
    the Prisma server goes on to a second one,
    [|| await Holds.findOne({ _id: holdId })], on a field its client does
    not have, which throws into the [catch] of the route. *)

Class Backend := {
  overlaps : Store -> Z -> ServiceKey -> Z -> Z -> bool;
  businessWindowOn : Z -> option Window.t;
  withinHours : ServiceKey -> Z -> bool;
  sameDayCutoffOK : Z -> Z -> bool;
  findOrder : list Hold.t -> list Hold.t;
  insertManyTakesEmpty : bool;
  fallbackLookupThrows : bool }.

Definition mongo : Backend := {|
  overlaps := Mongo.overlapsMongo;
  businessWindowOn := Mongo.businessWindowOn;
  withinHours := Mongo.withinHours;
  sameDayCutoffOK := Mongo.sameDayCutoffOK;
  findOrder := fun l => l;
  insertManyTakesEmpty := false;
  fallbackLookupThrows := false |}.

Definition prisma : Backend := {|
  overlaps := Prisma.overlapsPrisma;
  businessWindowOn := Prisma.businessWindowOn;
  withinHours := Prisma.withinHours;
  sameDayCutoffOK := Prisma.sameDayCutoffOK;
  findOrder := Prisma.orderByStartISO;
  insertManyTakesEmpty := true;
  fallbackLookupThrows := true |}.

(** ** Requests and replies *)

(** A selection of a bundle request.  The routes never test
    [sel.service]; the record covers the requests whose selections name
    services of the catalogue, the others being outside the embedding
    (they make [intervalWithBuffer] throw). *)
Module Selection.
Record t := { service : ServiceKey; startISO : Z }.
End Selection.

(** [{ ok:true, holdId | groupId }], [{ ok:false, error }], or an exception
    leaving the function. *)
Inductive HoldResult :=
| HoldOk (ident : nat)
| HoldRefused (error : string)
| HoldThrew.

(** Metadata attached to the Stripe checkout session and read back by
    [/api/confirm]. *)
Inductive Metadata :=
| MetaSingle (service : ServiceKey) (startISO : Z) (holdId : nat)
| MetaBundle (bundleId : string) (groupId : nat)
| MetaOther.

Module Checkout.
Record t := { unit_amount : Z; metadata : Metadata }.
End Checkout.

Module Session.
Record t := { id : string; paid : bool; metadata : Metadata }.
End Session.

(** A JSON reply with status 200, an error reply [{ error }] with its
    status, or no reply (an exception escaped an async handler). *)
Inductive Reply (A : Type) : Type :=
| Json (body : A)
| Refused (status : Z) (error : string)
| NoReply.
Arguments Json {A} body.
Arguments Refused {A} status error.
Arguments NoReply {A}.

Inductive Confirmed :=
| ConfirmedSingle
| ConfirmedBundle (bundleId : string).

Module Slot.
Record t := { startISO : Z; endISO : Z }.
End Slot.

Definition userPriceFor (serviceKey : ServiceKey) (user : option User.t) : Z :=
  match user with
  | Some u =>
      if bool_decide (serviceKey = hbot) && (0 <? User.hbotCredits u) then 60
      else Service.price (SERVICES serviceKey)
  | None => Service.price (SERVICES serviceKey)
  end.

(** [email ? await Users.findOne({ email }) : null] *)
Definition userOfCookie (st : Store) (email : option string) : option User.t :=
  match truthy email with
  | Some e => Users st !! e
  | None => None
  end.

Fixpoint mapFrom {A B : Type} (f : nat -> A -> B) (n : nat) (l : list A) : list B :=
  match l with
  | [] => []
  | x :: r => f n x :: mapFrom f (S n) r
  end.

(** [Holds.findOne({ _id: holdId })] of [src/server.js] and
    [Holds.findOne({ id: holdId })], the first of the two lookups of the
    Prisma server. *)
Definition findHold (st : Store) (holdId : nat) : option Hold.t :=
  List.find (fun h => Nat.eqb (Hold.id h) holdId) (Holds st).

Fixpoint deleteOne (holdId : nat) (l : list Hold.t) : list Hold.t :=
  match l with
  | [] => []
  | h :: r => if Nat.eqb (Hold.id h) holdId then r else h :: deleteOne holdId r
  end.

Definition inGroup (groupId : nat) (h : Hold.t) : bool :=
  bool_decide (Hold.groupId h = Some groupId).

Definition deleteMany (groupId : nat) (l : list Hold.t) : list Hold.t :=
  List.filter (fun h => negb (inGroup groupId h)) l.

(** ** Request handlers *)

Section Handlers.
Context {B : Backend}.

(** *** Soft holds *)

Definition placeHoldSingle (st : Store) (now : Z)
    (service : ServiceKey) (startISO : Z) (email : option string) (unitAmount : Z)
  : HoldResult * Store :=
  let start := startISO in
  let iv := intervalWithBuffer service start in
  if negb (withinHours service startISO) then (HoldRefused "outside business hours", st)
  else if negb (sameDayCutoffOK now startISO) then (HoldRefused "past cutoff for today", st)
  else if overlaps st now service start (Interval.endWB iv) then (HoldRefused "slot currently unavailable", st)
  else
    let expireAt := addMinutes now HOLD_TTL_MIN in
    let doc := {|
      Hold.id := nextId st;
      Hold.type := type_single;
      Hold.groupId := None;
      Hold.bundleId := None;
      Hold.service := service;
      Hold.startISO := formatISO start;
      Hold.endISO := formatISO (Interval.end_ iv);
      Hold.endISOWB := formatISO (Interval.endWB iv);
      Hold.email := jsOr email None;
      Hold.unitAmount := Some unitAmount;
      Hold.amount := None;
      Hold.expireAt := expireAt;
      Hold.createdAt := now |} in
    (HoldOk (Hold.id doc), withNextId (S (nextId st)) (withHolds (Holds st ++ [doc]) st)).

(** The three tests of the validation loop of [placeHoldBundle], in order;
    [None] when the selection passes. *)
Definition selectionError (st : Store) (now : Z) (sel : Selection.t) : option string :=
  if negb (withinHours (Selection.service sel) (Selection.startISO sel)) then Some "outside hours"
  else if negb (sameDayCutoffOK now (Selection.startISO sel)) then Some "past cutoff"
  else
    let start := Selection.startISO sel in
    let iv := intervalWithBuffer (Selection.service sel) start in
    if overlaps st now (Selection.service sel) start (Interval.endWB iv)
    then Some "one or more slots unavailable"
    else None.

(** [for (const sel of selections) { ... return ... }]: the first failing
    selection leaves the function. *)
Fixpoint validateSelections (st : Store) (now : Z) (selections : list Selection.t) : option string :=
  match selections with
  | [] => None
  | sel :: rest =>
      match selectionError st now sel with
      | Some e => Some e
      | None => validateSelections st now rest
      end
  end.

Definition bundleDoc (now : Z) (groupId : nat) (bundleId : string)
    (email : option string) (amount : Z) (ident : nat) (sel : Selection.t) : Hold.t :=
  let start := Selection.startISO sel in
  let iv := intervalWithBuffer (Selection.service sel) start in
  {| Hold.id := ident;
     Hold.type := type_bundle;
     Hold.groupId := Some groupId;
     Hold.bundleId := Some bundleId;
     Hold.service := Selection.service sel;
     Hold.startISO := formatISO start;
     Hold.endISO := formatISO (Interval.end_ iv);
     Hold.endISOWB := formatISO (Interval.endWB iv);
     Hold.email := jsOr email None;
     Hold.unitAmount := None;
     Hold.amount := Some amount;
     Hold.expireAt := addMinutes now HOLD_TTL_MIN;
     Hold.createdAt := now |}.

Definition placeHoldBundle (st : Store) (now : Z)
    (bundleId : string) (selections : list Selection.t) (email : option string) (amount : Z)
  : HoldResult * Store :=
  match validateSelections st now selections with
  | Some e => (HoldRefused e, st)
  | None =>
      let groupId := nextId st in
      let docs := mapFrom (bundleDoc now groupId bundleId email amount) (S groupId) selections in
      match docs with
      | [] => if insertManyTakesEmpty then (HoldOk groupId, withNextId (S groupId) st)
              else (HoldThrew, st)
      | _ :: _ =>
          (HoldOk groupId,
           withNextId (S groupId + length docs)%nat (withHolds (Holds st ++ docs) st))
      end
  end.

(** *** Quote and checkout

    A [service] parameter is [Some] key of the catalogue, or [None] when
    the request carries none or a name for which [SERVICES[service]] is
    undefined.  Names that every object inherits (["constructor"]) pass
    that test and are outside the embedding. *)

Definition quote (st : Store) (cookie : option string) (service : option ServiceKey) : Reply Z :=
  let user := userOfCookie st cookie in
  match service with
  | None => Refused 400 "unknown service"
  | Some service => Json (userPriceFor service user)
  end.

Definition checkout_single (st : Store) (now : Z) (cookie : option string)
    (service : option ServiceKey) (startISO : option Z) : Reply Checkout.t * Store :=
  let email := cookie in
  let user := userOfCookie st email in
  match service, startISO with
  | Some service, Some startISO =>
      let unitAmount := userPriceFor service user * 100 in
      match placeHoldSingle st now service startISO email unitAmount with
      | (HoldOk holdId, st') =>
          (Json {| Checkout.unit_amount := unitAmount;
                   Checkout.metadata := MetaSingle service startISO holdId |}, st')
      | (HoldRefused e, st') => (Refused 409 e, st')
      | (HoldThrew, st') => (NoReply, st')
      end
  | _, _ => (Refused 400 "missing service/startISO", st)
  end.

Definition checkout_bundle (st : Store) (now : Z) (cookie : option string)
    (bundleId : string) (selections : option (list Selection.t)) : Reply Checkout.t * Store :=
  let email := cookie in
  match List.find (fun b => String.eqb (Bundle.id b) bundleId) BUNDLES with
  | None => (Refused 400 "invalid bundleId", st)
  | Some bundle =>
      match selections with
      | None => (Refused 400 "selections must match bundle services", st)
      | Some selections =>
          if negb (Nat.eqb (length selections) (length (Bundle.services bundle)))
          then (Refused 400 "selections must match bundle services", st)
          else
            match placeHoldBundle st now bundleId selections email (Bundle.price bundle * 100) with
            | (HoldOk groupId, st') =>
                (Json {| Checkout.unit_amount := Bundle.price bundle * 100;
                         Checkout.metadata := MetaBundle bundleId groupId |}, st')
            | (HoldRefused e, st') => (Refused 409 e, st')
            | (HoldThrew, st') => (NoReply, st')
            end
      end
  end.

(** *** Confirmation *)

(** The credit step of the single branch of [/api/confirm]. *)
Definition consumeCredit (st : Store) (service : ServiceKey) (email : option string)
    (hold : Hold.t) : Store :=
  match bool_decide (service = hbot), truthy email with
  | true, Some e =>
      match Users st !! e with
      | Some user =>
          if (0 <? User.hbotCredits user) && bool_decide (Hold.unitAmount hold = Some 6000)
          then withUsers (<[e := {| User.email := User.email user;
                                    User.name := User.name user;
                                    User.hbotCredits := User.hbotCredits user - 1 |}]> (Users st)) st
          else st
      | None => st
      end
  | _, _ => st
  end.

Definition bookingOfHold (now : Z) (groupId : nat) (email : option string)
    (paidSessionId : string) (ident : nat) (h : Hold.t) : Booking.t :=
  let start := Hold.startISO h in
  let iv := intervalWithBuffer (Hold.service h) start in
  {| Booking.id := ident;
     Booking.groupId := Some groupId;
     Booking.service := Hold.service h;
     Booking.startISO := formatISO start;
     Booking.endISO := formatISO (Interval.end_ iv);
     Booking.clientEmail := email;
     Booking.paidSessionId := paidSessionId;
     Booking.createdAt := now |}.

Definition confirm (stripe : string -> option Session.t) (st : Store) (now : Z)
    (cookie : option string) (session_id : option string) : Reply Confirmed * Store :=
  let emailCookie := jsOr cookie None in
  match truthy session_id with
  | None => (Refused 400 "missing session_id", st)
  | Some sid =>
  match stripe sid with
  | None => (Refused 402 "payment not completed", st)
  | Some session =>
  if negb (Session.paid session) then (Refused 402 "payment not completed", st)
  else
    match Session.metadata session with
    | MetaSingle service startISO holdId =>
        match findHold st holdId with
        | None =>
            if fallbackLookupThrows then (Refused 500 "confirm failed", st)
            else (Refused 409 "hold expired; payment safe — please reschedule", st)
        | Some hold =>
            let start := startISO in
            let iv := intervalWithBuffer service start in
            let email := jsOr (Hold.email hold) emailCookie in
            let st := consumeCredit st service email hold in
            let booking := {|
              Booking.id := nextId st;
              Booking.groupId := None;
              Booking.service := service;
              Booking.startISO := formatISO start;
              Booking.endISO := formatISO (Interval.end_ iv);
              Booking.clientEmail := jsOr email None;
              Booking.paidSessionId := Session.id session;
              Booking.createdAt := now |} in
            let st := withNextId (S (nextId st)) (withBookings (Bookings st ++ [booking]) st) in
            let st := withHolds (deleteOne holdId (Holds st)) st in
            (Json ConfirmedSingle, st)
        end
    | MetaBundle bundleId groupId =>
        let holds := findOrder (List.filter (inGroup groupId) (Holds st)) in
        match holds with
        | [] => (Refused 409 "bundle holds expired; payment safe — please contact us", st)
        | h0 :: _ =>
            let email := jsOr (jsOr (Hold.email h0) emailCookie) None in
            let batch := mapFrom (bookingOfHold now groupId email (Session.id session))
                                 (nextId st) holds in
            let st := withNextId (nextId st + length batch)%nat
                        (withBookings (Bookings st ++ batch) st) in
            let st := withHolds (deleteMany groupId (Holds st)) st in
            (Json (ConfirmedBundle bundleId), st)
        end
    | MetaOther => (Refused 400 "bad metadata", st)
    end
  end
  end.

(** *** Availability *)

Definition inspect {A : Type} (a : A) : { b : A | a = b } := exist _ a eq_refl.

(** The [while] loop of [/api/availability], from the cursor on. *)
Equations? slotLoop (st : Store) (now : Z) (service : ServiceKey) (close cursor : Z)
  : list Slot.t
  by wf (Z.to_nat ((close - addMinutes cursor (Service.duration (SERVICES service)))
                   / (SLOT * MINUTE) + 1)) lt :=
  slotLoop st now service close cursor
    with inspect (isAfter (addMinutes cursor (Service.duration (SERVICES service))) close) := {
    | exist _ true _ := [];
    | exist _ false _ :=
        let iv := intervalWithBuffer service cursor in
        let conflict := overlaps st now service (Interval.start iv) (Interval.endWB iv) in
        (if conflict then []
         else [ {| Slot.startISO := formatISO (Interval.start iv);
                   Slot.endISO := formatISO (Interval.end_ iv) |} ])
        ++ slotLoop st now service close (addMinutes cursor SLOT) }.
Proof.
  unfold isAfter, addMinutes, SLOT, MINUTE in *.
  apply Z.ltb_ge in e.
  set (x := close - (cursor + Service.duration (SERVICES service) * 60000)) in *.
  replace (close - (cursor + 15 * 60000 + Service.duration (SERVICES service) * 60000))
    with (x + (-1) * (15 * 60000)) by (unfold x; lia).
  rewrite Z.div_add by lia.
  assert (0 <= x / (15 * 60000)) by (apply Z.div_pos; lia).
  lia.
Qed.

(** [date] is the instant that [new Date(`${date}T00:00:00`)] denotes. *)
Definition availability (st : Store) (now : Z) (service : option ServiceKey) (date : option Z)
  : Reply (list Slot.t) :=
  match service, date with
  | Some service, Some date =>
      match businessWindowOn date with
      | None => Json []
      | Some win => Json (slotLoop st now service (Window.close win) (Window.open win))
      end
  | _, _ => Refused 400 "bad params"
  end.

End Handlers.

(** ** The two servers *)

Inductive Variant := MongoServer | PrismaServer.

Definition backend (v : Variant) : Backend :=
  match v with
  | MongoServer => mongo
  | PrismaServer => prisma
  end.

(** An instant given by its day number since the epoch and a time of day;
    day 19723 is Monday 1 January 2024. *)
Definition atTime (day hh mm : Z) : Z := day * DAY + hh * HOUR + mm * MINUTE.
Definition monday : Z := 19723.
Definition tuesday : Z := 19724.
Definition saturday : Z := 19728.


(** ** The system as a sequence of events

    The store together with the server clock and the checkout sessions the
    payment gateway keeps.  A checkout that places its hold opens an unpaid
    session carrying the metadata; the customer pays it; [/api/confirm]
    retrieves it by id.  The TTL monitor exists on the MongoDB server only:
    the Prisma server never removes a hold except on confirmation.  An
    event is one request served from its first line to its reply. *)

Record World := { db : Store; clock : Z; sessions : list Session.t }.

Definition emptyWorld (t0 : Z) : World :=
  {| db := emptyStore; clock := t0; sessions := [] |}.

Inductive Event :=
| Wait (ms : N)
| CheckoutSingle (cookie : option string) (service : ServiceKey) (startISO : Z)
| CheckoutBundle (cookie : option string) (bundleId : string) (selections : list Selection.t)
| Pay (sid : string)
| Confirm (cookie : option string) (sid : string)
| TtlSweep.

Definition retrieve (ss : list Session.t) (sid : string) : option Session.t :=
  List.find (fun s => String.eqb (Session.id s) sid) ss.

Definition openSession (w : World) (r : Reply Checkout.t * Store) : World :=
  match r with
  | (Json co, st) =>
      {| db := st; clock := clock w;
         sessions := sessions w ++
           [ {| Session.id := "cs_" +:+ pretty (length (sessions w));
                Session.paid := false;
                Session.metadata := Checkout.metadata co |} ] |}
  | (_, st) => {| db := st; clock := clock w; sessions := sessions w |}
  end.

Definition markPaid (sid : string) (s : Session.t) : Session.t :=
  if String.eqb (Session.id s) sid
  then {| Session.id := Session.id s; Session.paid := true; Session.metadata := Session.metadata s |}
  else s.

Definition step (v : Variant) (w : World) (e : Event) : World :=
  match e with
  | Wait ms => {| db := db w; clock := clock w + Z.of_N ms; sessions := sessions w |}
  | CheckoutSingle cookie service startISO =>
      openSession w (checkout_single (B := backend v) (db w) (clock w) cookie
                       (Some service) (Some startISO))
  | CheckoutBundle cookie bundleId selections =>
      openSession w (checkout_bundle (B := backend v) (db w) (clock w) cookie
                       bundleId (Some selections))
  | Pay sid => {| db := db w; clock := clock w; sessions := map (markPaid sid) (sessions w) |}
  | Confirm cookie sid =>
      {| db := snd (confirm (B := backend v) (retrieve (sessions w)) (db w) (clock w)
                      cookie (Some sid));
         clock := clock w; sessions := sessions w |}
  | TtlSweep =>
      match v with
      | MongoServer => {| db := Mongo.ttlSweep (clock w) (db w); clock := clock w;
                          sessions := sessions w |}
      | PrismaServer => w
      end
  end.

Definition run (v : Variant) (w : World) (events : list Event) : World :=
  fold_left (step v) events w.

(** ** Properties the claims speak about *)

(** The interval of a booking with its buffer, as the conflict check of
    [src/server.js] rebuilds it. *)
Definition bookingEndWB (b : Booking.t) : Z :=
  addMinutes (Booking.endISO b) (BUFFERS (Booking.service b)).

(** Two closed intervals overlap inclusively when they share an instant, be
    it a single end point. *)
Definition inclusiveOverlap (a1 a2 b1 b2 : Z) : Prop :=
  exists t, (a1 <= t <= a2) /\ (b1 <= t <= b2).

(** A hold is live while the current time is before its expiry. *)
Definition live (now : Z) (h : Hold.t) : Prop := now < Hold.expireAt h.

(** The conflict relation in the words of the specification: the candidate
    overlaps inclusively the buffered interval of a booking of the service,
    or that of a live hold of the service. *)
Definition conflictSpec (st : Store) (now : Z) (s : ServiceKey) (start endWB : Z) : Prop :=
  (exists b, In b (Bookings st) /\ Booking.service b = s
             /\ inclusiveOverlap start endWB (Booking.startISO b) (bookingEndWB b))
  \/ (exists h, In h (Holds st) /\ Hold.service h = s /\ live now h
              /\ inclusiveOverlap start endWB (Hold.startISO h) (Hold.endISOWB h)).

(** Every stored interval runs forward in time. *)
Definition orderedStore (st : Store) : Prop :=
  (forall b, In b (Bookings st) -> Booking.startISO b <= Booking.endISO b)
  /\ (forall h, In h (Holds st) -> Hold.startISO h <= Hold.endISOWB h).

(** Two distinct bookings of one service whose buffered intervals share
    more than an end point. *)
Definition doubleBooked (st : Store) : Prop :=
  exists (i j : nat) (b1 b2 : Booking.t),
    i <> j /\ Bookings st !! i = Some b1 /\ Bookings st !! j = Some b2
    /\ Booking.service b1 = Booking.service b2
    /\ Booking.startISO b1 < bookingEndWB b2
    /\ Booking.startISO b2 < bookingEndWB b1.

(** A selection passes the validation of the bundle manager when it is
    within hours, past the same-day cutoff and free of conflicts. *)
Definition passesValidation {B : Backend} (st : Store) (now : Z) (sel : Selection.t) : Prop :=
  withinHours (Selection.service sel) (Selection.startISO sel) = true
  /\ sameDayCutoffOK now (Selection.startISO sel) = true
  /\ overlaps st now (Selection.service sel) (Selection.startISO sel)
       (Interval.endWB (intervalWithBuffer (Selection.service sel) (Selection.startISO sel)))
     = false.


(** The slot grid in the words of the specification: the cursor positions
    [open], [open + SLOT], [open + 2 SLOT], ... for which the cursor plus
    the duration of the service does not exceed [close]. *)
Definition gridCount (open close dur : Z) : nat :=
  Z.to_nat ((close - addMinutes open dur) / (SLOT * MINUTE) + 1).

Definition grid (open close dur : Z) : list Z :=
  map (fun k => addMinutes open (Z.of_nat k * SLOT)) (seq 0 (gridCount open close dur)).

Definition slotAt (service : ServiceKey) (cursor : Z) : Slot.t :=
  {| Slot.startISO := formatISO cursor;
     Slot.endISO := formatISO (addMinutes cursor (Service.duration (SERVICES service))) |}.

Definition freeAt {B : Backend} (st : Store) (now : Z) (service : ServiceKey) (cursor : Z) : bool :=
  negb (overlaps st now service cursor
          (Interval.endWB (intervalWithBuffer service cursor))).

(** Hold identifiers already in the store are below the id supply. *)
Definition idsBelowSupply (st : Store) : Prop :=
  forall h, In h (Holds st) -> (Hold.id h < nextId st)%nat.

Definition withCredits (u : User.t) (credits : Z) : User.t :=
  {| User.email := User.email u; User.name := User.name u; User.hbotCredits := credits |}.

(** ** Orderly use of the MongoDB server

    What the engine relies on without enforcing it: requested starts fall
    on whole seconds, the selections of a bundle name pairwise distinct
    services (as the services of every catalog bundle are), and a
    confirmation arrives while no expired hold is left in the store. *)

Definition wholeSecond (t : Z) : Prop := t mod SECOND = 0.

Definition orderly (w : World) (e : Event) : Prop :=
  match e with
  | CheckoutSingle _ _ startISO => wholeSecond startISO
  | CheckoutBundle _ _ selections =>
      NoDup (map Selection.service selections)
      /\ (forall sel, In sel selections -> wholeSecond (Selection.startISO sel))
  | Confirm _ _ => forall h, In h (Holds (db w)) -> live (clock w) h
  | _ => True
  end.

Fixpoint orderlyRun (v : Variant) (w : World) (events : list Event) : Prop :=
  match events with
  | [] => True
  | e :: rest => orderly w e /\ orderlyRun v (step v w e) rest
  end.

(** Two closed intervals with no instant in common. *)
Definition apart (lo1 hi1 lo2 hi2 : Z) : Prop := hi1 < lo2 \/ hi2 < lo1.

Definition holdEndWB (service : ServiceKey) (start : Z) : Z :=
  Interval.endWB (intervalWithBuffer service start).

(** A booking takes the service and the buffered interval of a hold. *)
Definition inherits (h : Hold.t) (b : Booking.t) : Prop :=
  Booking.service b = Hold.service h
  /\ Booking.startISO b = Hold.startISO h
  /\ bookingEndWB b = Hold.endISOWB h.

(** The invariant of the store and the gateway. *)
Record Inv (w : World) : Prop := {
  inv_ids : forall h, In h (Holds (db w)) -> (Hold.id h < nextId (db w))%nat;
  inv_nodup : NoDup (map Hold.id (Holds (db w)));
  inv_hold : forall h, In h (Holds (db w)) ->
      wholeSecond (Hold.startISO h)
      /\ Hold.endISOWB h = holdEndWB (Hold.service h) (Hold.startISO h);
  inv_booking : forall b, In b (Bookings (db w)) ->
      bookingEndWB b = holdEndWB (Booking.service b) (Booking.startISO b);
  inv_session : forall s service startISO holdId,
      In s (sessions w) -> Session.metadata s = MetaSingle service startISO holdId ->
      (holdId < nextId (db w))%nat
      /\ forall h, In h (Holds (db w)) -> Hold.id h = holdId ->
           Hold.service h = service /\ Hold.startISO h = startISO;
  inv_sepBB : forall (i j : nat) b1 b2,
      i <> j -> Bookings (db w) !! i = Some b1 -> Bookings (db w) !! j = Some b2 ->
      Booking.service b1 = Booking.service b2 ->
      apart (Booking.startISO b1) (bookingEndWB b1) (Booking.startISO b2) (bookingEndWB b2);
  inv_sepBH : forall b h,
      In b (Bookings (db w)) -> In h (Holds (db w)) -> live (clock w) h ->
      Booking.service b = Hold.service h ->
      apart (Booking.startISO b) (bookingEndWB b) (Hold.startISO h) (Hold.endISOWB h);
  inv_sepHH : forall h1 h2,
      In h1 (Holds (db w)) -> In h2 (Holds (db w)) -> Hold.id h1 <> Hold.id h2 ->
      live (clock w) h1 -> live (clock w) h2 ->
      Hold.service h1 = Hold.service h2 ->
      apart (Hold.startISO h1) (Hold.endISOWB h1) (Hold.startISO h2) (Hold.endISOWB h2) }.

(** ** Scenarios *)

Definition ann : option string := Some "ann@example.com".
Definition bob : option string := Some "bob@example.com".

(** Ann reserves, pays and confirms one service at 06:00 on a Monday. *)
Definition oneBooking (service : ServiceKey) (startISO : Z) : list Event :=
  [ CheckoutSingle ann service startISO; Pay "cs_0"; Confirm ann "cs_0" ].

Definition mondayMorning : World := emptyWorld (atTime monday 6 0).

(** Ann holds the 07:00 sauna slot at 06:00 and lets the hold run out; a
    second after its expiry, before any sweep, Bob holds the same slot.
    Both pay and both are confirmed. *)
Definition lateConfirmation : list Event :=
  [ CheckoutSingle ann sauna (atTime monday 7 0);
    Wait 721000;
    CheckoutSingle bob sauna (atTime monday 7 0);
    Pay "cs_0"; Confirm ann "cs_0";
    Pay "cs_1"; Confirm bob "cs_1" ].

(** One bundle checkout whose two selections name the same service at the
    same time, paid and confirmed within the life of its holds. *)
Definition twiceTheSameSlot : list Event :=
  [ CheckoutBundle ann "bundle_alt_cold_sauna"
      [ {| Selection.service := sauna; Selection.startISO := atTime monday 7 0 |};
        {| Selection.service := sauna; Selection.startISO := atTime monday 7 0 |} ];
    Pay "cs_0"; Confirm ann "cs_0" ].

(** Ann books hbot 07:00 to 08:00; Bob then reserves hbot at 08:15, inside
    the half hour of buffer after Ann's session. *)
Definition insideTheBuffer : list Event :=
  [ CheckoutSingle ann hbot (atTime monday 7 0); Pay "cs_0"; Confirm ann "cs_0";
    CheckoutSingle bob hbot (atTime monday 8 15); Pay "cs_1"; Confirm bob "cs_1" ].

(** Ann holds the 07:00 sauna slot at 06:00 and completes her payment one
    second after the twelve minutes of the hold. *)
Definition paidTooLate : list Event :=
  [ CheckoutSingle ann sauna (atTime monday 7 0); Wait 721000; Pay "cs_0" ].

Definition bundlePaidTooLate : list Event :=
  [ CheckoutBundle ann "bundle_alt_cold_sauna"
      [ {| Selection.service := icebath; Selection.startISO := atTime monday 7 0 |};
        {| Selection.service := sauna; Selection.startISO := atTime monday 7 15 |} ];
    Wait 721000; Pay "cs_0" ].

(** A store whose only content is Ann's account with a credit balance. *)
Definition annWithCredits (credits : Z) : Store :=
  withUsers {[ "ann@example.com" :=
               {| User.email := "ann@example.com"; User.name := "Ann";
                  User.hbotCredits := credits |} ]} emptyStore.

(** Ann, with a single credit, reserves two hbot sessions on Tuesday, at
    07:00 and at 10:00, pays both and has the first confirmed. *)
Definition annWithOneCredit : World :=
  {| db := annWithCredits 1; clock := atTime monday 6 0; sessions := [] |}.

Definition twoOnOneCredit : list Event :=
  [ CheckoutSingle ann hbot (atTime tuesday 7 0);
    CheckoutSingle ann hbot (atTime tuesday 10 0);
    Pay "cs_0"; Pay "cs_1"; Confirm ann "cs_0" ].

Definition afterFirstConfirmation : World :=
  run MongoServer annWithOneCredit twoOnOneCredit.

(** Ann books the sauna at 07:00; Bob asks for 07:15, which touches the
    end of her session and is refused, and then books 07:30. *)
Definition saunaTwice : list Event :=
  [ CheckoutSingle ann sauna (atTime monday 7 0); Pay "cs_0"; Confirm ann "cs_0";
    CheckoutSingle bob sauna (atTime monday 7 15);
    CheckoutSingle bob sauna (atTime monday 7 30); Pay "cs_1"; Confirm bob "cs_1" ].

(** A request for the cold plunge and sauna bundle that names neither. *)
Definition strangerSelections : list Selection.t :=
  [ {| Selection.service := hbot; Selection.startISO := atTime monday 8 0 |};
    {| Selection.service := lymph; Selection.startISO := atTime monday 10 0 |} ].

(** The gateway after Ann's paid checkout of the Tuesday 10:00 hbot slot
    from the store [annWithCredits 3]. *)
Definition annSession : Session.t :=
  {| Session.id := "cs_0"; Session.paid := true;
     Session.metadata := MetaSingle hbot (atTime tuesday 10 0) 0 |}.

Definition gateway (sid : string) : option Session.t :=
  if String.eqb sid "cs_0" then Some annSession else None.

(** The two selections of the cold plunge and sauna bundle on a Monday
    morning, and the same with the sauna moved to a Saturday. *)
Definition coldThenSauna : list Selection.t :=
  [ {| Selection.service := icebath; Selection.startISO := atTime monday 7 0 |};
    {| Selection.service := sauna; Selection.startISO := atTime monday 7 15 |} ].

Definition coldThenSaturday : list Selection.t :=
  [ {| Selection.service := icebath; Selection.startISO := atTime monday 7 0 |};
    {| Selection.service := sauna; Selection.startISO := atTime saturday 7 15 |} ].

(** A store whose only content is one booking: hbot on Monday from 07:00
    to 08:00, buffered until 08:30. *)
Definition hbotAtSeven : Store :=
  withBookings
    [ {| Booking.id := 1%nat; Booking.groupId := None; Booking.service := hbot;
         Booking.startISO := atTime monday 7 0; Booking.endISO := atTime monday 8 0;
         Booking.clientEmail := ann; Booking.paidSessionId := "cs_0";
         Booking.createdAt := atTime monday 6 5 |} ]
    (withNextId 2 emptyStore).

(** The store and the gateway after Ann's paid checkout of the Monday 07:00
    sauna slot. *)
Definition heldForAnn : World :=
  run MongoServer mondayMorning [ CheckoutSingle ann sauna (atTime monday 7 0); Pay "cs_0" ].

(** ** Accounts *)

(** [/api/login]: the reply carries the user and sets the cookie to the
    email of the request. *)
Definition login (st : Store) (email name : option string) : Reply User.t * Store :=
  match truthy email with
  | None => (Refused 400 "email required", st)
  | Some e =>
      match Users st !! e with
      | None =>
          let u := {| User.email := e;
                      User.name := match truthy name with Some n => n | None => "" end;
                      User.hbotCredits := 0 |} in
          (Json u, withUsers (<[e := u]> (Users st)) st)
      | Some u =>
          match truthy name with
          | Some n =>
              if String.eqb (User.name u) ""
              then
                let u' := {| User.email := User.email u; User.name := n;
                             User.hbotCredits := User.hbotCredits u |} in
                (Json u', withUsers (<[e := u']> (Users st)) st)
              else (Json u, st)
          | None => (Json u, st)
          end
      end
  end.

(** [/api/me] *)
Definition me (st : Store) (cookie : option string) : option User.t :=
  userOfCookie st cookie.

(** [/api/grant-hbot-pack] *)
Definition grant_hbot_pack (st : Store) (email : option string) : Reply User.t * Store :=
  match truthy email with
  | None => (Refused 400 "email required", st)
  | Some e =>
      match Users st !! e with
      | None => (Refused 404 "unknown email", st)
      | Some u =>
          let updated := withCredits u (User.hbotCredits u + 10) in
          (Json updated, withUsers (<[e := updated]> (Users st)) st)
      end
  end.

(** ** Customer and admin listings *)

(** [sort({ key: 1 })] and [orderBy: { key: 'asc' }]; stored ISO strings
    of one format compare as the instants they denote. *)
Fixpoint insertAsc {A : Type} (key : A -> Z) (x : A) (l : list A) : list A :=
  match l with
  | [] => [x]
  | y :: r => if key x <=? key y then x :: l else y :: insertAsc key x r
  end.

Definition sortAsc {A : Type} (key : A -> Z) (l : list A) : list A :=
  foldr (insertAsc key) [] l.

(** [sort({ key: -1 })] and [orderBy: { key: 'desc' }]. *)
Definition sortDesc {A : Type} (key : A -> Z) (l : list A) : list A :=
  sortAsc (fun x => - key x) l.

(** [/api/my-bookings] *)
Definition my_bookings (st : Store) (cookie : option string) : Reply (list Booking.t) :=
  match truthy cookie with
  | None => Refused 401 "not logged in"
  | Some email =>
      Json (take 200 (sortDesc Booking.startISO
              (List.filter (fun b => bool_decide (Booking.clientEmail b = Some email))
                           (Bookings st))))
  end.

(** [requireAdmin]: [ADMIN_TOKEN] is read from the environment and
    defaults to the empty string; the token of the request is
    [req.query.token || req.headers["x-admin-token"]]. *)
Definition requireAdmin (ADMIN_TOKEN : string) (queryToken headerToken : option string) : bool :=
  let token := jsOr queryToken headerToken in
  negb (String.eqb ADMIN_TOKEN "" || negb (bool_decide (token = Some ADMIN_TOKEN))).

Module Overview.
Record t := { users : nat; bookings : nat; activeHolds : nat }.
End Overview.

(** [/admin/api/overview] *)
Definition admin_overview (ADMIN_TOKEN : string) (queryToken headerToken : option string)
    (st : Store) (now : Z) : Reply Overview.t :=
  if requireAdmin ADMIN_TOKEN queryToken headerToken
  then Json {| Overview.users := size (Users st);
               Overview.bookings := length (Bookings st);
               Overview.activeHolds :=
                 length (List.filter (fun h => now <? Hold.expireAt h) (Holds st)) |}
  else Refused 401 "Unauthorized".

(** [/admin/api/bookings] *)
Definition admin_bookings (ADMIN_TOKEN : string) (queryToken headerToken : option string)
    (st : Store) : Reply (list Booking.t) :=
  if requireAdmin ADMIN_TOKEN queryToken headerToken
  then Json (take 500 (sortAsc Booking.startISO (Bookings st)))
  else Refused 401 "Unauthorized".

(** [/admin/api/holds] *)
Definition admin_holds (ADMIN_TOKEN : string) (queryToken headerToken : option string)
    (st : Store) (now : Z) : Reply (list Hold.t) :=
  if requireAdmin ADMIN_TOKEN queryToken headerToken
  then Json (take 500 (sortAsc Hold.expireAt
               (List.filter (fun h => now <? Hold.expireAt h) (Holds st))))
  else Refused 401 "Unauthorized".

(** ** The system with the account routes

    The events of [Event] together with the two routes that write
    accounts. *)
Inductive Request :=
| Core (e : Event)
| Login (email name : option string)
| GrantPack (email : option string).

Definition serve (v : Variant) (w : World) (r : Request) : World :=
  match r with
  | Core e => step v w e
  | Login email name =>
      {| db := snd (login (db w) email name); clock := clock w; sessions := sessions w |}
  | GrantPack email =>
      {| db := snd (grant_hbot_pack (db w) email); clock := clock w; sessions := sessions w |}
  end.

Definition serveAll (v : Variant) (w : World) (requests : list Request) : World :=
  fold_left (serve v) requests w.

(** The [slots] of an availability reply; none on an error reply. *)
Definition slotsOf (r : Reply (list Slot.t)) : list Slot.t :=
  match r with
  | Json slots => slots
  | _ => []
  end.

(** ** What every reachable world satisfies *)

(** The hold document that [placeHoldSingle] inserts. *)
Definition singleDoc (st : Store) (now : Z) (service : ServiceKey) (startISO : Z)
    (email : option string) (unitAmount : Z) : Hold.t :=
  let iv := intervalWithBuffer service startISO in
  {| Hold.id := nextId st;
     Hold.type := type_single;
     Hold.groupId := None;
     Hold.bundleId := None;
     Hold.service := service;
     Hold.startISO := formatISO startISO;
     Hold.endISO := formatISO (Interval.end_ iv);
     Hold.endISOWB := formatISO (Interval.endWB iv);
     Hold.email := jsOr email None;
     Hold.unitAmount := Some unitAmount;
     Hold.amount := None;
     Hold.expireAt := addMinutes now HOLD_TTL_MIN;
     Hold.createdAt := now |}.

Definition holdShaped (now : Z) (h : Hold.t) : Prop :=
  Hold.endISO h = addMinutes (Hold.startISO h) (Service.duration (SERVICES (Hold.service h)))
  /\ Hold.endISOWB h = addMinutes (Hold.endISO h) (BUFFERS (Hold.service h))
  /\ Hold.expireAt h = addMinutes (Hold.createdAt h) HOLD_TTL_MIN
  /\ Hold.createdAt h <= now
  /\ formatISO (Hold.startISO h) = Hold.startISO h.

Definition bookingShaped (w : World) (b : Booking.t) : Prop :=
  Booking.endISO b
    = addMinutes (Booking.startISO b) (Service.duration (SERVICES (Booking.service b)))
  /\ Booking.createdAt b <= clock w
  /\ exists s, In s (sessions w) /\ Session.id s = Booking.paidSessionId b
               /\ Session.paid s = true.

Record Wf (w : World) : Prop := {
  wf_ids : idsBelowSupply (db w);
  wf_nodup : NoDup (map Hold.id (Holds (db w)));
  wf_hold : forall h, In h (Holds (db w)) -> holdShaped (clock w) h;
  wf_booking : forall b, In b (Bookings (db w)) -> bookingShaped w b;
  wf_users : forall e u, Users (db w) !! e = Some u ->
      User.email u = e /\ 0 <= User.hbotCredits u;
  wf_session : forall s service startISO holdId,
      In s (sessions w) -> Session.metadata s = MetaSingle service startISO holdId ->
      (holdId < nextId (db w))%nat
      /\ forall h, In h (Holds (db w)) -> Hold.id h = holdId ->
           Hold.service h = service /\ Hold.startISO h = formatISO startISO }.

(** * Calendar *)

Lemma startOfDay_idem d : startOfDay (startOfDay d) = startOfDay d.
Proof.
  unfold startOfDay, DAY. rewrite (Z.mul_comm 86400000 (d / 86400000)).
  rewrite Z.div_mul by lia. lia.
Qed.

Lemma getDay_startOfDay d : getDay (startOfDay d) = getDay d.
Proof.
  unfold getDay, startOfDay, DAY. rewrite (Z.mul_comm 86400000 (d / 86400000)).
  rewrite Z.div_mul by lia. lia.
Qed.

(** Both formulations anchor an [HH:MM] time at midnight of the day. *)
Lemma toDay_eq d h m : Mongo.toDay d (h, m) = startOfDay d + h * HOUR + m * MINUTE.
Proof.
  unfold Mongo.toDay, setSeconds, setMinutes, setHours.
  assert (H0 : startOfDay d mod DAY = 0).
  { unfold startOfDay. rewrite Z.mul_comm. apply Z.mod_mul. unfold DAY; lia. }
  rewrite H0. change (0 / HOUR) with 0. rewrite Z.mul_0_l, Z.sub_0_r.
  assert (H1 : (startOfDay d + h * HOUR) mod HOUR = 0).
  { unfold startOfDay. change DAY with (24 * HOUR).
    replace (24 * HOUR * (d / (24 * HOUR)) + h * HOUR)
      with ((24 * (d / (24 * HOUR)) + h) * HOUR) by lia.
    apply Z.mod_mul. unfold HOUR; lia. }
  rewrite H1. change (0 / MINUTE) with 0. rewrite Z.mul_0_l, Z.sub_0_r.
  assert (H2 : (startOfDay d + h * HOUR + m * MINUTE) mod MINUTE = 0).
  { unfold startOfDay. change DAY with (1440 * MINUTE). change HOUR with (60 * MINUTE).
    replace (1440 * MINUTE * (d / (1440 * MINUTE)) + h * (60 * MINUTE) + m * MINUTE)
      with ((1440 * (d / (1440 * MINUTE)) + h * 60 + m) * MINUTE) by lia.
    apply Z.mod_mul. unfold MINUTE; lia. }
  rewrite H2. change (0 / SECOND) with 0. lia.
Qed.

Lemma businessWindowOn_same d : Prisma.businessWindowOn d = Mongo.businessWindowOn d.
Proof.
  unfold Prisma.businessWindowOn, Mongo.businessWindowOn, Mongo.weekdayKey.
  destruct (WEEKLY_HOURS (getDay d)) as [[[oh om] [ch cm]]|]; [|reflexivity].
  cbn [Hours.open Hours.close]. reflexivity.
Qed.

Lemma businessWindowOn_startOfDay d :
  Mongo.businessWindowOn (startOfDay d) = Mongo.businessWindowOn d.
Proof.
  unfold Mongo.businessWindowOn, Mongo.weekdayKey. rewrite getDay_startOfDay.
  destruct (WEEKLY_HOURS (getDay d)) as [[[oh om] [ch cm]]|]; [|reflexivity].
  cbn [Hours.open Hours.close]. rewrite !toDay_eq, startOfDay_idem. reflexivity.
Qed.

Lemma duration_nonneg s : 0 <= Service.duration (SERVICES s).
Proof. destruct s; cbn; lia. Qed.

Lemma buffer_nonneg s : 0 <= BUFFERS s.
Proof. destruct s; cbn; lia. Qed.

(** * Business hours *)

Lemma withinHours_mongo_iff s t :
  Mongo.withinHours s t = true <->
  exists win, Mongo.businessWindowOn (startOfDay t) = Some win
              /\ Window.open win <= t
              /\ addMinutes t (Service.duration (SERVICES s)) <= Window.close win.
Proof.
  unfold Mongo.withinHours. rewrite businessWindowOn_startOfDay.
  destruct (Mongo.businessWindowOn t) as [win|].
  - cbn [intervalWithBuffer Interval.start Interval.end_]. unfold isBefore, isAfter.
    destruct (Z.ltb_spec t (Window.open win));
      destruct (Z.ltb_spec (Window.close win) (addMinutes t (Service.duration (SERVICES s))));
      split; try discriminate; try (intros (w & [= <-] & ? & ?); lia).
    intros _. exists win. repeat split; lia.
  - split; [discriminate | intros (w & [=] & _)].
Qed.

Lemma withinHours_prisma_iff s t :
  Prisma.withinHours s t = true <->
  exists win, Prisma.businessWindowOn (startOfDay t) = Some win
              /\ Window.open win <= t
              /\ addMinutes t (Service.duration (SERVICES s)) <= Window.close win.
Proof.
  unfold Prisma.withinHours, formatISODate.
  destruct (Prisma.businessWindowOn (startOfDay t)) as [win|].
  - cbn [intervalWithBuffer Interval.start Interval.end_]. unfold isAfter.
    pose proof (duration_nonneg s) as Hd.
    assert (t <= addMinutes t (Service.duration (SERVICES s)))
      by (unfold addMinutes, MINUTE; lia).
    rewrite !andb_true_iff, !negb_true_iff, !Z.ltb_ge.
    split.
    + intros [[? ?] ?]. exists win. repeat split; lia.
    + intros (w & [= <-] & ? & ?). repeat split; lia.
  - split; [discriminate | intros (w & [=] & _)].
Qed.

(** The two formulations of the check agree. *)
Lemma withinHours_same s t : Prisma.withinHours s t = Mongo.withinHours s t.
Proof.
  apply eq_true_iff_eq. rewrite withinHours_mongo_iff, withinHours_prisma_iff.
  by rewrite businessWindowOn_same.
Qed.

(** * Conflict check *)

Lemma areIntervalsOverlapping_ordered a1 a2 b1 b2 :
  a1 <= a2 -> b1 <= b2 ->
  areIntervalsOverlapping a1 a2 b1 b2 = (a1 <=? b2) && (b1 <=? a2).
Proof.
  intros Ha Hb. unfold areIntervalsOverlapping.
  rewrite (Z.min_l a1 a2), (Z.max_r b1 b2), (Z.min_l b1 b2), (Z.max_r a1 a2) by lia.
  reflexivity.
Qed.

Lemma areIntervalsOverlapping_spec a1 a2 b1 b2 :
  a1 <= a2 -> b1 <= b2 ->
  areIntervalsOverlapping a1 a2 b1 b2 = true <-> inclusiveOverlap a1 a2 b1 b2.
Proof.
  intros Ha Hb. rewrite areIntervalsOverlapping_ordered by assumption.
  rewrite andb_true_iff, !Z.leb_le. unfold inclusiveOverlap. split.
  - intros [? ?]. exists (Z.max a1 b1). lia.
  - intros (t & ? & ?). lia.
Qed.

Lemma bookingEndWB_ge b : Booking.endISO b <= bookingEndWB b.
Proof.
  unfold bookingEndWB, addMinutes, MINUTE.
  pose proof (buffer_nonneg (Booking.service b)). lia.
Qed.

(** The conflict check of [src/server.js] decides the conflict relation of
    the specification on every store whose intervals run forward. *)
Lemma overlapsMongo_spec st now s start endWB :
  start <= endWB -> orderedStore st ->
  Mongo.overlapsMongo st now s start endWB = true <-> conflictSpec st now s start endWB.
Proof.
  intros Hc [Hb Hh]. unfold Mongo.overlapsMongo, conflictSpec.
  match goal with |- (if ?c then _ else ?d) = true <-> _ =>
    replace (if c then true else d) with (c || d) by (destruct c; reflexivity) end.
  rewrite orb_true_iff, !existsb_exists.
  split; (intros [H|H]; [left|right]).
  - destruct H as (b & Hin & Ho). apply filter_In in Hin as [Hin Hs].
    apply bool_decide_eq_true in Hs. exists b. repeat split; try assumption.
    apply areIntervalsOverlapping_spec; try assumption.
    pose proof (bookingEndWB_ge b). pose proof (Hb b Hin). unfold bookingEndWB in *. lia.
  - destruct H as (h & Hin & Ho). apply filter_In in Hin as [Hin Hs].
    apply andb_true_iff in Hs as [Hs Hl]. apply bool_decide_eq_true in Hs.
    apply Z.ltb_lt in Hl. exists h. repeat split; try assumption.
    apply areIntervalsOverlapping_spec; auto.
  - destruct H as (b & Hin & Hs & Ho). exists b. split.
    + apply filter_In. split; [assumption | by apply bool_decide_eq_true].
    + apply areIntervalsOverlapping_spec; try assumption.
      pose proof (bookingEndWB_ge b). pose proof (Hb b Hin). unfold bookingEndWB in *. lia.
  - destruct H as (h & Hin & Hs & Hl & Ho). exists h. split.
    + apply filter_In. split; [assumption|].
      apply andb_true_iff. split; [by apply bool_decide_eq_true | by apply Z.ltb_lt].
    + apply areIntervalsOverlapping_spec; auto.
Qed.

(** What the Prisma conflict check decides instead: a strict overlap with
    the unbuffered interval of a booking, or with the buffered interval of
    a live hold. *)
Lemma overlapsPrisma_iff st now s start endWB :
  Prisma.overlapsPrisma st now s start endWB = true <->
  (exists b, In b (Bookings st) /\ Booking.service b = s
             /\ Booking.startISO b < endWB /\ start < Booking.endISO b)
  \/ (exists h, In h (Holds st) /\ Hold.service h = s /\ live now h
              /\ Hold.startISO h < endWB /\ start < Hold.endISOWB h).
Proof.
  unfold Prisma.overlapsPrisma.
  assert (Hne : forall (A : Type) (l : list A), (0 <? length l)%nat = true <-> exists x, In x l).
  { intros A [|x l]; cbn; split; try discriminate.
    - intros [x []].
    - intros _. exists x. by left.
    - reflexivity. }
  rewrite orb_true_iff, !Hne.
  split; (intros [H|H]; [left|right]); destruct H as (x & H); exists x.
  - apply filter_In in H as [Hin H]. rewrite !andb_true_iff in H.
    destruct H as [[Hs H1] H2]. apply bool_decide_eq_true in Hs.
    apply Z.ltb_lt in H1, H2. auto.
  - apply filter_In in H as [Hin H]. rewrite !andb_true_iff in H.
    destruct H as [[[Hs H1] H2] H3]. apply bool_decide_eq_true in Hs.
    apply Z.ltb_lt in H1, H2, H3. unfold live. auto.
  - destruct H as (Hin & Hs & H1 & H2). apply filter_In. split; [assumption|].
    rewrite !andb_true_iff. repeat split; [by apply bool_decide_eq_true | | ]; by apply Z.ltb_lt.
  - destruct H as (Hin & Hs & Hl & H1 & H2). apply filter_In. split; [assumption|].
    rewrite !andb_true_iff. repeat split; [by apply bool_decide_eq_true | | | ]; by apply Z.ltb_lt.
Qed.

(** Whatever the Prisma check reports, the MongoDB check reports too. *)
Lemma overlapsPrisma_overlapsMongo st now s start endWB :
  Prisma.overlapsPrisma st now s start endWB = true ->
  Mongo.overlapsMongo st now s start endWB = true.
Proof.
  rewrite overlapsPrisma_iff. unfold Mongo.overlapsMongo.
  match goal with |- _ -> (if ?c then _ else ?d) = true =>
    replace (if c then true else d) with (c || d) by (destruct c; reflexivity) end.
  rewrite orb_true_iff, !existsb_exists.
  intros [(b & Hin & Hs & H1 & H2) | (h & Hin & Hs & Hl & H1 & H2)]; [left; exists b | right; exists h].
  - split; [apply filter_In; split; [assumption | by apply bool_decide_eq_true] |].
    pose proof (bookingEndWB_ge b). unfold bookingEndWB in *.
    unfold areIntervalsOverlapping. apply andb_true_iff. rewrite !Z.leb_le. lia.
  - split.
    + apply filter_In. split; [assumption|]. apply andb_true_iff.
      split; [by apply bool_decide_eq_true | by apply Z.ltb_lt].
    + unfold areIntervalsOverlapping. apply andb_true_iff. rewrite !Z.leb_le. lia.
Qed.

(** C3. On the Prisma server the conflict check is not the inclusive test
    on buffered intervals.  With one confirmed hbot booking 07:00 to 08:00
    (buffer until 08:30) a candidate at 08:15 lies inside the buffer, with
    one confirmed sauna booking 07:00 to 07:15 a candidate at 07:15 touches
    its end, and with one live sauna hold 07:00 to 07:15 a candidate at
    07:15 touches the hold: each is a conflict in the words of the
    specification, and [overlapsPrisma] answers false each time. *)
Theorem overlapsPrisma_misses_buffer_and_adjacency :
  let now := atTime monday 6 30 in
  (let st := db (run PrismaServer mondayMorning (oneBooking hbot (atTime monday 7 0))) in
   let c := intervalWithBuffer hbot (atTime monday 8 15) in
   conflictSpec st now hbot (Interval.start c) (Interval.endWB c)
   /\ Prisma.overlapsPrisma st now hbot (Interval.start c) (Interval.endWB c) = false)
  /\ (let st := db (run PrismaServer mondayMorning (oneBooking sauna (atTime monday 7 0))) in
      let c := intervalWithBuffer sauna (atTime monday 7 15) in
      conflictSpec st now sauna (Interval.start c) (Interval.endWB c)
      /\ Prisma.overlapsPrisma st now sauna (Interval.start c) (Interval.endWB c) = false)
  /\ (let st := db (run PrismaServer mondayMorning
                      [CheckoutSingle ann sauna (atTime monday 7 0)]) in
      let now := atTime monday 6 5 in
      let c := intervalWithBuffer sauna (atTime monday 7 15) in
      conflictSpec st now sauna (Interval.start c) (Interval.endWB c)
      /\ Prisma.overlapsPrisma st now sauna (Interval.start c) (Interval.endWB c) = false).
Proof.
  cbv zeta. split; [|split]; (split; [|vm_compute; reflexivity]).
  - left. eexists. split; [vm_compute; left; reflexivity|].
    split; [reflexivity|]. exists (atTime monday 8 15). vm_compute. intuition discriminate.
  - left. eexists. split; [vm_compute; left; reflexivity|].
    split; [reflexivity|]. exists (atTime monday 7 15). vm_compute. intuition discriminate.
  - right. eexists. split; [vm_compute; left; reflexivity|].
    split; [reflexivity|]. split; [vm_compute; reflexivity|].
    exists (atTime monday 7 15). vm_compute. intuition discriminate.
Qed.

(** C4. The two conflict checks are not interchangeable.  Both servers
    reach the same store by the same requests (one confirmed hbot booking
    07:00 to 08:00, or one confirmed sauna booking 07:00 to 07:15); on it
    [overlapsMongo] reports a conflict for an hbot candidate at 08:00 and
    for a sauna candidate at 07:15, and [overlapsPrisma] reports none. *)
Theorem overlapsMongo_overlapsPrisma_differ :
  let now := atTime monday 6 30 in
  (let st := db (run MongoServer mondayMorning (oneBooking hbot (atTime monday 7 0))) in
   let c := intervalWithBuffer hbot (atTime monday 8 0) in
   st = db (run PrismaServer mondayMorning (oneBooking hbot (atTime monday 7 0)))
   /\ Mongo.overlapsMongo st now hbot (Interval.start c) (Interval.endWB c) = true
   /\ Prisma.overlapsPrisma st now hbot (Interval.start c) (Interval.endWB c) = false)
  /\ (let st := db (run MongoServer mondayMorning (oneBooking sauna (atTime monday 7 0))) in
      let c := intervalWithBuffer sauna (atTime monday 7 15) in
      st = db (run PrismaServer mondayMorning (oneBooking sauna (atTime monday 7 0)))
      /\ Mongo.overlapsMongo st now sauna (Interval.start c) (Interval.endWB c) = true
      /\ Prisma.overlapsPrisma st now sauna (Interval.start c) (Interval.endWB c) = false).
Proof.
  cbv zeta. split; (split; [|split]); vm_compute; reflexivity.
Qed.

(** * Bundle holds *)

Section BundleHolds.
Context {B : Backend}.

Lemma selectionError_None st now sel :
  selectionError st now sel = None <-> passesValidation st now sel.
Proof.
  unfold selectionError, passesValidation.
  destruct (withinHours _ _); cbn; [|split; [discriminate | intros [? _]; discriminate]].
  destruct (sameDayCutoffOK _ _); cbn; [|split; [discriminate | intros (_ & ? & _); discriminate]].
  destruct (overlaps _ _ _ _ _); split; try discriminate; auto.
  intros (_ & _ & ?). discriminate.
Qed.

Lemma validateSelections_None st now sels :
  validateSelections st now sels = None <->
  forall sel, In sel sels -> passesValidation st now sel.
Proof.
  induction sels as [|s r IH]; cbn.
  - split; [intros _ sel [] | reflexivity].
  - destruct (selectionError st now s) eqn:E.
    + split; [discriminate|]. intros H.
      assert (Hs : selectionError st now s = None) by (apply selectionError_None, H; by left).
      congruence.
    + rewrite IH. split.
      * intros H sel [<-|Hin]; [by apply selectionError_None | by apply H].
      * intros H sel Hin. apply H. by right.
Qed.

Lemma mapFrom_length {A C : Type} (f : nat -> A -> C) n l : length (mapFrom f n l) = length l.
Proof. revert n. induction l as [|x r IH]; intros n; cbn; [reflexivity | by rewrite IH]. Qed.

Lemma mapFrom_map {A C D : Type} (f : nat -> A -> C) (g : C -> D) (h : A -> D) n l :
  (forall i x, g (f i x) = h x) -> map g (mapFrom f n l) = map h l.
Proof.
  intros Hg. revert n. induction l as [|x r IH]; intros n; cbn; [reflexivity|].
  by rewrite Hg, IH.
Qed.

Lemma mapFrom_Forall {A C : Type} (f : nat -> A -> C) (P : C -> Prop) n l :
  (forall i x, P (f i x)) -> Forall P (mapFrom f n l).
Proof.
  intros HP. revert n. induction l as [|x r IH]; intros n; cbn; constructor; auto.
Qed.

Lemma placeHoldBundle_refused st now bundleId sels email amount :
  (exists sel, In sel sels /\ ~ passesValidation st now sel) ->
  exists e, placeHoldBundle st now bundleId sels email amount = (HoldRefused e, st).
Proof.
  intros (sel & Hin & Hbad). unfold placeHoldBundle.
  destruct (validateSelections st now sels) as [e|] eqn:E; [by exists e|].
  exfalso. apply Hbad. by apply (proj1 (validateSelections_None st now sels) E).
Qed.

Lemma placeHoldBundle_placed st now bundleId sels email amount :
  (forall sel, In sel sels -> passesValidation st now sel) ->
  let r := placeHoldBundle st now bundleId sels email amount in
  let docs := mapFrom (bundleDoc now (nextId st) bundleId email amount) (S (nextId st)) sels in
  Holds (snd r) = Holds st ++ docs
  /\ Bookings (snd r) = Bookings st
  /\ Users (snd r) = Users st
  /\ (sels <> [] -> fst r = HoldOk (nextId st)).
Proof.
  intros Hall. apply validateSelections_None in Hall. cbv zeta. unfold placeHoldBundle.
  rewrite Hall. destruct sels as [|s r]; cbn [mapFrom].
  - destruct insertManyTakesEmpty; cbn; rewrite app_nil_r; repeat split; congruence.
  - cbn. repeat split.
Qed.

End BundleHolds.

(** C5. Bundle hold creation of [src/server.js] is all or nothing.  When
    a selection fails the hours, cutoff or conflict test the request is
    refused and the store is left as it was; when every selection passes,
    the holds collection grows by exactly one hold per selection, in order,
    each for the service and start of its selection, all with the same
    group identifier and the same expiry [now + HOLD_TTL_MIN], and nothing
    else changes. *)
Theorem placeHoldBundle_all_or_nothing :
  forall st now bundleId selections email amount,
    let r := placeHoldBundle (B := backend MongoServer) st now bundleId selections email amount in
    ((exists sel, In sel selections /\ ~ passesValidation (B := backend MongoServer) st now sel) ->
       (exists e, fst r = HoldRefused e) /\ snd r = st)
    /\ ((forall sel, In sel selections -> passesValidation (B := backend MongoServer) st now sel) ->
        exists docs,
          Holds (snd r) = Holds st ++ docs
          /\ Bookings (snd r) = Bookings st
          /\ Users (snd r) = Users st
          /\ length docs = length selections
          /\ map Hold.service docs = map Selection.service selections
          /\ map Hold.startISO docs = map (fun sel => formatISO (Selection.startISO sel)) selections
          /\ Forall (fun h => Hold.groupId h = Some (nextId st)
                              /\ Hold.expireAt h = addMinutes now HOLD_TTL_MIN
                              /\ Hold.amount h = Some amount) docs
          /\ (selections <> [] -> fst r = HoldOk (nextId st))).
Proof.
  intros st now bundleId selections email amount r. split.
  - intros Hbad. destruct (placeHoldBundle_refused (B := backend MongoServer) st now bundleId
                             selections email amount Hbad) as [e He].
    subst r. rewrite He. split; [by exists e | reflexivity].
  - intros Hall.
    destruct (placeHoldBundle_placed (B := backend MongoServer) st now bundleId selections
                email amount Hall) as (Hh & Hb & Hu & Hr).
    eexists. split; [exact Hh|]. repeat split; try assumption.
    + apply mapFrom_length.
    + by apply mapFrom_map.
    + by apply mapFrom_map.
    + apply mapFrom_Forall. intros i x. repeat split.
Qed.

(** * Confirmation *)

Lemma find_all_false {A : Type} (f : A -> bool) (l : list A) :
  (forall x, In x l -> f x = false) -> List.find f l = None.
Proof.
  induction l as [|a r IH]; cbn; [reflexivity|]. intros H.
  rewrite (H a) by (by left). apply IH. intros x Hx. apply H. by right.
Qed.




Lemma consumeCredit_Holds st service email hold :
  Holds (consumeCredit st service email hold) = Holds st.
Proof.
  unfold consumeCredit.
  destruct (bool_decide _), (truthy email); try reflexivity.
  destruct (Users st !! _); try reflexivity. by destruct (_ && _).
Qed.

Lemma consumeCredit_Bookings st service email hold :
  Bookings (consumeCredit st service email hold) = Bookings st.
Proof.
  unfold consumeCredit.
  destruct (bool_decide _), (truthy email); try reflexivity.
  destruct (Users st !! _); try reflexivity. by destruct (_ && _).
Qed.




(** Neither branch of the confirm route looks at the expiry of the hold
    it finds: a paid session whose hold is in the store is confirmed at any
    time. *)
Lemma confirm_single_whenever_present v stripe st now cookie sid session service startISO holdId hold :
  sid <> "" -> stripe sid = Some session -> Session.paid session = true ->
  Session.metadata session = MetaSingle service startISO holdId ->
  findHold st holdId = Some hold ->
  let r := confirm (B := backend v) stripe st now cookie (Some sid) in
  fst r = Json ConfirmedSingle
  /\ exists b, Bookings (snd r) = Bookings st ++ [b]
               /\ Booking.service b = service
               /\ Booking.startISO b = formatISO startISO.
Proof.
  intros Hne Hs Hp Hm Hf. cbv zeta. unfold confirm.
  assert (Ht : truthy (Some sid) = Some sid) by (destruct sid; [congruence | reflexivity]).
  rewrite Ht, Hs, Hp, Hm, Hf. cbn [negb fst snd]. split; [reflexivity|].
  eexists. cbn. rewrite consumeCredit_Bookings. repeat split.
Qed.

(** C2. The confirm route does not treat an expired hold as gone.  On
    either server a single hold placed at 06:00 and paid one second after
    its expiry at 06:12, with its record still in the store, is confirmed
    into a booking; so are the two holds of a bundle. *)
Theorem confirm_accepts_expired_hold :
  forall v,
    (let w := run v mondayMorning paidTooLate in
     let r := confirm (B := backend v) (retrieve (sessions w)) (db w) (clock w) ann (Some "cs_0") in
     length (Holds (db w)) = 1%nat
     /\ forallb (fun h => Hold.expireAt h <=? clock w) (Holds (db w)) = true
     /\ Bookings (db w) = []
     /\ fst r = Json ConfirmedSingle
     /\ length (Bookings (snd r)) = 1%nat)
    /\ (let w := run v mondayMorning bundlePaidTooLate in
        let r := confirm (B := backend v) (retrieve (sessions w)) (db w) (clock w) ann (Some "cs_0") in
        length (Holds (db w)) = 2%nat
        /\ forallb (fun h => Hold.expireAt h <=? clock w) (Holds (db w)) = true
        /\ Bookings (db w) = []
        /\ fst r = Json (ConfirmedBundle "bundle_alt_cold_sauna")
        /\ length (Bookings (snd r)) = 2%nat).
Proof.
  intros v; cbv zeta; split;
    (split; [destruct v; vm_compute; reflexivity|]);
    (split; [destruct v; vm_compute; reflexivity|]);
    (split; [destruct v; vm_compute; reflexivity|]);
    (split; destruct v; vm_compute; reflexivity).
Qed.

(** * Double booking *)

(** C1. The invariant fails on either server: after Ann's hold of the
    07:00 sauna slot has expired without being swept, Bob holds the same
    slot, and both holds are confirmed; the store then has two sauna
    bookings 07:00 to 07:15. *)
Theorem double_booking_by_late_confirmation :
  forall v, doubleBooked (db (run v mondayMorning lateConfirmation)).
Proof.
  intros v. exists 0%nat, 1%nat.
  destruct v; do 2 eexists;
    (split; [discriminate|]);
    (split; [vm_compute; reflexivity|]);
    (split; [vm_compute; reflexivity|]);
    vm_compute; repeat split.
Qed.

(** The same on either server without any expiry: the bundle manager tests
    each selection against the store and never against the other
    selections of the request. *)
Lemma double_booking_by_one_bundle :
  forall v, doubleBooked (db (run v mondayMorning twiceTheSameSlot)).
Proof.
  intros v. exists 0%nat, 1%nat.
  destruct v; do 2 eexists;
    (split; [discriminate|]);
    (split; [vm_compute; reflexivity|]);
    (split; [vm_compute; reflexivity|]);
    vm_compute; repeat split.
Qed.

(** On the Prisma server alone, a second booking inside the buffer of the
    first. *)
Lemma double_booking_inside_buffer :
  doubleBooked (db (run PrismaServer mondayMorning insideTheBuffer))
  /\ length (Bookings (db (run MongoServer mondayMorning insideTheBuffer))) = 1%nat.
Proof.
  split; [|vm_compute; reflexivity].
  exists 0%nat, 1%nat. do 2 eexists.
  (split; [discriminate|]);
    (split; [vm_compute; reflexivity|]);
    (split; [vm_compute; reflexivity|]);
    vm_compute; repeat split.
Qed.

(** * Availability *)

Lemma gridCount_zero open close dur :
  isAfter (addMinutes open dur) close = true -> gridCount open close dur = 0%nat.
Proof.
  unfold isAfter, gridCount, SLOT, MINUTE. intros H. apply Z.ltb_lt in H.
  assert ((close - addMinutes open dur) / (15 * 60000) < 0)
    by (apply Z.div_lt_upper_bound; lia).
  lia.
Qed.

Lemma gridCount_succ open close dur :
  isAfter (addMinutes open dur) close = false ->
  gridCount open close dur = S (gridCount (addMinutes open SLOT) close dur).
Proof.
  unfold isAfter, gridCount, addMinutes, SLOT, MINUTE. intros H. apply Z.ltb_ge in H.
  set (x := close - (open + dur * 60000)) in *.
  replace (close - (open + 15 * 60000 + dur * 60000)) with (x + (-1) * (15 * 60000))
    by (unfold x; lia).
  rewrite Z.div_add by lia.
  assert (0 <= x / (15 * 60000)) by (apply Z.div_pos; lia).
  lia.
Qed.

Lemma grid_nil open close dur :
  isAfter (addMinutes open dur) close = true -> grid open close dur = [].
Proof. intros H. unfold grid. by rewrite gridCount_zero. Qed.

Lemma grid_cons open close dur :
  isAfter (addMinutes open dur) close = false ->
  grid open close dur = open :: grid (addMinutes open SLOT) close dur.
Proof.
  intros H. unfold grid. rewrite (gridCount_succ _ _ _ H). cbn [seq map].
  f_equal; [unfold addMinutes; lia|].
  rewrite <- seq_shift, map_map. apply map_ext. intros k. unfold addMinutes. lia.
Qed.

(** The grid holds exactly the stepped positions whose service end is not
    after closing. *)
Lemma in_grid open close dur c :
  In c (grid open close dur) <->
  exists k : nat, c = addMinutes open (Z.of_nat k * SLOT) /\ addMinutes c dur <= close.
Proof.
  unfold grid. rewrite in_map_iff. setoid_rewrite in_seq.
  assert (Hk : forall k : nat,
             (k < gridCount open close dur)%nat <->
             addMinutes (addMinutes open (Z.of_nat k * SLOT)) dur <= close).
  { intros k. unfold gridCount, addMinutes, SLOT, MINUTE.
    set (x := close - (open + dur * 60000)).
    assert (Hdiv : Z.of_nat k <= x / (15 * 60000) <-> Z.of_nat k * (15 * 60000) <= x).
    { split; intros.
      - pose proof (Z.mul_div_le x (15 * 60000) ltac:(lia)). nia.
      - apply Z.div_le_lower_bound; lia. }
    unfold x in *. split; intros.
    + assert (Z.of_nat k <= (close - (open + dur * 60000)) / (15 * 60000)) by lia. lia.
    + assert (Z.of_nat k <= (close - (open + dur * 60000)) / (15 * 60000)) by (apply Hdiv; lia).
      lia. }
  split.
  - intros (k & <- & Hin). exists k. split; [reflexivity|]. apply Hk. lia.
  - intros (k & -> & Hle). exists k. split; [reflexivity|]. apply Hk in Hle. lia.
Qed.

Section Availability.
Context {B : Backend}.

Lemma slotLoop_step st now service close cursor :
  slotLoop st now service close cursor =
  if isAfter (addMinutes cursor (Service.duration (SERVICES service))) close then []
  else
    let iv := intervalWithBuffer service cursor in
    ((if overlaps st now service (Interval.start iv) (Interval.endWB iv) then []
      else [ {| Slot.startISO := formatISO (Interval.start iv);
                Slot.endISO := formatISO (Interval.end_ iv) |} ])
     ++ slotLoop st now service close (addMinutes cursor SLOT))%list.
Proof.
  rewrite slotLoop_equation_1. unfold slotLoop_unfold_clause_1.
  destruct (inspect _) as [[] e]; rewrite e; reflexivity.
Qed.

(** The loop yields the free positions of the grid, in order. *)
Lemma slotLoop_grid st now service close cursor :
  slotLoop st now service close cursor =
  map (slotAt service)
      (List.filter (freeAt st now service)
                   (grid cursor close (Service.duration (SERVICES service)))).
Proof.
  remember (gridCount cursor close (Service.duration (SERVICES service))) as n eqn:Hn.
  revert cursor Hn. induction n as [|n IH]; intros cursor Hn; rewrite slotLoop_step;
    destruct (isAfter _ close) eqn:E.
  - by rewrite grid_nil.
  - rewrite (gridCount_succ _ _ _ E) in Hn. discriminate.
  - by rewrite grid_nil.
  - rewrite (gridCount_succ _ _ _ E) in Hn. injection Hn as Hn.
    rewrite (grid_cons _ _ _ E). cbn [List.filter]. unfold freeAt at 1.
    cbv zeta. cbn [intervalWithBuffer Interval.start Interval.end_ Interval.endWB].
    rewrite (IH _ Hn).
    destruct (overlaps _ _ _ _ _); reflexivity.
Qed.

End Availability.

(** * Pricing and credits *)

Section Credits.
Context {B : Backend}.

Lemma placeHoldSingle_ok_inv st now service startISO email unitAmount holdId st1 :
  placeHoldSingle st now service startISO email unitAmount = (HoldOk holdId, st1) ->
  holdId = nextId st
  /\ Users st1 = Users st
  /\ Bookings st1 = Bookings st
  /\ exists doc, Holds st1 = Holds st ++ [doc]
                 /\ Hold.id doc = nextId st
                 /\ Hold.service doc = service
                 /\ Hold.unitAmount doc = Some unitAmount
                 /\ Hold.email doc = jsOr email None
                 /\ Hold.expireAt doc = addMinutes now HOLD_TTL_MIN.
Proof.
  unfold placeHoldSingle.
  destruct (negb (withinHours _ _)); [discriminate|].
  destruct (negb (sameDayCutoffOK _ _)); [discriminate|].
  destruct (overlaps _ _ _ _ _); [discriminate|].
  intros [= <- <-]. cbn. repeat split. eexists. repeat split.
Qed.

Lemma findHold_fresh st doc :
  idsBelowSupply st -> Hold.id doc = nextId st ->
  forall st1, Holds st1 = Holds st ++ [doc] -> findHold st1 (nextId st) = Some doc.
Proof.
  intros Hfresh Hid st1 Hh. unfold findHold. rewrite Hh.
  assert (Hold_none : List.find (fun h => Nat.eqb (Hold.id h) (nextId st)) (Holds st) = None).
  { apply find_all_false. intros h Hin. apply Nat.eqb_neq.
    specialize (Hfresh h Hin). lia. }
  revert Hold_none. generalize (Holds st) as l.
  induction l as [|x r IH]; cbn.
  - intros _. rewrite Hid, Nat.eqb_refl. reflexivity.
  - destruct (Nat.eqb (Hold.id x) (nextId st)); [discriminate | exact IH].
Qed.

End Credits.

Lemma truthy_nonempty e : e <> "" -> truthy (Some e) = Some e.
Proof. destruct e; [congruence | reflexivity]. Qed.

(** The credit step of a confirmation, whatever the store: one credit is
    taken exactly when the service is hbot, the account of the hold has a
    positive balance at that moment and the hold was charged 6000. *)
Lemma confirm_single_credit v stripe st now cookie sid session service startISO holdId hold e u :
  sid <> "" -> stripe sid = Some session -> Session.paid session = true ->
  Session.metadata session = MetaSingle service startISO holdId ->
  findHold st holdId = Some hold ->
  e <> "" -> Hold.email hold = Some e -> Users st !! e = Some u ->
  let r := confirm (B := backend v) stripe st now cookie (Some sid) in
  fst r = Json ConfirmedSingle
  /\ Users (snd r) =
     if bool_decide (service = hbot) && (0 <? User.hbotCredits u)
        && bool_decide (Hold.unitAmount hold = Some 6000)
     then <[e := withCredits u (User.hbotCredits u - 1)]> (Users st)
     else Users st.
Proof.
  intros Hsid Hs Hpaid Hmeta Hfind Hne Hem Hu. cbv zeta. unfold confirm.
  rewrite (truthy_nonempty sid Hsid), Hs, Hpaid, Hmeta, Hfind. cbn [negb fst snd].
  split; [reflexivity|].
  cbn [Users withHolds withNextId withBookings].
  assert (Hjs : jsOr (Hold.email hold) (jsOr cookie None) = Some e).
  { rewrite Hem. unfold jsOr at 1. by rewrite (truthy_nonempty e Hne). }
  rewrite Hjs. unfold consumeCredit. rewrite (truthy_nonempty e Hne), Hu.
  destruct (bool_decide (service = hbot)); cbn [andb]; [|reflexivity].
  by destruct (_ && _).
Qed.

(** C9. On [src/server.js], for a customer with an account: the quote for
    hbot is 60 when the credit balance is positive, and the base price for
    any other service or without a positive balance; a single checkout
    that places its hold stores one hundred times that price as the charge
    of the hold and sets no credit aside; and the confirmation of a hold
    so charged, whenever it runs, takes exactly one credit if the hold was
    charged the discounted rate and the balance is positive at that moment,
    and none otherwise, leaving every other account as it was. *)
Theorem credit_pricing :
  forall st e u service,
    e <> "" ->
    Users st !! e = Some u ->
    let discounted := bool_decide (service = hbot) && (0 <? User.hbotCredits u) in
    let price := if discounted then 60 else Service.price (SERVICES service) in
    quote st (Some e) (Some service) = Json price
    /\ (forall now startISO co st1,
          idsBelowSupply st ->
          checkout_single (B := backend MongoServer) st now (Some e) (Some service)
            (Some startISO) = (Json co, st1) ->
          Checkout.unit_amount co = price * 100
          /\ Users st1 = Users st
          /\ exists holdId hold,
               Checkout.metadata co = MetaSingle service startISO holdId
               /\ findHold st1 holdId = Some hold
               /\ Hold.unitAmount hold = Some (price * 100)
               /\ Hold.email hold = Some e)
    /\ (forall stripe st2 now' cookie sid session startISO holdId hold u2,
          sid <> "" ->
          stripe sid = Some session ->
          Session.paid session = true ->
          Session.metadata session = MetaSingle service startISO holdId ->
          findHold st2 holdId = Some hold ->
          Hold.unitAmount hold = Some (price * 100) ->
          Hold.email hold = Some e ->
          Users st2 !! e = Some u2 ->
          let r := confirm (B := backend MongoServer) stripe st2 now' cookie (Some sid) in
          fst r = Json ConfirmedSingle
          /\ Users (snd r) !! e
             = Some (withCredits u2 (if discounted && (0 <? User.hbotCredits u2)
                                     then User.hbotCredits u2 - 1
                                     else User.hbotCredits u2))
          /\ forall e', e' <> e -> Users (snd r) !! e' = Users st2 !! e').
Proof.
  intros st e u service Hne Hu discounted price.
  assert (Hprice : userPriceFor service (userOfCookie st (Some e)) = price).
  { unfold userOfCookie. rewrite (truthy_nonempty e Hne), Hu. reflexivity. }
  split; [unfold quote; by rewrite Hprice|]. split.
  - intros now startISO co st1 Hfresh Hco. unfold checkout_single in Hco.
    rewrite Hprice in Hco.
    destruct (placeHoldSingle st now service startISO (Some e) (price * 100))
      as [[holdId|err|] st'] eqn:Hp; try discriminate.
    injection Hco as <- <-.
    apply placeHoldSingle_ok_inv in Hp
      as (-> & HU & HB & doc & HH & Hid & Hsvc & Hamt & Hemail & _).
    cbn [Checkout.unit_amount Checkout.metadata]. split; [reflexivity|].
    split; [exact HU|].
    assert (Hem : Hold.email doc = Some e).
    { rewrite Hemail. unfold jsOr. by rewrite (truthy_nonempty e Hne). }
    exists (nextId st), doc. split; [reflexivity|].
    pose proof (findHold_fresh st doc Hfresh Hid st' HH) as Hfind.
    by repeat (split; [assumption|]).
  - intros stripe st2 now' cookie sid session startISO holdId hold u2
           Hsid Hs Hpaid Hmeta Hfind Hamt Hem Hu2.
    destruct (confirm_single_credit MongoServer stripe st2 now' cookie sid session service
                startISO holdId hold e u2 Hsid Hs Hpaid Hmeta Hfind Hne Hem Hu2)
      as [Hok Husers].
    cbv zeta. split; [exact Hok|]. rewrite Husers, Hamt. subst discounted price.
    destruct (bool_decide (service = hbot)) eqn:Esvc; cbn [andb].
    + destruct (0 <? User.hbotCredits u) eqn:Eu; cbn [andb].
      * rewrite bool_decide_eq_true_2 by reflexivity. rewrite andb_true_r.
        destruct (0 <? User.hbotCredits u2).
        -- split; [by rewrite lookup_insert_eq|].
           intros e' He'. by rewrite lookup_insert_ne by congruence.
        -- rewrite Hu2. split; [by destruct u2 | reflexivity].
      * apply bool_decide_eq_true in Esvc. subst service.
        rewrite bool_decide_eq_false_2 by (cbn; discriminate). rewrite andb_false_r.
        rewrite Hu2. split; [by destruct u2 | reflexivity].
    + rewrite Hu2. split; [by destruct u2 | reflexivity].
Qed.

(** * Bundle checkout *)

(** C10. The bundle checkout of [src/server.js] compares the number of
    selections with the number of services of the bundle and nothing else.
    A request for the cold plunge and sauna bundle whose two selections are
    hbot and lymph is neither refused with 400 nor with 409: it opens a
    checkout of the bundle price and leaves one hold for hbot and one for
    lymph, each charged the bundle price. *)
Theorem checkout_bundle_checks_count_only :
  exists bundle selections,
    In bundle BUNDLES
    /\ Bundle.services bundle = [icebath; sauna]
    /\ length selections = length (Bundle.services bundle)
    /\ map Selection.service selections = [hbot; lymph]
    /\ fst (checkout_bundle (B := backend MongoServer) emptyStore (atTime monday 6 0) ann
              (Bundle.id bundle) (Some selections))
       = Json {| Checkout.unit_amount := Bundle.price bundle * 100;
                 Checkout.metadata := MetaBundle (Bundle.id bundle) 0 |}
    /\ map (fun h => (Hold.service h, Hold.amount h))
           (Holds (snd (checkout_bundle (B := backend MongoServer) emptyStore (atTime monday 6 0)
                          ann (Bundle.id bundle) (Some selections))))
       = [ (hbot, Some (Bundle.price bundle * 100));
           (lymph, Some (Bundle.price bundle * 100)) ].
Proof.
  eexists. exists strangerSelections.
  split; [left; reflexivity|].
  split; [reflexivity|]. split; [reflexivity|]. split; [reflexivity|].
  split; vm_compute; reflexivity.
Qed.

(** * No double booking under orderly use (MongoDB server) *)

Lemma wholeSecond_formatISO t : wholeSecond t -> formatISO t = t.
Proof.
  unfold wholeSecond, formatISO, SECOND. intros H.
  pose proof (Z_div_mod_eq_full t 1000). lia.
Qed.

Lemma wholeSecond_addMinutes t m : wholeSecond t -> wholeSecond (addMinutes t m).
Proof.
  unfold wholeSecond, addMinutes, SECOND, MINUTE. intros H.
  replace (t + m * 60000) with (t + (m * 60) * 1000) by lia.
  by rewrite Z.mod_add by lia.
Qed.

Lemma holdEndWB_ge service start : start <= holdEndWB service start.
Proof.
  unfold holdEndWB, intervalWithBuffer, addMinutes, MINUTE. cbn.
  pose proof (duration_nonneg service). pose proof (buffer_nonneg service). lia.
Qed.

Lemma not_apart_overlap lo1 hi1 lo2 hi2 :
  lo1 <= hi1 -> lo2 <= hi2 ->
  ~ inclusiveOverlap lo1 hi1 lo2 hi2 -> apart lo1 hi1 lo2 hi2.
Proof.
  intros H1 H2 Hno. unfold apart.
  destruct (Z_lt_dec hi1 lo2); [by left|]. destruct (Z_lt_dec hi2 lo1); [by right|].
  exfalso. apply Hno. exists (Z.max lo1 lo2). lia.
Qed.

Lemma apart_sym lo1 hi1 lo2 hi2 : apart lo1 hi1 lo2 hi2 -> apart lo2 hi2 lo1 hi1.
Proof. unfold apart. tauto. Qed.

Lemma In_deleteOne holdId l h : In h (deleteOne holdId l) -> In h l.
Proof.
  induction l as [|x r IH]; cbn; [tauto|].
  destruct (Nat.eqb (Hold.id x) holdId); [by right|]. intros [->|H]; [by left | right; auto].
Qed.

Lemma deleteOne_other holdId l h :
  NoDup (map Hold.id l) -> In h (deleteOne holdId l) -> Hold.id h <> holdId.
Proof.
  induction l as [|x r IH]; cbn; [tauto|].
  intros Hnd. apply NoDup_cons in Hnd as [Hx Hnd].
  destruct (Nat.eqb_spec (Hold.id x) holdId) as [He|Hne].
  - intros Hin Heq. apply Hx. rewrite He, <- Heq. by apply list_elem_of_In, in_map.
  - intros [<-|Hin]; [assumption | by apply IH].
Qed.

Lemma NoDup_deleteOne holdId l :
  NoDup (map Hold.id l) -> NoDup (map Hold.id (deleteOne holdId l)).
Proof.
  induction l as [|x r IH]; cbn; [done|].
  intros Hnd. apply NoDup_cons in Hnd as [Hx Hnd].
  destruct (Nat.eqb (Hold.id x) holdId); [assumption|].
  cbn. apply NoDup_cons. split; [|by apply IH].
  intros Hin. apply Hx. apply list_elem_of_In in Hin. apply in_map_iff in Hin as (h & <- & Hh).
  apply list_elem_of_In, in_map. by eapply In_deleteOne.
Qed.

Lemma NoDup_filter_ids (f : Hold.t -> bool) l :
  NoDup (map Hold.id l) -> NoDup (map Hold.id (List.filter f l)).
Proof.
  induction l as [|x r IH]; cbn; [done|].
  intros Hnd. apply NoDup_cons in Hnd as [Hx Hnd].
  destruct (f x); [|by apply IH]. cbn. apply NoDup_cons. split; [|by apply IH].
  intros Hin. apply Hx. apply list_elem_of_In in Hin. apply in_map_iff in Hin as (h & <- & Hh).
  apply list_elem_of_In, in_map. by apply filter_In in Hh as [Hh _].
Qed.

Lemma mapFrom_lookup {A C : Type} (f : nat -> A -> C) n l (k : nat) :
  mapFrom f n l !! k = f (n + k)%nat <$> l !! k.
Proof.
  revert n k. induction l as [|x r IH]; intros n [|k]; cbn; try reflexivity.
  - by rewrite Nat.add_0_r.
  - rewrite IH. by replace (S n + k)%nat with (n + S k)%nat by lia.
Qed.

Lemma In_mapFrom {A C : Type} (f : nat -> A -> C) n l d :
  In d (mapFrom f n l) -> exists (k : nat) x, l !! k = Some x /\ d = f (n + k)%nat x.
Proof.
  intros Hin. apply list_elem_of_In, list_elem_of_lookup in Hin as [k Hk].
  rewrite mapFrom_lookup in Hk. destruct (l !! k) as [x|] eqn:E; [|discriminate].
  injection Hk as <-. by exists k, x.
Qed.

Lemma Inv_ordered w : Inv w -> orderedStore (db w).
Proof.
  intros I. split.
  - intros b Hb. pose proof (inv_booking w I b Hb) as He.
    pose proof (duration_nonneg (Booking.service b)).
    unfold bookingEndWB, holdEndWB, intervalWithBuffer, addMinutes, MINUTE in He. cbn in He. lia.
  - intros h Hh. destruct (inv_hold w I h Hh) as [_ ->]. apply holdEndWB_ge.
Qed.

Lemma Inv_empty t0 : Inv (emptyWorld t0).
Proof.
  constructor; cbn; try (intros; contradiction); try (intros; discriminate).
  apply NoDup_nil_2.
Qed.

Lemma Inv_wait w ms : Inv w -> Inv (step MongoServer w (Wait ms)).
Proof.
  intros I. assert (Hl : forall h, live (clock w + Z.of_N ms) h -> live (clock w) h)
    by (unfold live; intros; lia).
  destruct I. constructor; cbn; eauto.
Qed.

Lemma Inv_pay w sid : Inv w -> Inv (step MongoServer w (Pay sid)).
Proof.
  intros I. destruct I. constructor; cbn; eauto.
  intros s service startISO holdId Hin Hm. apply in_map_iff in Hin as (s0 & <- & Hin).
  apply (inv_session0 s0); [assumption|].
  unfold markPaid in Hm. by destruct (String.eqb _ _).
Qed.

Lemma Inv_sweep w : Inv w -> Inv (step MongoServer w TtlSweep).
Proof.
  intros I. destruct I.
  assert (Hsub : forall h, In h (List.filter (fun h => clock w <? Hold.expireAt h) (Holds (db w)))
                           -> In h (Holds (db w)))
    by (intros h Hh; by apply filter_In in Hh as [Hh _]).
  constructor; cbn; eauto.
  - by apply NoDup_filter_ids.
  - intros s service startISO holdId Hin Hm.
    destruct (inv_session0 s service startISO holdId Hin Hm) as [Hlt Hh]. split; eauto.
Qed.

Section SingleHold.
Context {B : Backend}.

Lemma placeHoldSingle_placed st now service startISO email unitAmount holdId st1 :
  placeHoldSingle st now service startISO email unitAmount = (HoldOk holdId, st1) ->
  overlaps st now service startISO (holdEndWB service startISO) = false
  /\ holdId = nextId st
  /\ exists doc,
       st1 = withNextId (S (nextId st)) (withHolds (Holds st ++ [doc]) st)
       /\ Hold.id doc = nextId st
       /\ Hold.service doc = service
       /\ Hold.startISO doc = formatISO startISO
       /\ Hold.endISOWB doc = formatISO (holdEndWB service startISO).
Proof.
  unfold placeHoldSingle, holdEndWB.
  destruct (negb (withinHours _ _)); [discriminate|].
  destruct (negb (sameDayCutoffOK _ _)); [discriminate|].
  destruct (overlaps _ _ _ _ _); [discriminate|].
  intros [= <- <-]. split; [reflexivity|]. split; [reflexivity|].
  eexists. split; [reflexivity|]. cbn. tauto.
Qed.

End SingleHold.

(** A hold the MongoDB check lets through is apart from every booking and
    every live hold of its service. *)
Lemma free_apart st now service start :
  orderedStore st ->
  Mongo.overlapsMongo st now service start (holdEndWB service start) = false ->
  (forall b, In b (Bookings st) -> Booking.service b = service ->
     apart (Booking.startISO b) (bookingEndWB b) start (holdEndWB service start))
  /\ (forall h, In h (Holds st) -> Hold.service h = service -> live now h ->
        apart (Hold.startISO h) (Hold.endISOWB h) start (holdEndWB service start)).
Proof.
  intros Hord Hfree. pose proof (holdEndWB_ge service start) as Hge.
  assert (Hno : ~ conflictSpec st now service start (holdEndWB service start)).
  { rewrite <- overlapsMongo_spec by assumption. by rewrite Hfree. }
  destruct Hord as [Hob Hoh]. split.
  - intros b Hb Hs. apply apart_sym, not_apart_overlap; [assumption| |].
    + pose proof (bookingEndWB_ge b). pose proof (Hob b Hb). lia.
    + intros Ho. apply Hno. left. by exists b.
  - intros h Hh Hs Hl. apply apart_sym, not_apart_overlap; [assumption|by apply Hoh|].
    intros Ho. apply Hno. right. by exists h.
Qed.

Lemma Inv_checkout_single w cookie service startISO :
  Inv w -> wholeSecond startISO ->
  Inv (step MongoServer w (CheckoutSingle cookie service startISO)).
Proof.
  intros I Hws. cbn [step]. unfold checkout_single.
  destruct (placeHoldSingle _ _ _ _ _ _) as [[holdId|err|] st1] eqn:Hp; cbn [openSession].
  2,3: (assert (st1 = db w) as ->;
        [ unfold placeHoldSingle in Hp;
          repeat match type of Hp with (if ?c then _ else _) = _ => destruct c end;
          congruence
        | by destruct w ]).
  apply placeHoldSingle_placed in Hp as (Hfree & -> & doc & -> & Hid & Hsvc & Hstart & Hend).
  rewrite (wholeSecond_formatISO _ Hws) in Hstart.
  assert (Hwe : wholeSecond (holdEndWB service startISO))
    by (unfold holdEndWB; cbn; by do 2 apply wholeSecond_addMinutes).
  rewrite (wholeSecond_formatISO _ Hwe) in Hend.
  destruct (free_apart (db w) (clock w) service startISO (Inv_ordered w I) Hfree) as [HfB HfH].
  destruct I. constructor; cbn.
  - intros h Hh. apply in_app_iff in Hh as [Hh|[<-|[]]]; [specialize (inv_ids0 h Hh)|]; lia.
  - rewrite map_app. apply NoDup_app. split; [assumption|]. split; [|apply NoDup_singleton].
    intros x Hx Hx'. apply list_elem_of_In in Hx, Hx'. destruct Hx' as [<-|[]].
    apply in_map_iff in Hx as (h & Hhx & Hh). specialize (inv_ids0 h Hh). cbn in Hhx. lia.
  - intros h Hh. apply in_app_iff in Hh as [Hh|[<-|[]]]; [by apply inv_hold0|].
    rewrite Hstart, Hend, Hsvc. by split.
  - assumption.
  - intros s svc t hid Hin Hm. apply in_app_iff in Hin as [Hin|[<-|[]]].
    + destruct (inv_session0 s svc t hid Hin Hm) as [Hlt Hh]. split; [lia|].
      intros h Hhin Hhid. apply in_app_iff in Hhin as [Hhin|[<-|[]]]; [by apply Hh|]. lia.
    + cbn in Hm. injection Hm as <- <- <-. split; [lia|].
      intros h Hhin Hhid. apply in_app_iff in Hhin as [Hhin|[<-|[]]]; [|by split].
      specialize (inv_ids0 h Hhin). lia.
  - assumption.
  - intros b h Hb Hh Hl Hs. apply in_app_iff in Hh as [Hh|[<-|[]]]; [by apply inv_sepBH0|].
    rewrite Hstart, Hend. apply HfB; [assumption | congruence].
  - intros h1 h2 H1 H2 Hne Hl1 Hl2 Hs.
    apply in_app_iff in H1 as [H1|[<-|[]]]; apply in_app_iff in H2 as [H2|[<-|[]]].
    + by apply inv_sepHH0.
    + rewrite Hstart, Hend. apply HfH; [assumption | congruence | assumption].
    + rewrite Hstart, Hend. apply apart_sym, HfH; [assumption | congruence | assumption].
    + congruence.
Qed.

Lemma consumeCredit_nextId st service email hold :
  nextId (consumeCredit st service email hold) = nextId st.
Proof.
  unfold consumeCredit.
  destruct (bool_decide _), (truthy email); try reflexivity.
  destruct (Users st !! _); try reflexivity. by destruct (_ && _).
Qed.

Lemma NoDup_ids_inj l h1 h2 :
  NoDup (map Hold.id l) -> In h1 l -> In h2 l -> Hold.id h1 = Hold.id h2 -> h1 = h2.
Proof.
  induction l as [|x r IH]; cbn; [tauto|].
  intros Hnd. apply NoDup_cons in Hnd as [Hx Hnd].
  intros [<-|H1] [<-|H2] Heq; try reflexivity; try (by apply IH).
  - exfalso. apply Hx. rewrite Heq. by apply list_elem_of_In, in_map.
  - exfalso. apply Hx. rewrite <- Heq. by apply list_elem_of_In, in_map.
Qed.

(** The booking that replaces a live hold inherits its place. *)
Lemma Inv_replace_hold w w' hold b :
  Inv w ->
  (forall h, In h (Holds (db w)) -> live (clock w) h) ->
  In hold (Holds (db w)) ->
  clock w' = clock w -> sessions w' = sessions w ->
  Holds (db w') = deleteOne (Hold.id hold) (Holds (db w)) ->
  Bookings (db w') = Bookings (db w) ++ [b] ->
  nextId (db w') = S (nextId (db w)) ->
  Booking.service b = Hold.service hold ->
  Booking.startISO b = Hold.startISO hold ->
  bookingEndWB b = Hold.endISOWB hold ->
  Inv w'.
Proof.
  intros I Hlive Hin Hc Hs HH HB Hn Hsvc Hst Hend.
  destruct (inv_hold w I hold Hin) as [Hws Hwb].
  pose proof (inv_nodup w I) as Hnd.
  constructor; rewrite ?Hc, ?Hs, ?HH, ?HB, ?Hn.
  - intros h Hh. apply In_deleteOne in Hh. pose proof (inv_ids w I h Hh). lia.
  - by apply NoDup_deleteOne.
  - intros h Hh. apply In_deleteOne in Hh. by apply (inv_hold w I).
  - intros b' Hb'. apply in_app_iff in Hb' as [Hb'|[<-|[]]]; [by apply (inv_booking w I)|].
    by rewrite Hend, Hsvc, Hst.
  - intros s svc t hid Hsin Hm. destruct (inv_session w I s svc t hid Hsin Hm) as [Hlt Hh].
    split; [lia|]. intros h Hhin. apply In_deleteOne in Hhin. by apply Hh.
  - intros i j b1 b2 Hij H1 H2 Hsame.
    apply lookup_app_Some in H1 as [H1|[Hi H1]]; apply lookup_app_Some in H2 as [H2|[Hj H2]].
    + by apply (inv_sepBB w I i j).
    + apply list_lookup_singleton_Some in H2 as [_ <-].
      rewrite Hst, Hend. apply (inv_sepBH w I); auto.
      * apply list_elem_of_In. by eapply list_elem_of_lookup_2.
      * congruence.
    + apply list_lookup_singleton_Some in H1 as [_ <-].
      rewrite Hst, Hend. apply apart_sym, (inv_sepBH w I); auto.
      * apply list_elem_of_In. by eapply list_elem_of_lookup_2.
      * congruence.
    + apply list_lookup_singleton_Some in H1 as [H1 _].
      apply list_lookup_singleton_Some in H2 as [H2 _]. lia.
  - intros b' h Hb' Hh Hl Hsame. pose proof (deleteOne_other _ _ _ Hnd Hh) as Hne.
    apply In_deleteOne in Hh.
    apply in_app_iff in Hb' as [Hb'|[<-|[]]]; [by apply (inv_sepBH w I)|].
    rewrite Hst, Hend. apply (inv_sepHH w I); auto. congruence.
  - intros h1 h2 H1 H2 Hne Hl1 Hl2 Hsame. apply In_deleteOne in H1, H2.
    by apply (inv_sepHH w I).
Qed.

(** The same for the holds of a group and the batch of their bookings. *)
Lemma Inv_replace_group w w' groupId batch :
  Inv w ->
  (forall h, In h (Holds (db w)) -> live (clock w) h) ->
  clock w' = clock w -> sessions w' = sessions w ->
  Holds (db w') = deleteMany groupId (Holds (db w)) ->
  Bookings (db w') = Bookings (db w) ++ batch ->
  (nextId (db w) <= nextId (db w'))%nat ->
  Forall2 inherits (List.filter (inGroup groupId) (Holds (db w))) batch ->
  Inv w'.
Proof.
  intros I Hlive Hc Hs HH HB Hn Hall.
  pose proof (inv_nodup w I) as Hnd.
  set (hs := List.filter (inGroup groupId) (Holds (db w))) in *.
  assert (Hsub : forall h, In h (deleteMany groupId (Holds (db w))) ->
                           In h (Holds (db w)) /\ inGroup groupId h = false).
  { intros h Hh. apply filter_In in Hh as [Hh Hg]. split; [assumption|].
    by apply negb_true_iff in Hg. }
  assert (Hgrp : forall h, In h hs -> In h (Holds (db w)) /\ inGroup groupId h = true)
    by (intros h Hh; by apply filter_In in Hh).
  assert (Hnew : forall b, In b batch -> exists h, In h hs /\ inherits h b).
  { intros b Hb. apply list_elem_of_In, list_elem_of_lookup in Hb as [k Hk].
    destruct (Forall2_lookup_r _ _ _ _ _ Hall Hk) as (h & Hh & Hi).
    exists h. split; [|assumption]. apply list_elem_of_In. by eapply list_elem_of_lookup_2. }
  constructor; rewrite ?Hc, ?Hs, ?HH, ?HB.
  - intros h Hh. apply Hsub in Hh as [Hh _]. pose proof (inv_ids w I h Hh). lia.
  - unfold deleteMany. by apply NoDup_filter_ids.
  - intros h Hh. apply Hsub in Hh as [Hh _]. by apply (inv_hold w I).
  - intros b Hb. apply in_app_iff in Hb as [Hb|Hb]; [by apply (inv_booking w I)|].
    destruct (Hnew b Hb) as (h & Hh & Hsvc & Hst & Hend).
    apply Hgrp in Hh as [Hh _]. destruct (inv_hold w I h Hh) as [_ Hwb].
    by rewrite Hend, Hsvc, Hst.
  - intros s svc t hid Hsin Hm. destruct (inv_session w I s svc t hid Hsin Hm) as [Hlt Hh].
    split; [lia|]. intros h Hhin. apply Hsub in Hhin as [Hhin _]. by apply Hh.
  - intros i j b1 b2 Hij H1 H2 Hsame.
    apply lookup_app_Some in H1 as [H1|[Hi H1]]; apply lookup_app_Some in H2 as [H2|[Hj H2]].
    + by apply (inv_sepBB w I i j).
    + destruct (Forall2_lookup_r _ _ _ _ _ Hall H2) as (h & Hh & Hsvc & Hst & Hend).
      rewrite Hst, Hend.
      assert (In h hs) as Hin by (apply list_elem_of_In; by eapply list_elem_of_lookup_2).
      apply Hgrp in Hin as [Hin _]. apply (inv_sepBH w I); auto.
      * apply list_elem_of_In. by eapply list_elem_of_lookup_2.
      * congruence.
    + destruct (Forall2_lookup_r _ _ _ _ _ Hall H1) as (h & Hh & Hsvc & Hst & Hend).
      rewrite Hst, Hend.
      assert (In h hs) as Hin by (apply list_elem_of_In; by eapply list_elem_of_lookup_2).
      apply Hgrp in Hin as [Hin _]. apply apart_sym, (inv_sepBH w I); auto.
      * apply list_elem_of_In. by eapply list_elem_of_lookup_2.
      * congruence.
    + destruct (Forall2_lookup_r _ _ _ _ _ Hall H1) as (h1 & Hh1 & Hsvc1 & Hst1 & Hend1).
      destruct (Forall2_lookup_r _ _ _ _ _ Hall H2) as (h2 & Hh2 & Hsvc2 & Hst2 & Hend2).
      rewrite Hst1, Hend1, Hst2, Hend2.
      assert (In h1 hs) as Hin1 by (apply list_elem_of_In; by eapply list_elem_of_lookup_2).
      assert (In h2 hs) as Hin2 by (apply list_elem_of_In; by eapply list_elem_of_lookup_2).
      apply Hgrp in Hin1 as [Hin1 _]. apply Hgrp in Hin2 as [Hin2 _].
      apply (inv_sepHH w I); auto; [|congruence].
      intros Heq.
      assert (Hnd' : NoDup (map Hold.id hs)) by (by apply NoDup_filter_ids).
      assert (i - length (Bookings (db w)) = j - length (Bookings (db w)))%nat; [|lia].
      apply (NoDup_lookup _ _ _ (Hold.id h1) Hnd').
      * by rewrite list_lookup_fmap, Hh1.
      * by rewrite list_lookup_fmap, Hh2, Heq.
  - intros b h Hb Hh Hl Hsame. apply Hsub in Hh as [Hh Hout].
    apply in_app_iff in Hb as [Hb|Hb]; [by apply (inv_sepBH w I)|].
    destruct (Hnew b Hb) as (h' & Hh' & Hsvc & Hst & Hend).
    apply Hgrp in Hh' as [Hh' Hingrp].
    rewrite Hst, Hend. apply (inv_sepHH w I); auto; [|congruence].
    intros Heq. assert (h' = h) by (by eapply NoDup_ids_inj). congruence.
  - intros h1 h2 H1 H2 Hne Hl1 Hl2 Hsame.
    apply Hsub in H1 as [H1 _]. apply Hsub in H2 as [H2 _]. by apply (inv_sepHH w I).
Qed.

Lemma Inv_same w w' :
  Inv w -> db w' = db w -> clock w' = clock w -> sessions w' = sessions w -> Inv w'.
Proof. destruct w, w'; cbn; intros I -> -> ->. exact I. Qed.

Lemma Forall2_mapFrom {A C : Type} (R : A -> C -> Prop) (f : nat -> A -> C) n l :
  (forall i x, In x l -> R x (f i x)) -> Forall2 R l (mapFrom f n l).
Proof.
  revert n. induction l as [|x r IH]; intros n H; cbn; constructor.
  - apply H. by left.
  - apply IH. intros i y Hy. apply H. by right.
Qed.

Lemma inherits_booking svc start b :
  wholeSecond start ->
  Booking.service b = svc ->
  Booking.startISO b = formatISO start ->
  Booking.endISO b = formatISO (Interval.end_ (intervalWithBuffer svc start)) ->
  Booking.startISO b = start /\ bookingEndWB b = holdEndWB svc start.
Proof.
  intros Hws Hsvc Hst Hend. rewrite Hst, (wholeSecond_formatISO _ Hws). split; [reflexivity|].
  unfold bookingEndWB, holdEndWB. rewrite Hend, Hsvc. cbn.
  by rewrite (wholeSecond_formatISO _ (wholeSecond_addMinutes _ _ Hws)).
Qed.

Lemma Inv_confirm w cookie sid :
  Inv w ->
  (forall h, In h (Holds (db w)) -> live (clock w) h) ->
  Inv (step MongoServer w (Confirm cookie sid)).
Proof.
  intros I Hlive. cbn [step]. unfold confirm.
  destruct (truthy (Some sid)) as [sid'|]; [|by apply (Inv_same w)].
  destruct (retrieve (sessions w) sid') as [session|] eqn:Hr; [|by apply (Inv_same w)].
  apply find_some in Hr as [Hsin _].
  destruct (Session.paid session); cbn [negb]; [|by apply (Inv_same w)].
  destruct (Session.metadata session) as [svc t hid | bid g |] eqn:Hm;
    [| |by apply (Inv_same w)].
  - destruct (findHold (db w) hid) as [hold|] eqn:Hf; [|by apply (Inv_same w)].
    apply find_some in Hf as [Hin Hid]. apply Nat.eqb_eq in Hid. subst hid.
    destruct (inv_session w I session svc t _ Hsin Hm) as [_ Hh].
    destruct (Hh hold Hin eq_refl) as [Hsvc Hst].
    destruct (inv_hold w I hold Hin) as [Hws Hwb].
    match goal with |- Inv {| db := snd (_, ?st) |} => set (st' := st) end.
    match goal with st' := withHolds _ (withNextId _ (withBookings (_ ++ [?b]) _)) |- _ =>
      set (bk := b) in * end.
    destruct (inherits_booking svc t bk) as [Hb1 Hb2]; try reflexivity; [congruence|].
    apply (Inv_replace_hold w _ hold bk I Hlive Hin); try reflexivity.
    + cbn. by rewrite consumeCredit_Holds.
    + cbn. by rewrite consumeCredit_Bookings.
    + cbn. by rewrite consumeCredit_nextId.
    + exact (eq_sym Hsvc).
    + by rewrite Hb1.
    + by rewrite Hb2, Hwb, Hsvc, Hst.
  - cbn [findOrder backend mongo].
    destruct (List.filter (inGroup g) (Holds (db w))) as [|h0 hs] eqn:Hg;
      [by apply (Inv_same w)|].
    set (email := jsOr (jsOr (Hold.email h0) (jsOr cookie None)) None).
    set (batch := mapFrom (bookingOfHold (clock w) g email (Session.id session))
                    (nextId (db w)) (h0 :: hs)).
    apply (Inv_replace_group w _ g batch I Hlive);
      [reflexivity | reflexivity | reflexivity | reflexivity | cbn; lia |].
    rewrite Hg. apply Forall2_mapFrom. intros i h Hh.
    assert (In h (Holds (db w))) as Hin.
    { rewrite <- Hg in Hh. by apply filter_In in Hh as [Hh _]. }
    destruct (inv_hold w I h Hin) as [Hws Hwb].
    destruct (inherits_booking (Hold.service h) (Hold.startISO h)
                (bookingOfHold (clock w) g email (Session.id session) i h))
      as [Hb1 Hb2]; try reflexivity; [assumption|].
    split; [reflexivity|]. split; [assumption|]. by rewrite Hb2, Hwb.
Qed.

Lemma mapFrom_ids {A : Type} (f : nat -> A -> Hold.t) n l :
  (forall i x, Hold.id (f i x) = i) -> map Hold.id (mapFrom f n l) = seq n (length l).
Proof.
  intros Hf. revert n. induction l as [|x r IH]; intros n; cbn; [reflexivity|].
  by rewrite Hf, IH.
Qed.

Lemma Inv_checkout_bundle w cookie bundleId selections :
  Inv w ->
  NoDup (map Selection.service selections) ->
  (forall sel, In sel selections -> wholeSecond (Selection.startISO sel)) ->
  Inv (step MongoServer w (CheckoutBundle cookie bundleId selections)).
Proof.
  intros I Hnd Hws. cbn [step]. unfold checkout_bundle.
  destruct (List.find _ BUNDLES) as [bdl|]; [|by apply (Inv_same w)].
  destruct (negb _); [by apply (Inv_same w)|].
  unfold placeHoldBundle.
  destruct (validateSelections (db w) (clock w) selections) as [e|] eqn:Hv;
    [by apply (Inv_same w)|].
  pose proof (proj1 (validateSelections_None (B := mongo) _ _ _) Hv) as Hpass.
  set (g := nextId (db w)).
  set (docs := mapFrom (bundleDoc (clock w) g bundleId cookie (Bundle.price bdl * 100))
                       (S g) selections).
  assert (Hdoc : forall d, In d docs ->
            exists (k : nat) sel, selections !! k = Some sel /\ In sel selections
              /\ Hold.id d = (S g + k)%nat
              /\ Hold.service d = Selection.service sel
              /\ Hold.startISO d = Selection.startISO sel
              /\ Hold.endISOWB d = holdEndWB (Selection.service sel) (Selection.startISO sel)).
  { intros d Hd. apply In_mapFrom in Hd as (k & sel & Hk & ->).
    assert (In sel selections) as Hin
      by (apply list_elem_of_In; by eapply list_elem_of_lookup_2).
    exists k, sel. repeat (split; [done|]). cbn.
    pose proof (Hws sel Hin) as Hw. rewrite (wholeSecond_formatISO _ Hw). split; [reflexivity|].
    unfold holdEndWB. cbn. by rewrite (wholeSecond_formatISO _
      (wholeSecond_addMinutes _ _ (wholeSecond_addMinutes _ _ Hw))). }
  destruct docs as [|d0 ds] eqn:Hdocs; [by apply (Inv_same w)|]. rewrite <- Hdocs in *.
  assert (Hlen : length docs = length selections) by apply mapFrom_length.
  assert (Hfree : forall sel, In sel selections ->
            (forall b, In b (Bookings (db w)) -> Booking.service b = Selection.service sel ->
               apart (Booking.startISO b) (bookingEndWB b) (Selection.startISO sel)
                     (holdEndWB (Selection.service sel) (Selection.startISO sel)))
            /\ (forall h, In h (Holds (db w)) -> Hold.service h = Selection.service sel ->
                  live (clock w) h ->
                  apart (Hold.startISO h) (Hold.endISOWB h) (Selection.startISO sel)
                        (holdEndWB (Selection.service sel) (Selection.startISO sel)))).
  { intros sel Hin. destruct (Hpass sel Hin) as (_ & _ & Hov).
    by apply (free_apart (db w) (clock w) _ _ (Inv_ordered w I)). }
  cbn [openSession]. destruct I. constructor; cbn.
  - intros h Hh. apply in_app_iff in Hh as [Hh|Hh]; [specialize (inv_ids0 h Hh); lia|].
    destruct (Hdoc h Hh) as (k & sel & Hk & _ & Hid & _).
    apply lookup_lt_Some in Hk. fold g. rewrite Hlen. lia.
  - rewrite map_app. apply NoDup_app. split; [assumption|]. split.
    + intros x Hx Hx'. apply list_elem_of_In in Hx, Hx'.
      apply in_map_iff in Hx as (h & <- & Hh). apply in_map_iff in Hx' as (d & Heq & Hd).
      destruct (Hdoc d Hd) as (k & sel & _ & _ & Hid & _).
      specialize (inv_ids0 h Hh). fold g in inv_ids0. lia.
    + unfold docs. rewrite mapFrom_ids by reflexivity. apply NoDup_seq.
  - intros h Hh. apply in_app_iff in Hh as [Hh|Hh]; [by apply inv_hold0|].
    destruct (Hdoc h Hh) as (k & sel & _ & Hin & _ & Hsvc & Hst & Hend).
    rewrite Hst, Hend, Hsvc. split; [by apply Hws | reflexivity].
  - assumption.
  - intros s svc t hid Hin Hm. apply in_app_iff in Hin as [Hin|[<-|[]]]; [|discriminate Hm].
    destruct (inv_session0 s svc t hid Hin Hm) as [Hlt Hh]. split; [lia|].
    intros h Hhin Hhid. apply in_app_iff in Hhin as [Hhin|Hhin]; [by apply Hh|].
    destruct (Hdoc h Hhin) as (k & sel & _ & _ & Hid & _). fold g in Hlt. lia.
  - assumption.
  - intros b h Hb Hh Hl Hs. apply in_app_iff in Hh as [Hh|Hh]; [by apply inv_sepBH0|].
    destruct (Hdoc h Hh) as (k & sel & _ & Hin & _ & Hsvc & Hst & Hend).
    rewrite Hst, Hend. apply (Hfree sel Hin); [assumption | congruence].
  - intros h1 h2 H1 H2 Hne Hl1 Hl2 Hs.
    apply in_app_iff in H1 as [H1|H1]; apply in_app_iff in H2 as [H2|H2].
    + by apply inv_sepHH0.
    + destruct (Hdoc h2 H2) as (k & sel & _ & Hin & _ & Hsvc & Hst & Hend).
      rewrite Hst, Hend. apply (Hfree sel Hin); [assumption | congruence | assumption].
    + destruct (Hdoc h1 H1) as (k & sel & _ & Hin & _ & Hsvc & Hst & Hend).
      rewrite Hst, Hend. apply apart_sym, (Hfree sel Hin); [assumption | congruence | assumption].
    + destruct (Hdoc h1 H1) as (k1 & sel1 & Hk1 & _ & Hid1 & Hsvc1 & _).
      destruct (Hdoc h2 H2) as (k2 & sel2 & Hk2 & _ & Hid2 & Hsvc2 & _).
      exfalso. apply Hne. rewrite Hid1, Hid2. f_equal.
      apply (NoDup_lookup _ _ _ (Selection.service sel1) Hnd).
      * by rewrite list_lookup_fmap, Hk1.
      * rewrite list_lookup_fmap, Hk2. cbn. congruence.
Qed.

(** Every event of an orderly run preserves the invariant. *)
Lemma Inv_step w e : Inv w -> orderly w e -> Inv (step MongoServer w e).
Proof.
  intros I Ho. destruct e as [ms | cookie service startISO | cookie bundleId selections
                              | sid | cookie sid | ].
  - by apply Inv_wait.
  - by apply Inv_checkout_single.
  - destruct Ho. by apply Inv_checkout_bundle.
  - by apply Inv_pay.
  - by apply Inv_confirm.
  - by apply Inv_sweep.
Qed.

Lemma Inv_run events : forall w, Inv w -> orderlyRun MongoServer w events ->
  Inv (run MongoServer w events).
Proof.
  induction events as [|e rest IH]; intros w I Ho; [exact I|].
  destruct Ho as [Ho Hrest]. apply IH; [by apply Inv_step | assumption].
Qed.

(** X29. What the MongoDB server does guarantee when it serves its
    requests one at a time, each to its reply before the next: from an
    empty store, in whatever order checkouts, payments, confirmations,
    sweeps and the passing of time follow one another, no two bookings of
    a service overlap, as long as the run is orderly. *)
Theorem no_double_booking_when_orderly :
  forall t0 events,
    orderlyRun MongoServer (emptyWorld t0) events ->
    ~ doubleBooked (db (run MongoServer (emptyWorld t0) events)).
Proof.
  intros t0 events Ho. pose proof (Inv_run events _ (Inv_empty t0) Ho) as I.
  intros (i & j & b1 & b2 & Hij & H1 & H2 & Hs & Hlt1 & Hlt2).
  pose proof (inv_sepBB _ I i j b1 b2 Hij H1 H2 Hs) as Ha. unfold apart in Ha. lia.
Qed.

(** * Instances on concrete requests *)

Lemma placeHoldBundle_all_or_nothing_witness :
  ((exists sel, In sel coldThenSaturday
                /\ ~ passesValidation (B := backend MongoServer) emptyStore (atTime monday 6 0) sel)
   /\ snd (placeHoldBundle (B := backend MongoServer) emptyStore (atTime monday 6 0)
             "bundle_alt_cold_sauna" coldThenSaturday ann 2000) = emptyStore)
  /\ ((forall sel, In sel coldThenSauna ->
         passesValidation (B := backend MongoServer) emptyStore (atTime monday 6 0) sel)
      /\ exists docs,
           Holds (snd (placeHoldBundle (B := backend MongoServer) emptyStore (atTime monday 6 0)
                         "bundle_alt_cold_sauna" coldThenSauna ann 2000)) = docs
           /\ length docs = 2%nat
           /\ map Hold.service docs = [icebath; sauna]).
Proof.
  split.
  - assert (Hbad : exists sel, In sel coldThenSaturday
                /\ ~ passesValidation (B := backend MongoServer) emptyStore (atTime monday 6 0) sel).
    { eexists. split; [right; left; reflexivity|].
      intros [Hw _]. vm_compute in Hw. discriminate Hw. }
    split; [exact Hbad|].
    exact (proj2 (proj1 (placeHoldBundle_all_or_nothing emptyStore (atTime monday 6 0)
                           "bundle_alt_cold_sauna" coldThenSaturday ann 2000) Hbad)).
  - assert (Hall : forall sel, In sel coldThenSauna ->
         passesValidation (B := backend MongoServer) emptyStore (atTime monday 6 0) sel).
    { intros sel [<-|[<-|[]]]; (split; [|split]); vm_compute; reflexivity. }
    split; [exact Hall|].
    destruct (proj2 (placeHoldBundle_all_or_nothing emptyStore (atTime monday 6 0)
                       "bundle_alt_cold_sauna" coldThenSauna ann 2000) Hall)
      as (docs & Hh & _ & _ & Hlen & Hsvc & _).
    exists docs. split; [exact Hh|]. split; [exact Hlen | exact Hsvc].
Defined.


Lemma credit_pricing_witness :
  "ann@example.com" <> ""
  /\ (User.hbotCredits <$> Users (annWithCredits 3) !! "ann@example.com") = Some 3
  /\ quote (annWithCredits 3) ann (Some hbot) = Json 60
  /\ exists co st1,
       checkout_single (B := backend MongoServer) (annWithCredits 3) (atTime monday 6 0) ann
         (Some hbot) (Some (atTime tuesday 10 0)) = (Json co, st1)
       /\ Checkout.unit_amount co = 6000
       /\ fst (confirm (B := backend MongoServer) gateway st1 (atTime monday 6 5) None
                 (Some "cs_0")) = Json ConfirmedSingle
       /\ (User.hbotCredits <$>
             Users (snd (confirm (B := backend MongoServer) gateway st1 (atTime monday 6 5) None
                           (Some "cs_0"))) !! "ann@example.com") = Some 2.
Proof.
  assert (Hne : "ann@example.com" <> "") by discriminate.
  assert (Hu : Users (annWithCredits 3) !! "ann@example.com"
               = Some {| User.email := "ann@example.com"; User.name := "Ann";
                         User.hbotCredits := 3 |})
    by (vm_compute; reflexivity).
  destruct (credit_pricing (annWithCredits 3) "ann@example.com" _ hbot Hne Hu)
    as (Hq & Hco1 & Hconf).
  split; [exact Hne|]. split; [vm_compute; reflexivity|]. split; [exact Hq|].
  assert (Hfresh : idsBelowSupply (annWithCredits 3)) by (intros h []).
  assert (Hco : checkout_single (B := backend MongoServer) (annWithCredits 3) (atTime monday 6 0)
                  ann (Some hbot) (Some (atTime tuesday 10 0))
                = (Json {| Checkout.unit_amount := 6000;
                           Checkout.metadata := MetaSingle hbot (atTime tuesday 10 0) 0 |},
                   snd (checkout_single (B := backend MongoServer) (annWithCredits 3)
                          (atTime monday 6 0) ann (Some hbot) (Some (atTime tuesday 10 0)))))
    by (vm_compute; reflexivity).
  destruct (Hco1 _ _ _ _ Hfresh Hco) as (Hamt & HU & holdId & hold & Hmeta & Hfind & Hcharge & Hem).
  injection Hmeta as <-.
  rewrite <- HU in Hu.
  destruct (Hconf gateway _ (atTime monday 6 5) None "cs_0" annSession (atTime tuesday 10 0)
              0%nat hold _ ltac:(discriminate) eq_refl eq_refl eq_refl Hfind Hcharge Hem Hu)
    as (Hok & Hcred & _).
  do 2 eexists. split; [exact Hco|]. split; [reflexivity|]. split; [exact Hok|].
  rewrite Hcred. reflexivity.
Defined.

(** * Further properties of the conflict check *)

(** X1. The conflict check of [src/server.js] answers true exactly when the
    candidate interval shares an instant with the buffered interval of a
    booking of the service or with the interval of a live hold of the
    service, on every store whose intervals run forward and for every
    candidate that runs forward. *)
Theorem overlapsMongo_decides_conflict :
  forall st now service start endWB,
    start <= endWB -> orderedStore st ->
    (Mongo.overlapsMongo st now service start endWB = true
       <-> conflictSpec st now service start endWB)
    /\ (Mongo.overlapsMongo st now service start endWB = false
          <-> ~ conflictSpec st now service start endWB).
Proof.
  intros st now service start endWB Hc Ho.
  pose proof (overlapsMongo_spec st now service start endWB Hc Ho) as Hiff.
  split; [exact Hiff|].
  destruct (Mongo.overlapsMongo st now service start endWB); split.
  - discriminate.
  - intros Hno. exfalso. by apply Hno, Hiff.
  - intros _ Hyes. apply Hiff in Hyes. discriminate.
  - reflexivity.
Qed.

(** X2. The conflict check of the Prisma server answers true exactly when
    the candidate strictly overlaps the interval, without buffer, of a
    booking of the service or the buffered interval of a live hold of the
    service; whenever it reports a conflict, so does the check of
    [src/server.js] on the same store. *)
Theorem overlapsPrisma_strict_and_weaker :
  forall st now service start endWB,
    (Prisma.overlapsPrisma st now service start endWB = true <->
       (exists b, In b (Bookings st) /\ Booking.service b = service
                  /\ Booking.startISO b < endWB /\ start < Booking.endISO b)
       \/ (exists h, In h (Holds st) /\ Hold.service h = service /\ live now h
                   /\ Hold.startISO h < endWB /\ start < Hold.endISOWB h))
    /\ (Prisma.overlapsPrisma st now service start endWB = true ->
        Mongo.overlapsMongo st now service start endWB = true).
Proof.
  intros st now service start endWB. split.
  - apply overlapsPrisma_iff.
  - apply overlapsPrisma_overlapsMongo.
Qed.

Lemma filter_and_filter {A : Type} (p q : A -> bool) (l : list A) :
  List.filter (fun x => p x && q x) (List.filter q l) = List.filter (fun x => p x && q x) l.
Proof.
  induction l as [|x r IH]; cbn; [reflexivity|].
  destruct (q x) eqn:Eq; cbn.
  - rewrite Eq, IH. reflexivity.
  - rewrite andb_false_r. exact IH.
Qed.

Lemma later_live t now h : t <= now -> (now <? Hold.expireAt h) = true -> (t <? Hold.expireAt h) = true.
Proof. rewrite !Z.ltb_lt. lia. Qed.

Lemma filter_live_earlier (p : Hold.t -> bool) t now (l : list Hold.t) :
  t <= now ->
  List.filter (fun h => p h && (now <? Hold.expireAt h))
              (List.filter (fun h => t <? Hold.expireAt h) l)
  = List.filter (fun h => p h && (now <? Hold.expireAt h)) l.
Proof.
  intros Hle. induction l as [|x r IH]; cbn; [reflexivity|].
  destruct (t <? Hold.expireAt x) eqn:Et; cbn.
  - by rewrite IH.
  - assert ((now <? Hold.expireAt x) = false) as ->.
    { apply Z.ltb_ge. apply Z.ltb_ge in Et. lia. }
    rewrite andb_false_r. exact IH.
Qed.

(** X3. A hold whose expiry has passed is invisible to the conflict check
    of either server: removing the holds expired at some earlier or equal
    time, as the TTL monitor does, never changes the answer. *)
Theorem expired_holds_never_block :
  forall v st t now service start endWB,
    t <= now ->
    overlaps (Backend := backend v) (Mongo.ttlSweep t st) now service start endWB
    = overlaps (Backend := backend v) st now service start endWB.
Proof.
  intros v st t now service start endWB Hle. destruct v; cbn [overlaps backend mongo prisma].
  - unfold Mongo.overlapsMongo, Mongo.ttlSweep. cbn [Bookings Holds withHolds].
    by rewrite (filter_live_earlier (fun h => bool_decide (Hold.service h = service)) t now
                  (Holds st) Hle).
  - unfold Prisma.overlapsPrisma, Mongo.ttlSweep. cbn [Bookings Holds withHolds].
    by rewrite (filter_live_earlier
                  (fun h => bool_decide (Hold.service h = service)
                            && (Hold.startISO h <? endWB) && (start <? Hold.endISOWB h))
                  t now (Holds st) Hle).
Qed.

(** * Further properties of the calendar *)

Lemma getDay_range d : 0 <= getDay d < 7.
Proof. unfold getDay. apply Z.mod_pos_bound. lia. Qed.

Lemma mongo_window_hours d :
  Mongo.businessWindowOn d =
  if (getDay d =? 0) || (getDay d =? 6) then None
  else Some {| Window.open := startOfDay d + 7 * HOUR;
               Window.close :=
                 startOfDay d + (if (getDay d =? 2) || (getDay d =? 4) then 12 else 18) * HOUR |}.
Proof.
  unfold Mongo.businessWindowOn, Mongo.weekdayKey, WEEKLY_HOURS.
  pose proof (getDay_range d) as Hr.
  destruct (Z.eqb_spec (getDay d) 1) as [E|N1];
    [rewrite E; cbn -[Mongo.toDay startOfDay]; rewrite !toDay_eq; unfold HOUR, MINUTE; do 2 f_equal; lia|].
  destruct (Z.eqb_spec (getDay d) 2) as [E|N2];
    [rewrite E; cbn -[Mongo.toDay startOfDay]; rewrite !toDay_eq; unfold HOUR, MINUTE; do 2 f_equal; lia|].
  destruct (Z.eqb_spec (getDay d) 3) as [E|N3];
    [rewrite E; cbn -[Mongo.toDay startOfDay]; rewrite !toDay_eq; unfold HOUR, MINUTE; do 2 f_equal; lia|].
  destruct (Z.eqb_spec (getDay d) 4) as [E|N4];
    [rewrite E; cbn -[Mongo.toDay startOfDay]; rewrite !toDay_eq; unfold HOUR, MINUTE; do 2 f_equal; lia|].
  destruct (Z.eqb_spec (getDay d) 5) as [E|N5];
    [rewrite E; cbn -[Mongo.toDay startOfDay]; rewrite !toDay_eq; unfold HOUR, MINUTE; do 2 f_equal; lia|].
  destruct (Z.eqb_spec (getDay d) 0) as [E|N0]; [reflexivity|].
  destruct (Z.eqb_spec (getDay d) 6) as [E|N6]; [reflexivity|]. lia.
Qed.

(** X4. The business window of a date, in either formulation: none on a
    Saturday or a Sunday; otherwise it opens at 07:00 of that day and closes
    at 12:00 on Tuesdays and Thursdays and at 18:00 on the other weekdays. *)
Theorem businessWindowOn_hours :
  forall v d,
    businessWindowOn (Backend := backend v) d =
    if (getDay d =? 0) || (getDay d =? 6) then None
    else Some {| Window.open := startOfDay d + 7 * HOUR;
                 Window.close :=
                   startOfDay d + (if (getDay d =? 2) || (getDay d =? 4) then 12 else 18) * HOUR |}.
Proof.
  intros v d. destruct v; cbn [businessWindowOn backend mongo prisma].
  - apply mongo_window_hours.
  - rewrite businessWindowOn_same. apply mongo_window_hours.
Qed.

(** X5. The business-hours check of either server in closed form: a start
    is accepted exactly on Monday to Friday, from 07:00 of its day on, when
    the service without its buffer ends by 12:00 on Tuesdays and Thursdays
    and by 18:00 on the other weekdays.  With the process zone at UTC, the
    zone of the embedding, the two formulations of the check agree on
    every input. *)
Theorem withinHours_closed_form :
  forall v s t,
    (withinHours (Backend := backend v) s t = true <->
       1 <= getDay t <= 5
       /\ startOfDay t + 7 * HOUR <= t
       /\ addMinutes t (Service.duration (SERVICES s))
          <= startOfDay t + (if (getDay t =? 2) || (getDay t =? 4) then 12 else 18) * HOUR)
    /\ Prisma.withinHours s t = Mongo.withinHours s t.
Proof.
  intros v s t. split; [|apply withinHours_same].
  assert (Hm : Mongo.withinHours s t = true <->
       1 <= getDay t <= 5
       /\ startOfDay t + 7 * HOUR <= t
       /\ addMinutes t (Service.duration (SERVICES s))
          <= startOfDay t + (if (getDay t =? 2) || (getDay t =? 4) then 12 else 18) * HOUR).
  { rewrite withinHours_mongo_iff, businessWindowOn_startOfDay, mongo_window_hours.
    pose proof (getDay_range t) as Hr.
    destruct (Z.eqb_spec (getDay t) 0) as [E0|N0]; cbn [orb].
    - split; [intros (w & [=] & _) | lia].
    - destruct (Z.eqb_spec (getDay t) 6) as [E6|N6].
      + split; [intros (w & [=] & _) | lia].
      + split.
        * intros (w & [= <-] & Ho & Hc). cbn in Ho, Hc. repeat split; try assumption; lia.
        * intros (Hd & Ho & Hc). eexists. split; [reflexivity|]. cbn. by split. }
  destruct v; cbn [withinHours backend mongo prisma]; [exact Hm|].
  by rewrite withinHours_same.
Qed.

(** * Stored instants and single holds *)

Lemma formatISO_addMinutes d m : formatISO (addMinutes d m) = addMinutes (formatISO d) m.
Proof.
  unfold formatISO, addMinutes, SECOND, MINUTE.
  replace (d + m * 60000) with (d + (m * 60) * 1000) by lia.
  rewrite Z.div_add by lia. lia.
Qed.

Lemma formatISO_bounds d : formatISO d <= d < formatISO d + SECOND.
Proof.
  unfold formatISO, SECOND.
  pose proof (Z_div_mod_eq_full d 1000). pose proof (Z.mod_pos_bound d 1000 ltac:(lia)). lia.
Qed.

(** X6. Writing an instant as an ISO string cut to seconds and reading it
    back drops less than a second, changes nothing the second time, keeps
    the order of instants, and commutes with adding minutes. *)
Theorem formatISO_truncates :
  forall d m (k : N),
    formatISO (formatISO d) = formatISO d
    /\ formatISO d <= d < formatISO d + SECOND
    /\ formatISO d <= formatISO (d + Z.of_N k)
    /\ formatISO (addMinutes d m) = addMinutes (formatISO d) m.
Proof.
  intros d m k. split; [|split; [apply formatISO_bounds|split; [|apply formatISO_addMinutes]]].
  - unfold formatISO, SECOND. rewrite (Z.mul_comm 1000 (d / 1000)), Z.div_mul by lia. lia.
  - unfold formatISO, SECOND. apply Z.mul_le_mono_nonneg_l; [lia|].
    apply Z.div_le_mono; lia.
Qed.

(** X7. The three outcomes of a single hold on [src/server.js].  It is
    refused as outside business hours exactly when the hours check fails,
    refused as unavailable exactly when the hours check passes and the
    conflict check finds something, and a refusal leaves the store as it
    was; the same-day cutoff, being zero, never refuses.  Otherwise exactly
    one hold is appended: it carries the next identifier, the start cut to
    seconds, an end one service duration later and a buffered end one
    buffer later still, the charge given, and expires [HOLD_TTL_MIN]
    minutes after now; bookings and accounts are untouched. *)
Theorem placeHoldSingle_outcome :
  forall st now service startISO email unitAmount,
    let r := placeHoldSingle (B := backend MongoServer) st now service startISO email unitAmount in
    let iv := intervalWithBuffer service startISO in
    (withinHours (Backend := backend MongoServer) service startISO = false
     /\ r = (HoldRefused "outside business hours", st))
    \/ (withinHours (Backend := backend MongoServer) service startISO = true
        /\ overlaps (Backend := backend MongoServer) st now service startISO (Interval.endWB iv) = true
        /\ r = (HoldRefused "slot currently unavailable", st))
    \/ (withinHours (Backend := backend MongoServer) service startISO = true
        /\ overlaps (Backend := backend MongoServer) st now service startISO (Interval.endWB iv) = false
        /\ fst r = HoldOk (nextId st)
        /\ Bookings (snd r) = Bookings st
        /\ Users (snd r) = Users st
        /\ nextId (snd r) = S (nextId st)
        /\ exists h,
             Holds (snd r) = Holds st ++ [h]
             /\ Hold.id h = nextId st
             /\ Hold.type h = type_single
             /\ Hold.service h = service
             /\ Hold.startISO h = formatISO startISO
             /\ Hold.endISO h = addMinutes (Hold.startISO h) (Service.duration (SERVICES service))
             /\ Hold.endISOWB h = addMinutes (Hold.endISO h) (BUFFERS service)
             /\ Hold.unitAmount h = Some unitAmount
             /\ Hold.createdAt h = now
             /\ Hold.expireAt h = addMinutes now HOLD_TTL_MIN).
Proof.
  intros st now service startISO email unitAmount. cbv zeta. unfold placeHoldSingle.
  destruct (withinHours service startISO) eqn:Ew; cbn [negb]; [|by left].
  assert (Hcut : sameDayCutoffOK (Backend := backend MongoServer) now startISO = true) by reflexivity.
  rewrite Hcut. cbn [negb]. right.
  destruct (overlaps st now service startISO _) eqn:Eo; [by left|]. right.
  cbn [fst snd Bookings Users Holds nextId withNextId withHolds].
  do 6 (split; [reflexivity|]). eexists. split; [reflexivity|].
  cbn [intervalWithBuffer Interval.end_ Interval.endWB Hold.id Hold.type Hold.service
       Hold.startISO Hold.endISO Hold.endISOWB Hold.unitAmount Hold.createdAt Hold.expireAt].
  rewrite !formatISO_addMinutes. repeat split.
Qed.

Lemma duration_positive s : 0 < Service.duration (SERVICES s).
Proof. destruct s; cbn; lia. Qed.

(** A stored hold is found again by the conflict check of either server
    for the candidate it was made from, while it is live. *)
Lemma own_hold_conflicts v st now service start h :
  In h (Holds st) -> Hold.service h = service -> now < Hold.expireAt h ->
  Hold.startISO h = formatISO start ->
  Hold.endISOWB h = formatISO (holdEndWB service start) ->
  overlaps (Backend := backend v) st now service start (holdEndWB service start) = true.
Proof.
  intros Hin Hs Hl Hst Hend.
  pose proof (formatISO_bounds start) as Hb.
  pose proof (duration_positive service) as Hd. pose proof (buffer_nonneg service) as Hbuf.
  assert (Hwb : holdEndWB service start
                = start + (Service.duration (SERVICES service) + BUFFERS service) * MINUTE)
    by (unfold holdEndWB, intervalWithBuffer, addMinutes; cbn; lia).
  assert (Hfe : formatISO (holdEndWB service start)
                = formatISO start
                  + (Service.duration (SERVICES service) + BUFFERS service) * MINUTE).
  { rewrite Hwb. change (start + ?k * MINUTE) with (addMinutes start k).
    by rewrite formatISO_addMinutes. }
  unfold SECOND, MINUTE in *.
  assert (Hstrict : Prisma.overlapsPrisma st now service start (holdEndWB service start) = true).
  { apply overlapsPrisma_iff. right. exists h. unfold live.
    repeat split; try assumption; rewrite ?Hst, ?Hend, ?Hfe, ?Hwb; lia. }
  destruct v; cbn [overlaps backend mongo prisma]; [|exact Hstrict].
  by apply overlapsPrisma_overlapsMongo.
Qed.

(** X8. A hold that [src/server.js] has placed keeps its slot: until
    it expires, the conflict check answers true for the same service and
    start, and a repeated request for them is refused as unavailable,
    whoever asks, leaving the store as it is. *)
Theorem placed_hold_blocks_repeat :
  forall st now service startISO email unitAmount holdId st1,
    placeHoldSingle (B := backend MongoServer) st now service startISO email unitAmount
      = (HoldOk holdId, st1) ->
    forall now' email' unitAmount',
      now' < addMinutes now HOLD_TTL_MIN ->
      overlaps (Backend := backend MongoServer) st1 now' service startISO (holdEndWB service startISO) = true
      /\ placeHoldSingle (B := backend MongoServer) st1 now' service startISO email' unitAmount'
         = (HoldRefused "slot currently unavailable", st1).
Proof.
  intros st now service startISO email unitAmount holdId st1 Hp now' email' unitAmount' Hlive.
  assert (Hw : withinHours (Backend := backend MongoServer) service startISO = true).
  { unfold placeHoldSingle in Hp. destruct (withinHours service startISO); [reflexivity|].
    discriminate Hp. }
  pose proof (placeHoldSingle_ok_inv (B := backend MongoServer) _ _ _ _ _ _ _ _ Hp)
    as (_ & _ & _ & doc & HH & _ & Hsvc & _ & _ & Hexp).
  apply (placeHoldSingle_placed (B := backend MongoServer)) in Hp
    as (_ & _ & doc' & -> & _ & Hsvc' & Hst' & Hend').
  cbn [Holds withHolds withNextId] in HH. apply app_inv_head in HH. injection HH as <-.
  assert (Hov : overlaps (Backend := backend MongoServer)
                  (withNextId (S (nextId st)) (withHolds (Holds st ++ [doc']) st))
                  now' service startISO (holdEndWB service startISO) = true).
  { apply (own_hold_conflicts MongoServer _ now' service startISO doc'); try assumption.
    - cbn. apply in_app_iff. right. by left.
    - rewrite Hexp. exact Hlive. }
  split; [exact Hov|].
  unfold placeHoldSingle. rewrite Hw. cbn [negb].
  assert (Hcut : sameDayCutoffOK (Backend := backend MongoServer) now' startISO = true) by reflexivity.
  rewrite Hcut. cbn [negb]. unfold holdEndWB in Hov. by rewrite Hov.
Qed.

(** * Further properties of availability *)

Lemma availability_slots v st now service date :
  slotsOf (availability (B := backend v) st now (Some service) (Some date)) =
  if (getDay date =? 0) || (getDay date =? 6) then []
  else map (slotAt service)
         (List.filter (freeAt (B := backend v) st now service)
            (grid (startOfDay date + 7 * HOUR)
                  (startOfDay date
                   + (if (getDay date =? 2) || (getDay date =? 4) then 12 else 18) * HOUR)
                  (Service.duration (SERVICES service)))).
Proof.
  unfold availability.
  assert (Hw : businessWindowOn (Backend := backend v) date = Mongo.businessWindowOn date)
    by (destruct v; [reflexivity | apply businessWindowOn_same]).
  rewrite Hw, mongo_window_hours.
  destruct ((getDay date =? 0) || (getDay date =? 6)); [reflexivity|].
  cbn [slotsOf Window.open Window.close]. apply slotLoop_grid.
Qed.

Lemma wholeSecond_startOfDay d : wholeSecond (startOfDay d).
Proof.
  unfold wholeSecond, startOfDay, DAY, SECOND.
  replace (86400000 * (d / 86400000)) with ((86400 * (d / 86400000)) * 1000) by lia.
  apply Z.mod_mul. lia.
Qed.

Lemma wholeSecond_opening d : wholeSecond (startOfDay d + 7 * HOUR).
Proof.
  change (startOfDay d + 7 * HOUR) with (addMinutes (startOfDay d) 420).
  apply wholeSecond_addMinutes, wholeSecond_startOfDay.
Qed.

Lemma grid_member open close dur c :
  In c (grid open close dur) ->
  open <= c /\ addMinutes c dur <= close /\ (c - open) mod (SLOT * MINUTE) = 0
  /\ (wholeSecond open -> wholeSecond c).
Proof.
  intros Hin. apply in_grid in Hin as (k & -> & Hle).
  unfold addMinutes, SLOT, MINUTE in *. repeat split; try lia.
  - replace (open + Z.of_nat k * 15 * 60000 - open) with (Z.of_nat k * (15 * 60000)) by lia.
    apply Z.mod_mul. lia.
  - intros Hw. change (open + Z.of_nat k * 15 * 60000)
      with (addMinutes open (Z.of_nat k * 15)). by apply wholeSecond_addMinutes.
Qed.

Lemma seq_sorted a n : StronglySorted lt (seq a n).
Proof.
  revert a. induction n as [|n IH]; intros a; cbn; constructor; [apply IH|].
  apply Forall_forall. intros x Hx. apply list_elem_of_In, in_seq in Hx. lia.
Qed.

Lemma grid_sorted open close dur : StronglySorted Z.lt (grid open close dur).
Proof.
  unfold grid. generalize (seq_sorted 0 (gridCount open close dur)).
  generalize (seq 0 (gridCount open close dur)) as l.
  induction l as [|x r IH]; intros Hs; cbn; constructor.
  - apply IH. by apply StronglySorted_inv in Hs as [? _].
  - apply StronglySorted_inv in Hs as [_ Hall]. rewrite Forall_forall in Hall.
    apply Forall_forall. intros y Hy. apply list_elem_of_In, in_map_iff in Hy as (k & <- & Hk).
    specialize (Hall k (proj2 (list_elem_of_In _ _) Hk)).
    unfold addMinutes, SLOT, MINUTE. lia.
Qed.

Lemma sorted_map_filter {A C : Type} (R : A -> A -> Prop) (R' : C -> C -> Prop)
    (g : A -> C) (f : A -> bool) (l : list A) :
  (forall x y, In x l -> In y l -> R x y -> R' (g x) (g y)) ->
  StronglySorted R l -> StronglySorted R' (map g (List.filter f l)).
Proof.
  induction l as [|x r IH]; intros Hg Hs; cbn; [constructor|].
  apply StronglySorted_inv in Hs as [Hs Hall]. rewrite Forall_forall in Hall.
  assert (Hrest : StronglySorted R' (map g (List.filter f r))).
  { apply IH; [|assumption]. intros a b Ha Hb. apply Hg; by right. }
  destruct (f x); [|exact Hrest]. cbn. constructor; [exact Hrest|].
  apply Forall_forall. intros y Hy. apply list_elem_of_In, in_map_iff in Hy as (b & <- & Hb).
  apply filter_In in Hb as [Hb _]. apply Hg; [by left | by right |].
  apply Hall. by apply list_elem_of_In.
Qed.

Lemma gridCount_day d dur hours :
  10 <= dur -> hours <= 18 ->
  (gridCount (startOfDay d + 7 * HOUR) (startOfDay d + hours * HOUR) dur <= 44)%nat.
Proof.
  intros Hd Hh. unfold gridCount, addMinutes, SLOT, MINUTE, HOUR.
  assert ((startOfDay d + hours * 3600000 - (startOfDay d + 7 * 3600000 + dur * 60000))
          / (15 * 60000) < 44) by (apply Z.div_lt_upper_bound; lia).
  lia.
Qed.

(** X9. What an availability reply of either server looks like: its slots
    start strictly one after the other, each on the grid of [SLOT] minutes
    counted from 07:00 of the date, each lasts the duration of the service
    and ends by 18:00, each passed the conflict check of the server at its
    start, and there are at most 44 of them. *)
Theorem availability_shape :
  forall v st now service date,
    let slots := slotsOf (availability (B := backend v) st now (Some service) (Some date)) in
    StronglySorted (fun a b => Slot.startISO a < Slot.startISO b) slots
    /\ Forall (fun slot =>
                 Slot.endISO slot
                   = addMinutes (Slot.startISO slot) (Service.duration (SERVICES service))
                 /\ startOfDay date + 7 * HOUR <= Slot.startISO slot
                 /\ Slot.endISO slot <= startOfDay date + 18 * HOUR
                 /\ (Slot.startISO slot - (startOfDay date + 7 * HOUR)) mod (SLOT * MINUTE) = 0
                 /\ freeAt (B := backend v) st now service (Slot.startISO slot) = true) slots
    /\ (length slots <= 44)%nat.
Proof.
  intros v st now service date. cbv zeta. rewrite availability_slots.
  destruct ((getDay date =? 0) || (getDay date =? 6));
    [repeat split; [constructor | constructor | cbn; lia]|].
  set (open := startOfDay date + 7 * HOUR).
  set (close := startOfDay date + _ * HOUR).
  set (dur := Service.duration (SERVICES service)).
  assert (Hclose : close <= startOfDay date + 18 * HOUR)
    by (unfold close, HOUR; destruct (_ || _); lia).
  assert (Hwhole : forall c, In c (grid open close dur) -> formatISO c = c).
  { intros c Hc. apply wholeSecond_formatISO.
    apply (grid_member open close dur c Hc), wholeSecond_opening. }
  split; [|split].
  - apply (sorted_map_filter Z.lt); [|apply grid_sorted].
    intros x y Hx Hy Hlt. cbn [slotAt Slot.startISO]. by rewrite (Hwhole x Hx), (Hwhole y Hy).
  - apply Forall_forall. intros slot Hs.
    apply list_elem_of_In, in_map_iff in Hs as (c & <- & Hc). apply filter_In in Hc as [Hc Hfree].
    destruct (grid_member open close dur c Hc) as (Ho & He & Hm & Hw).
    specialize (Hw (wholeSecond_opening date)).
    cbn [slotAt Slot.startISO Slot.endISO]. fold dur.
    rewrite (wholeSecond_formatISO c Hw).
    rewrite (wholeSecond_formatISO _ (wholeSecond_addMinutes c dur Hw)).
    repeat split; try assumption. fold dur in He. lia.
  - rewrite length_map. etransitivity; [apply filter_length_le|].
    unfold grid. rewrite length_map, length_seq.
    unfold open, close. apply gridCount_day.
    + unfold dur. destruct service; cbn; lia.
    + destruct (_ || _); lia.
Qed.

(** X10. Every slot the MongoDB server offers, the Prisma server offers as
    well for the same store, time, service and date: its conflict check
    lets through whatever the check of [src/server.js] lets through. *)
Theorem availability_mongo_within_prisma :
  forall st now service date,
    incl (slotsOf (availability (B := backend MongoServer) st now (Some service) (Some date)))
         (slotsOf (availability (B := backend PrismaServer) st now (Some service) (Some date))).
Proof.
  intros st now service date slot. rewrite !availability_slots.
  destruct ((getDay date =? 0) || (getDay date =? 6)); [tauto|].
  rewrite !in_map_iff. intros (c & <- & Hc). exists c. split; [reflexivity|].
  apply filter_In in Hc as [Hc Hfree]. apply filter_In. split; [assumption|].
  unfold freeAt in *. cbn [overlaps backend mongo prisma] in *.
  apply negb_true_iff in Hfree. apply negb_true_iff.
  destruct (Prisma.overlapsPrisma st now service c _) eqn:E; [|reflexivity].
  apply overlapsPrisma_overlapsMongo in E. congruence.
Qed.

Lemma sorted_filter {A : Type} (R : A -> A -> Prop) (f : A -> bool) (l : list A) :
  StronglySorted R l -> StronglySorted R (List.filter f l).
Proof.
  induction 1 as [|x r Hr IH Hx]; cbn; [constructor|].
  destruct (f x); [|exact IH]. constructor; [exact IH|].
  rewrite List.Forall_forall in Hx. apply List.Forall_forall. intros y Hy.
  apply filter_In in Hy as [Hy _]. by apply Hx.
Qed.

(** C8. On a closed day the availability route of [src/server.js] answers
    the empty list.  Otherwise, on a store whose intervals run forward, it
    answers the slots of exactly those starts, in increasing order, that
    lie on the grid stepped by [SLOT] minutes from the opening, whose
    service end is not after closing, and at which no booking and no live
    hold of the service conflicts in the sense of the specification.  For
    the sauna on a Monday with an empty store these are the 44 slots
    starting 07:00, 07:15, ..., 17:45.  The route of the Prisma server does
    not keep to this: beside an hbot booking from 07:00 to 08:00, buffered
    until 08:30, it offers hbot at 08:00, which [src/server.js] does not. *)
Theorem availability_enumerates_grid :
  (forall st now service date,
     orderedStore st ->
     match businessWindowOn (Backend := backend MongoServer) date with
     | None =>
         availability (B := backend MongoServer) st now (Some service) (Some date) = Json []
     | Some win =>
         exists starts,
           availability (B := backend MongoServer) st now (Some service) (Some date)
             = Json (map (slotAt service) starts)
           /\ StronglySorted Z.lt starts
           /\ forall c,
                In c starts <->
                (exists k : nat,
                   c = addMinutes (Window.open win) (Z.of_nat k * SLOT)
                   /\ addMinutes c (Service.duration (SERVICES service)) <= Window.close win)
                /\ ~ conflictSpec st now service c (holdEndWB service c)
     end)
  /\ (forall st now service,
        availability (B := backend MongoServer) st now (Some service)
          (Some (atTime saturday 0 0)) = Json [])
  /\ (forall now,
        exists slots,
          availability (B := backend MongoServer) emptyStore now (Some sauna)
            (Some (atTime monday 0 0)) = Json slots
          /\ slots = map (fun k => {| Slot.startISO := atTime monday 7 (15 * Z.of_nat k);
                                      Slot.endISO := atTime monday 7 (15 * Z.of_nat k + 15) |})
                         (seq 0 44)
          /\ head (map Slot.startISO slots) = Some (atTime monday 7 0)
          /\ last (map Slot.startISO slots) = Some (atTime monday 17 45))
  /\ (conflictSpec hbotAtSeven (atTime monday 6 30) hbot (atTime monday 8 0)
        (holdEndWB hbot (atTime monday 8 0))
      /\ In {| Slot.startISO := atTime monday 8 0; Slot.endISO := atTime monday 9 0 |}
            (slotsOf (availability (B := backend PrismaServer) hbotAtSeven (atTime monday 6 30)
                        (Some hbot) (Some (atTime monday 0 0))))
      /\ existsb (fun slot => Slot.startISO slot =? atTime monday 8 0)
            (slotsOf (availability (B := backend MongoServer) hbotAtSeven (atTime monday 6 30)
                        (Some hbot) (Some (atTime monday 0 0)))) = false).
Proof.
  split; [|split; [|split]].
  - intros st now service date Hord. unfold availability.
    destruct (businessWindowOn date) as [win|]; [|reflexivity].
    rewrite slotLoop_grid. eexists. split; [reflexivity|].
    split; [apply sorted_filter, grid_sorted|].
    intros c. rewrite filter_In, in_grid.
    assert (Hfree : freeAt (B := backend MongoServer) st now service c = true
                    <-> ~ conflictSpec st now service c (holdEndWB service c)).
    { unfold freeAt. cbn [overlaps backend mongo]. fold (holdEndWB service c).
      rewrite <- (overlapsMongo_spec st now service c (holdEndWB service c)
                    (holdEndWB_ge service c) Hord).
      rewrite negb_true_iff. by destruct (Mongo.overlapsMongo _ _ _ _ _). }
    by rewrite Hfree.
  - intros st now service. reflexivity.
  - intros now. eexists. split; [vm_compute; reflexivity|].
    split; [reflexivity|]. split; vm_compute; reflexivity.
  - split; [|split].
    + left. eexists. split; [left; reflexivity|]. split; [reflexivity|].
      exists (atTime monday 8 0). vm_compute. intuition discriminate.
    + vm_compute. repeat (first [left; reflexivity | right]).
    + vm_compute. reflexivity.
Qed.

(** X11. No slot offered by the MongoDB server conflicts, in the sense of
    the specification, with a booking or a live hold of the service, on
    every store whose intervals run forward. *)
Theorem availability_mongo_conflict_free :
  forall st now service date slot,
    orderedStore st ->
    In slot (slotsOf (availability (B := backend MongoServer) st now (Some service) (Some date))) ->
    ~ conflictSpec st now service (Slot.startISO slot)
        (holdEndWB service (Slot.startISO slot)).
Proof.
  intros st now service date slot Hord Hin. rewrite availability_slots in Hin.
  destruct ((getDay date =? 0) || (getDay date =? 6)); [destruct Hin|].
  apply in_map_iff in Hin as (c & <- & Hc). apply filter_In in Hc as [Hc Hfree].
  destruct (grid_member _ _ _ c Hc) as (_ & _ & _ & Hw).
  specialize (Hw (wholeSecond_opening date)). cbn [slotAt Slot.startISO].
  rewrite (wholeSecond_formatISO c Hw).
  unfold freeAt in Hfree. cbn [overlaps backend mongo] in Hfree. apply negb_true_iff in Hfree.
  rewrite <- overlapsMongo_spec; [|apply holdEndWB_ge|assumption].
  unfold holdEndWB. by rewrite Hfree.
Qed.

(** * Further properties of confirmation *)

Lemma length_deleteOne_found holdId l h :
  List.find (fun x => Nat.eqb (Hold.id x) holdId) l = Some h ->
  S (length (deleteOne holdId l)) = length l.
Proof.
  induction l as [|x r IH]; cbn; [discriminate|].
  destruct (Nat.eqb (Hold.id x) holdId); [reflexivity|].
  intros Hf. cbn. by rewrite (IH Hf).
Qed.

Lemma length_deleteMany groupId l :
  (length (deleteMany groupId l) + length (List.filter (inGroup groupId) l))%nat = length l.
Proof.
  unfold deleteMany. induction l as [|x r IH]; cbn; [reflexivity|].
  destruct (inGroup groupId x); cbn; lia.
Qed.

Lemma length_insertByStartISO h l :
  length (Prisma.insertByStartISO h l) = S (length l).
Proof.
  induction l as [|x r IH]; cbn; [reflexivity|].
  destruct (_ <=? _); cbn; [reflexivity | by rewrite IH].
Qed.

Lemma length_findOrder v l : length (findOrder (Backend := backend v) l) = length l.
Proof.
  destruct v; cbn [findOrder backend mongo prisma]; [reflexivity|].
  unfold Prisma.orderByStartISO. induction l as [|x r IH]; cbn; [reflexivity|].
  by rewrite length_insertByStartISO, IH.
Qed.

(** X12. A confirmation that [src/server.js] refuses changes nothing: the
    reply is 400 (no session id, or metadata of neither kind), 402 (no
    such session, or not paid) or 409 (the hold or the group is gone), the
    store is the one it found, and the route always replies. *)
Theorem confirm_refusal_changes_nothing :
  forall stripe st now cookie session_id,
    match confirm (B := backend MongoServer) stripe st now cookie session_id with
    | (Json _, _) => True
    | (Refused status _, st') => st' = st /\ (status = 400 \/ status = 402 \/ status = 409)
    | (NoReply, _) => False
    end.
Proof.
  intros stripe st now cookie session_id. unfold confirm.
  cbn [fallbackLookupThrows backend mongo].
  destruct (truthy session_id) as [sid|]; [|split; [reflexivity | by left]].
  destruct (stripe sid) as [session|]; [|split; [reflexivity | right; by left]].
  destruct (Session.paid session); cbn [negb]; [|split; [reflexivity | right; by left]].
  destruct (Session.metadata session) as [svc t hid | bid g |].
  - destruct (findHold st hid); [exact I | split; [reflexivity | right; by right]].
  - destruct (findOrder _); [split; [reflexivity | right; by right] | exact I].
  - split; [reflexivity | by left].
Qed.

(** X13. A confirmation that succeeds, on either server, turns holds into
    bookings one for one: the bookings already there stay in place and a
    non-empty batch is appended, stamped with the time of the request; as
    many holds disappear as bookings appear, no hold is added, and the id
    supply advances by the size of the batch. *)
Theorem confirm_success_moves_holds :
  forall v stripe st now cookie session_id,
    match confirm (B := backend v) stripe st now cookie session_id with
    | (Json _, st') =>
        exists batch,
          batch <> []
          /\ Bookings st' = Bookings st ++ batch
          /\ (length (Holds st') + length batch)%nat = length (Holds st)
          /\ incl (Holds st') (Holds st)
          /\ nextId st' = (nextId st + length batch)%nat
          /\ Forall (fun b => Booking.createdAt b = now) batch
    | _ => True
    end.
Proof.
  intros v stripe st now cookie session_id. unfold confirm.
  destruct (truthy session_id) as [sid|]; [|exact I].
  destruct (stripe sid) as [session|]; [|exact I].
  destruct (Session.paid session); cbn [negb]; [|exact I].
  destruct (Session.metadata session) as [svc t hid | bid g |]; [| |exact I].
  - destruct (findHold st hid) as [hold|] eqn:Hf; [|by destruct fallbackLookupThrows].
    eexists. split; [|split; [cbn; rewrite consumeCredit_Bookings; reflexivity|]].
    + discriminate.
    + cbn. rewrite consumeCredit_Holds, consumeCredit_nextId.
      split; [|split; [|split]].
      * rewrite Nat.add_1_r. by eapply length_deleteOne_found.
      * intros h Hh. by eapply In_deleteOne.
      * lia.
      * by repeat constructor.
  - destruct (findOrder (List.filter (inGroup g) (Holds st))) as [|h0 hs] eqn:Ho; [exact I|].
    eexists. split; [|split; [reflexivity|]].
    + discriminate.
    + cbn [Holds Bookings nextId withHolds withNextId withBookings].
      split; [|split; [|split]].
      * rewrite mapFrom_length, <- Ho, length_findOrder. apply length_deleteMany.
      * intros h Hh. unfold deleteMany in Hh. by apply filter_In in Hh as [Hh _].
      * reflexivity.
      * by apply mapFrom_Forall.
Qed.

(** X14. What a confirmation does to credit balances, on either server: no
    account appears or disappears, every balance stays as it was or drops
    by exactly one, and it drops only from a positive balance, in a
    successful confirmation of a single hold. *)
Theorem confirm_takes_at_most_one_credit :
  forall v stripe st now cookie session_id e,
    let r := confirm (B := backend v) stripe st now cookie session_id in
    match Users st !! e with
    | None => Users (snd r) !! e = None
    | Some u =>
        Users (snd r) !! e = Some u
        \/ (Users (snd r) !! e = Some (withCredits u (User.hbotCredits u - 1))
            /\ 0 < User.hbotCredits u
            /\ fst r = Json ConfirmedSingle)
    end.
Proof.
  intros v stripe st now cookie session_id e. cbv zeta.
  assert (Hsame : forall r : Reply Confirmed,
            match Users st !! e with
            | None => Users (snd (r, st)) !! e = None
            | Some u => Users (snd (r, st)) !! e = Some u
                        \/ (Users (snd (r, st)) !! e
                              = Some (withCredits u (User.hbotCredits u - 1))
                            /\ 0 < User.hbotCredits u /\ fst (r, st) = Json ConfirmedSingle)
            end) by (intros r; cbn; destruct (Users st !! e); [by left | reflexivity]).
  unfold confirm.
  destruct (truthy session_id) as [sid|]; [|apply Hsame].
  destruct (stripe sid) as [session|]; [|apply Hsame].
  destruct (Session.paid session); cbn [negb]; [|apply Hsame].
  destruct (Session.metadata session) as [svc t hid | bid g |]; [| |apply Hsame].
  - destruct (findHold st hid) as [hold|]; [|destruct fallbackLookupThrows; apply Hsame].
    cbn [fst snd Users withHolds withNextId withBookings]. unfold consumeCredit.
    destruct (bool_decide (svc = hbot)); [|apply (Hsame (Json ConfirmedSingle))].
    destruct (truthy (jsOr (Hold.email hold) (jsOr cookie None))) as [e'|];
      [|apply (Hsame (Json ConfirmedSingle))].
    destruct (Users st !! e') as [u'|] eqn:Hu'; [|apply (Hsame (Json ConfirmedSingle))].
    destruct (0 <? User.hbotCredits u') eqn:Hpos; cbn [andb];
      [|apply (Hsame (Json ConfirmedSingle))].
    destruct (bool_decide _); [|apply (Hsame (Json ConfirmedSingle))].
    cbn [Users withUsers]. destruct (decide (e' = e)) as [->|Hne].
    + rewrite Hu', lookup_insert_eq. right. apply Z.ltb_lt in Hpos. by repeat split.
    + rewrite lookup_insert_ne by assumption. destruct (Users st !! e); [by left | reflexivity].
  - destruct (findOrder _); [apply Hsame|]. cbn. destruct (Users st !! e); [by left | reflexivity].
Qed.

Lemma find_sweep_expired now holdId l :
  (forall h, In h l -> Hold.id h = holdId -> Hold.expireAt h <= now) ->
  List.find (fun h => Nat.eqb (Hold.id h) holdId)
            (List.filter (fun h => now <? Hold.expireAt h) l) = None.
Proof.
  intros Hexp. apply find_all_false. intros h Hh. apply filter_In in Hh as [Hin Hl].
  apply Nat.eqb_neq. intros Hid. apply Z.ltb_lt in Hl. specialize (Hexp h Hin Hid). lia.
Qed.

(** X15. Once the TTL monitor of the MongoDB server has run after the
    expiry of a hold, a paid confirmation for it is answered 409 with the
    hold-expired message and books nothing; likewise for a bundle group all
    of whose holds have expired. *)
Theorem swept_hold_is_reported_expired :
  forall stripe st now cookie sid session,
    sid <> "" -> stripe sid = Some session -> Session.paid session = true ->
    (forall service startISO holdId,
       Session.metadata session = MetaSingle service startISO holdId ->
       (forall h, In h (Holds st) -> Hold.id h = holdId -> Hold.expireAt h <= now) ->
       confirm (B := backend MongoServer) stripe (Mongo.ttlSweep now st) now cookie (Some sid)
       = (Refused 409 "hold expired; payment safe — please reschedule", Mongo.ttlSweep now st))
    /\ (forall bundleId groupId,
          Session.metadata session = MetaBundle bundleId groupId ->
          (forall h, In h (Holds st) -> Hold.groupId h = Some groupId -> Hold.expireAt h <= now) ->
          confirm (B := backend MongoServer) stripe (Mongo.ttlSweep now st) now cookie (Some sid)
          = (Refused 409 "bundle holds expired; payment safe — please contact us",
             Mongo.ttlSweep now st)).
Proof.
  intros stripe st now cookie sid session Hsid Hs Hpaid. split.
  - intros service startISO holdId Hm Hexp. unfold confirm.
    rewrite (truthy_nonempty sid Hsid), Hs, Hpaid, Hm. cbn [negb].
    unfold findHold, Mongo.ttlSweep. cbn [Holds withHolds].
    by rewrite (find_sweep_expired now holdId (Holds st) Hexp).
  - intros bundleId groupId Hm Hexp. unfold confirm.
    rewrite (truthy_nonempty sid Hsid), Hs, Hpaid, Hm. cbn [negb findOrder backend mongo].
    unfold Mongo.ttlSweep. cbn [Holds withHolds].
    assert (Hnil : List.filter (inGroup groupId)
                     (List.filter (fun h => now <? Hold.expireAt h) (Holds st)) = []).
    { destruct (List.filter _ _) as [|h r] eqn:E; [reflexivity|]. exfalso.
      assert (In h (h :: r)) as Hin by (by left). rewrite <- E in Hin.
      apply filter_In in Hin as [Hin Hg]. apply filter_In in Hin as [Hin Hl].
      apply bool_decide_eq_true in Hg. apply Z.ltb_lt in Hl.
      specialize (Hexp h Hin Hg). lia. }
    by rewrite Hnil.
Qed.

(** * Every reachable world *)

Lemma formatISO_idem d : formatISO (formatISO d) = formatISO d.
Proof.
  unfold formatISO, SECOND. rewrite (Z.mul_comm 1000 (d / 1000)), Z.div_mul by lia. lia.
Qed.

Section Cases.
Context {B : Backend}.

Lemma placeHoldSingle_cases st now service startISO email unitAmount :
  (exists e, placeHoldSingle st now service startISO email unitAmount = (HoldRefused e, st))
  \/ placeHoldSingle st now service startISO email unitAmount
     = (HoldOk (nextId st),
        withNextId (S (nextId st))
          (withHolds (Holds st ++ [singleDoc st now service startISO email unitAmount]) st)).
Proof.
  unfold placeHoldSingle.
  destruct (negb (withinHours _ _)); [left; by eexists|].
  destruct (negb (sameDayCutoffOK _ _)); [left; by eexists|].
  destruct (overlaps _ _ _ _ _); [left; by eexists|]. by right.
Qed.

Lemma placeHoldBundle_cases st now bundleId selections email amount :
  (exists r, placeHoldBundle st now bundleId selections email amount = (r, st)
             /\ forall g, r <> HoldOk g)
  \/ (placeHoldBundle st now bundleId selections email amount
      = (HoldOk (nextId st), withNextId (S (nextId st)) st) /\ selections = [])
  \/ (selections <> []
      /\ placeHoldBundle st now bundleId selections email amount
         = (HoldOk (nextId st),
            withNextId (S (nextId st) + length selections)%nat
              (withHolds (Holds st ++ mapFrom (bundleDoc now (nextId st) bundleId email amount)
                                              (S (nextId st)) selections) st))).
Proof.
  unfold placeHoldBundle.
  destruct (validateSelections st now selections); [left; eexists; by split|].
  destruct selections as [|s r]; cbn [mapFrom].
  - destruct insertManyTakesEmpty; [right; left; by split | left; eexists; by split].
  - right. right. split; [discriminate|]. cbn [length]. by rewrite mapFrom_length.
Qed.

End Cases.

Lemma holdShaped_later now now' h : now <= now' -> holdShaped now h -> holdShaped now' h.
Proof. unfold holdShaped. intros Hle (? & ? & ? & ? & ?). repeat split; try assumption. lia. Qed.

Lemma singleDoc_shaped st now service startISO email unitAmount :
  holdShaped now (singleDoc st now service startISO email unitAmount).
Proof.
  unfold holdShaped, singleDoc. cbn. rewrite !formatISO_addMinutes, formatISO_idem.
  repeat split. lia.
Qed.

Lemma bundleDoc_shaped now groupId bundleId email amount ident sel :
  holdShaped now (bundleDoc now groupId bundleId email amount ident sel).
Proof.
  unfold holdShaped, bundleDoc. cbn. rewrite !formatISO_addMinutes, formatISO_idem.
  repeat split. lia.
Qed.

Lemma Wf_same w w' :
  Wf w -> db w' = db w -> clock w' = clock w -> sessions w' = sessions w -> Wf w'.
Proof. destruct w, w'; cbn; intros I -> -> ->. exact I. Qed.

Lemma bookingShaped_weaken w w' b :
  clock w <= clock w' ->
  (forall s, In s (sessions w) ->
     exists s', In s' (sessions w') /\ Session.id s' = Session.id s
                /\ (Session.paid s = true -> Session.paid s' = true)) ->
  bookingShaped w b -> bookingShaped w' b.
Proof.
  intros Hc Hs (He & Hcr & s & Hin & Hid & Hp). split; [assumption|]. split; [lia|].
  destruct (Hs s Hin) as (s' & Hin' & Hid' & Hp'). exists s'.
  split; [assumption|]. split; [congruence | auto].
Qed.

Lemma Wf_empty t0 : Wf (emptyWorld t0).
Proof.
  constructor; cbn; try (intros; contradiction).
  - intros h [].
  - apply NoDup_nil_2.
  - intros e u H. by rewrite lookup_empty in H.
Qed.

Lemma Wf_wait v w ms : Wf w -> Wf (step v w (Wait ms)).
Proof.
  intros I. destruct I. constructor; cbn; eauto.
  - intros h Hh. apply (holdShaped_later (clock w)); [lia | auto].
  - intros b Hb. apply (bookingShaped_weaken w); cbn; [lia | | auto].
    intros s Hs. exists s. auto.
Qed.

Lemma Wf_pay v w sid : Wf w -> Wf (step v w (Pay sid)).
Proof.
  intros I. destruct I. constructor; cbn; eauto.
  - intros b Hb. apply (bookingShaped_weaken w); cbn; [lia | | auto].
    intros s Hs. exists (markPaid sid s). split; [by apply in_map|].
    unfold markPaid. destruct (String.eqb _ _); cbn; auto.
  - intros s service startISO holdId Hin Hm. apply in_map_iff in Hin as (s0 & <- & Hin).
    apply (wf_session0 s0); [assumption|].
    unfold markPaid in Hm. by destruct (String.eqb _ _).
Qed.

Lemma Wf_sweep v w : Wf w -> Wf (step v w TtlSweep).
Proof.
  intros I. destruct v; [|exact I]. destruct I.
  assert (Hsub : forall h, In h (List.filter (fun h => clock w <? Hold.expireAt h) (Holds (db w)))
                           -> In h (Holds (db w)))
    by (intros h Hh; by apply filter_In in Hh as [Hh _]).
  constructor; cbn; eauto.
  - intros h Hh. apply wf_ids0. auto.
  - by apply NoDup_filter_ids.
  - intros s service startISO holdId Hin Hm.
    destruct (wf_session0 s service startISO holdId Hin Hm) as [Hlt Hh]. split; eauto.
Qed.

(** A checkout that appends holds with fresh identifiers and opens a
    session about them. *)
Lemma Wf_append w docs meta n :
  Wf w ->
  (forall d, In d docs -> holdShaped (clock w) d /\ (nextId (db w) <= Hold.id d < n)%nat) ->
  NoDup (map Hold.id docs) ->
  (nextId (db w) <= n)%nat ->
  (forall service startISO holdId, meta = MetaSingle service startISO holdId ->
     (holdId < n)%nat
     /\ forall d, In d docs -> Hold.id d = holdId ->
          Hold.service d = service /\ Hold.startISO d = formatISO startISO) ->
  (forall service startISO holdId, meta = MetaSingle service startISO holdId ->
     (nextId (db w) <= holdId)%nat) ->
  Wf {| db := withNextId n (withHolds (Holds (db w) ++ docs) (db w));
        clock := clock w;
        sessions := sessions w ++
          [ {| Session.id := "cs_" +:+ pretty (length (sessions w));
               Session.paid := false; Session.metadata := meta |} ] |}.
Proof.
  intros I Hdocs Hnd Hn Hmeta Hfresh. destruct I. constructor; cbn.
  - intros h Hh. cbn in Hh. apply in_app_iff in Hh as [Hh|Hh].
    + specialize (wf_ids0 h Hh). cbn. lia.
    + destruct (Hdocs h Hh) as [_ ?]. cbn. lia.
  - rewrite map_app. apply NoDup_app. split; [assumption|]. split; [|assumption].
    intros x Hx Hx'. apply list_elem_of_In in Hx, Hx'.
    apply in_map_iff in Hx as (h & <- & Hh). apply in_map_iff in Hx' as (d & Heq & Hd).
    specialize (wf_ids0 h Hh). destruct (Hdocs d Hd) as [_ ?]. lia.
  - intros h Hh. apply in_app_iff in Hh as [Hh|Hh]; [auto | by apply Hdocs].
  - intros b Hb. apply (bookingShaped_weaken w); cbn; [lia | | auto].
    intros s Hs. exists s. split; [apply in_app_iff; by left | auto].
  - assumption.
  - intros s service startISO holdId Hin Hm. apply in_app_iff in Hin as [Hin|[<-|[]]].
    + destruct (wf_session0 s service startISO holdId Hin Hm) as [Hlt Hh]. split; [lia|].
      intros h Hhin Hid. apply in_app_iff in Hhin as [Hhin|Hhin]; [auto|].
      destruct (Hdocs h Hhin) as [_ ?]. lia.
    + cbn in Hm. destruct (Hmeta _ _ _ Hm) as [Hlt Hd]. split; [assumption|].
      intros h Hhin Hid. apply in_app_iff in Hhin as [Hhin|Hhin]; [|auto].
      specialize (wf_ids0 h Hhin). specialize (Hfresh _ _ _ Hm). lia.
Qed.

Lemma Wf_checkout_single v w cookie service startISO :
  Wf w -> Wf (step v w (CheckoutSingle cookie service startISO)).
Proof.
  intros I. cbn [step]. unfold checkout_single.
  set (amt := userPriceFor service (userOfCookie (db w) cookie) * 100).
  destruct (placeHoldSingle_cases (B := backend v) (db w) (clock w) service startISO cookie amt)
    as [[e ->] | ->]; cbn [openSession]; [by apply (Wf_same w)|].
  apply (Wf_append w [singleDoc (db w) (clock w) service startISO cookie amt]); try assumption.
  - intros d [<-|[]]. split; [apply singleDoc_shaped | cbn; lia].
  - apply NoDup_singleton.
  - lia.
  - intros svc t hid [= <- <- <-]. split; [lia|]. intros d [<-|[]] _. by split.
  - intros svc t hid [= <- <- <-]. lia.
Qed.

Lemma In_mapFrom_bundleDoc now g bundleId email amount n selections d :
  In d (mapFrom (bundleDoc now g bundleId email amount) n selections) ->
  holdShaped now d /\ (n <= Hold.id d < n + length selections)%nat.
Proof.
  intros Hd. apply In_mapFrom in Hd as (k & sel & Hk & ->).
  split; [apply bundleDoc_shaped|]. cbn. apply lookup_lt_Some in Hk. lia.
Qed.

Lemma Wf_checkout_bundle v w cookie bundleId selections :
  Wf w -> Wf (step v w (CheckoutBundle cookie bundleId selections)).
Proof.
  intros I. cbn [step]. unfold checkout_bundle.
  destruct (List.find _ BUNDLES) as [bdl|]; [|by apply (Wf_same w)].
  destruct (negb _); [by apply (Wf_same w)|].
  destruct (placeHoldBundle_cases (B := backend v) (db w) (clock w) bundleId selections cookie
              (Bundle.price bdl * 100))
    as [(r & -> & Hr) | [[-> ->] | [Hne ->]]]; cbn [openSession].
  - destruct r as [g| |]; [by destruct (Hr g) | by apply (Wf_same w) | by apply (Wf_same w)].
  - replace (withNextId (S (nextId (db w))) (db w))
      with (withNextId (S (nextId (db w))) (withHolds (Holds (db w) ++ []) (db w)))
      by (rewrite app_nil_r; by destruct (db w)).
    apply (Wf_append w []); try assumption; try (intros; contradiction); try discriminate.
    + apply NoDup_nil_2.
    + lia.
  - apply (Wf_append w); try assumption; try discriminate.
    + intros d Hd. apply In_mapFrom_bundleDoc in Hd as [Hs Hid]. split; [assumption | lia].
    + rewrite mapFrom_ids by reflexivity. apply NoDup_seq.
    + lia.
Qed.

Lemma consumeCredit_users st service email hold e u :
  Users (consumeCredit st service email hold) !! e = Some u ->
  Users st !! e = Some u
  \/ exists u0, Users st !! e = Some u0 /\ 0 < User.hbotCredits u0
                /\ u = withCredits u0 (User.hbotCredits u0 - 1).
Proof.
  unfold consumeCredit.
  destruct (bool_decide (service = hbot)); [|by left].
  destruct (truthy email) as [e'|]; [|by left].
  destruct (Users st !! e') as [u'|] eqn:Hu'; [|by left].
  destruct (0 <? User.hbotCredits u') eqn:Hpos; cbn [andb]; [|by left].
  destruct (bool_decide _); [|by left].
  cbn [Users withUsers]. destruct (decide (e' = e)) as [->|Hne].
  - rewrite lookup_insert_eq. intros [= <-]. right. exists u'. apply Z.ltb_lt in Hpos.
    by repeat split.
  - rewrite lookup_insert_ne by assumption. by left.
Qed.

Lemma Wf_confirm v w cookie sid : Wf w -> Wf (step v w (Confirm cookie sid)).
Proof.
  intros I. cbn [step]. unfold confirm.
  destruct (truthy (Some sid)) as [sid'|]; [|by apply (Wf_same w)].
  destruct (retrieve (sessions w) sid') as [session|] eqn:Hr; [|by apply (Wf_same w)].
  apply find_some in Hr as [Hsin _].
  destruct (Session.paid session) eqn:Hpaid; cbn [negb]; [|by apply (Wf_same w)].
  assert (Hbk : forall b, Booking.createdAt b = clock w ->
                  Booking.paidSessionId b = Session.id session ->
                  Booking.endISO b = addMinutes (Booking.startISO b)
                                       (Service.duration (SERVICES (Booking.service b))) ->
                  forall w', clock w' = clock w -> sessions w' = sessions w ->
                  bookingShaped w' b).
  { intros b Hc Hp He w' Hcw Hsw. split; [assumption|]. split; [lia|].
    exists session. rewrite Hsw. by repeat split. }
  assert (Hold_bk : forall b w', clock w' = clock w -> sessions w' = sessions w ->
                      bookingShaped w b -> bookingShaped w' b).
  { intros b w' Hcw Hsw. apply bookingShaped_weaken; [lia|]. rewrite Hsw.
    intros s Hs. exists s. auto. }
  destruct (Session.metadata session) as [svc t hid | bid g |] eqn:Hm;
    [| |by apply (Wf_same w)].
  - destruct (findHold (db w) hid) as [hold|] eqn:Hf;
      [|destruct fallbackLookupThrows; by apply (Wf_same w)].
    destruct I. constructor; cbn;
      rewrite ?consumeCredit_Holds, ?consumeCredit_Bookings, ?consumeCredit_nextId.
    + intros h Hh. apply In_deleteOne in Hh.
      specialize (wf_ids0 h Hh). cbn. rewrite ?consumeCredit_nextId. lia.
    + by apply NoDup_deleteOne.
    + intros h Hh. apply In_deleteOne in Hh. auto.
    + intros b Hb. apply in_app_iff in Hb as [Hb|[<-|[]]].
      * apply (Hold_bk b); [reflexivity | reflexivity | auto].
      * apply Hbk; try reflexivity. cbn. apply formatISO_addMinutes.
    + intros e u Hu. apply consumeCredit_users in Hu as [Hu | (u0 & Hu0 & Hpos & ->)]; [auto|].
      destruct (wf_users0 e u0 Hu0) as [He _]. cbn. split; [assumption | lia].
    + intros s service startISO holdId Hin Hms.
      destruct (wf_session0 s service startISO holdId Hin Hms) as [Hlt Hh]. split; [lia|].
      intros h Hhin. apply In_deleteOne in Hhin. auto.
  - destruct (findOrder (List.filter (inGroup g) (Holds (db w)))) as [|h0 hs] eqn:Ho;
      [by apply (Wf_same w)|].
    destruct I. constructor; cbn.
    + intros h Hh. apply filter_In in Hh as [Hh _].
      specialize (wf_ids0 h Hh). cbn. lia.
    + by apply NoDup_filter_ids.
    + intros h Hh. apply filter_In in Hh as [Hh _]. auto.
    + intros b Hb. apply in_app_iff in Hb as [Hb|Hb].
      * apply (Hold_bk b); [reflexivity | reflexivity | auto].
      * assert (Hb' : exists k h, b = bookingOfHold (clock w) g
                          (jsOr (jsOr (Hold.email h0) (jsOr cookie None)) None)
                          (Session.id session) k h).
        { destruct Hb as [<-|Hb]; [by eexists _, _|].
          apply In_mapFrom in Hb as (k & h & _ & ->). by eexists _, _. }
        destruct Hb' as (k & h & ->).
        apply Hbk; try reflexivity. cbn. apply formatISO_addMinutes.
    + assumption.
    + intros s service startISO holdId Hin Hms.
      destruct (wf_session0 s service startISO holdId Hin Hms) as [Hlt Hh]. split; [lia|].
      intros h Hhin. apply filter_In in Hhin as [Hhin _]. auto.
Qed.

Lemma Wf_step v w e : Wf w -> Wf (step v w e).
Proof.
  intros I. destruct e.
  - by apply Wf_wait.
  - by apply Wf_checkout_single.
  - by apply Wf_checkout_bundle.
  - by apply Wf_pay.
  - by apply Wf_confirm.
  - by apply Wf_sweep.
Qed.

Lemma Wf_users_only w us :
  Wf w ->
  (forall e u, us !! e = Some u -> User.email u = e /\ 0 <= User.hbotCredits u) ->
  Wf {| db := withUsers us (db w); clock := clock w; sessions := sessions w |}.
Proof. intros I Hus. destruct I. constructor; cbn; auto. Qed.

Lemma Wf_login w email name :
  Wf w -> Wf {| db := snd (login (db w) email name); clock := clock w; sessions := sessions w |}.
Proof.
  intros I. pose proof (wf_users w I) as Hus. unfold login.
  destruct (truthy email) as [e|]; [|by apply (Wf_same w)].
  destruct (Users (db w) !! e) as [u|] eqn:Hu.
  - destruct (truthy name) as [n|]; [|by apply (Wf_same w)].
    destruct (String.eqb (User.name u) ""); [|by apply (Wf_same w)].
    apply Wf_users_only; [assumption|]. intros e' u' Hl.
    destruct (decide (e = e')) as [<-|Hne].
    + rewrite lookup_insert_eq in Hl. injection Hl as <-. cbn. by apply Hus.
    + rewrite lookup_insert_ne in Hl by assumption. by apply Hus.
  - apply Wf_users_only; [assumption|]. intros e' u' Hl.
    destruct (decide (e = e')) as [<-|Hne].
    + rewrite lookup_insert_eq in Hl. injection Hl as <-. cbn. split; [reflexivity | lia].
    + rewrite lookup_insert_ne in Hl by assumption. by apply Hus.
Qed.

Lemma Wf_grant w email :
  Wf w ->
  Wf {| db := snd (grant_hbot_pack (db w) email); clock := clock w; sessions := sessions w |}.
Proof.
  intros I. pose proof (wf_users w I) as Hus. unfold grant_hbot_pack.
  destruct (truthy email) as [e|]; [|by apply (Wf_same w)].
  destruct (Users (db w) !! e) as [u|] eqn:Hu; [|by apply (Wf_same w)].
  apply Wf_users_only; [assumption|]. intros e' u' Hl.
  destruct (decide (e = e')) as [<-|Hne].
  - rewrite lookup_insert_eq in Hl. injection Hl as <-. cbn.
    destruct (Hus e u Hu). split; [assumption | lia].
  - rewrite lookup_insert_ne in Hl by assumption. by apply Hus.
Qed.

Lemma Wf_serveAll v requests : forall w, Wf w -> Wf (serveAll v w requests).
Proof.
  induction requests as [|r rest IH]; intros w I; [exact I|].
  apply IH. destruct r; cbn [serve];
    [by apply Wf_step | by apply Wf_login | by apply Wf_grant].
Qed.

Lemma Wf_run v events : forall w, Wf w -> Wf (run v w events).
Proof.
  induction events as [|e rest IH]; intros w I; [exact I|].
  apply IH. by apply Wf_step.
Qed.

Lemma Wf_ordered w : Wf w -> orderedStore (db w).
Proof.
  intros I. split.
  - intros b Hb. destruct (wf_booking w I b Hb) as [He _]. rewrite He.
    pose proof (duration_nonneg (Booking.service b)). unfold addMinutes, MINUTE. lia.
  - intros h Hh. destruct (wf_hold w I h Hh) as (He & Hwb & _). rewrite Hwb, He.
    pose proof (duration_nonneg (Hold.service h)). pose proof (buffer_nonneg (Hold.service h)).
    unfold addMinutes, MINUTE. lia.
Qed.

(** X16. In every world either server reaches from the empty store, by any
    sequence of logins, credit grants, checkouts, payments, confirmations,
    sweeps and waits: hold identifiers are pairwise distinct and below the
    id supply; every interval in the store runs forward; every hold ends
    one service duration after its start, is buffered one buffer further,
    and expires [HOLD_TTL_MIN] minutes after a creation time that is not in
    the future; and a session about a single hold names the service and
    the stored start of that hold. *)
Theorem reachable_holds_well_formed :
  forall v t0 requests,
    let w := serveAll v (emptyWorld t0) requests in
    NoDup (map Hold.id (Holds (db w)))
    /\ idsBelowSupply (db w)
    /\ orderedStore (db w)
    /\ Forall (fun h => holdShaped (clock w) h
                        /\ Hold.expireAt h <= addMinutes (clock w) HOLD_TTL_MIN)
              (Holds (db w))
    /\ Forall (fun s =>
                 match Session.metadata s with
                 | MetaSingle service startISO holdId =>
                     Forall (fun h => Hold.id h = holdId ->
                                      Hold.service h = service
                                      /\ Hold.startISO h = formatISO startISO)
                            (Holds (db w))
                 | _ => True
                 end) (sessions w).
Proof.
  intros v t0 requests w. pose proof (Wf_serveAll v requests _ (Wf_empty t0)) as I.
  fold w in I. pose proof (Wf_ordered w I) as Ho. destruct I.
  repeat (split; [assumption|]). split.
  - apply List.Forall_forall. intros h Hh. pose proof (wf_hold0 h Hh) as Hs.
    split; [assumption|]. destruct Hs as (_ & _ & -> & Hc & _). unfold addMinutes. lia.
  - apply List.Forall_forall. intros s Hs.
    destruct (Session.metadata s) as [service startISO holdId| |] eqn:Hm; [|exact I|exact I].
    apply List.Forall_forall. intros h Hh Hid.
    destruct (wf_session0 s service startISO holdId Hs Hm) as [_ Hlink]. by apply Hlink.
Qed.

(** X17. No booking without payment: in every world either server reaches
    from the empty store, every booking carries the id of a checkout
    session that is marked paid, was created no later than the present,
    and ends one service duration after its start. *)
Theorem reachable_bookings_paid :
  forall v t0 requests,
    let w := serveAll v (emptyWorld t0) requests in
    Forall (fun b =>
              (exists s, In s (sessions w) /\ Session.id s = Booking.paidSessionId b
                         /\ Session.paid s = true)
              /\ Booking.createdAt b <= clock w
              /\ Booking.endISO b
                 = addMinutes (Booking.startISO b)
                     (Service.duration (SERVICES (Booking.service b))))
           (Bookings (db w)).
Proof.
  intros v t0 requests w. pose proof (Wf_serveAll v requests _ (Wf_empty t0)) as I.
  fold w in I. apply List.Forall_forall. intros b Hb.
  destruct (wf_booking w I b Hb) as (He & Hc & Hs). by repeat split.
Qed.

(** X18. In every world either server reaches from the empty store by
    requests served one at a time, each to its reply before the next, every
    account is filed under its own email and no credit balance is
    negative. *)
Theorem reachable_credits_nonnegative :
  forall v t0 requests,
    map_Forall (fun e u => User.email u = e /\ 0 <= User.hbotCredits u)
               (Users (db (serveAll v (emptyWorld t0) requests))).
Proof.
  intros v t0 requests e u Hu.
  by apply (wf_users _ (Wf_serveAll v requests _ (Wf_empty t0))).
Qed.

(** * Accounts, listings and the admin guard *)

Lemma truthy_Some email e : truthy email = Some e -> email = Some e /\ e <> "".
Proof.
  destruct email as [s|]; [|discriminate]. destruct s; [discriminate|].
  intros [= <-]. split; [reflexivity | discriminate].
Qed.

Lemma truthy_fix email e : truthy email = Some e -> truthy (Some e) = Some e.
Proof. intros H. apply truthy_Some in H as [_ Hne]. by destruct e. Qed.

Lemma insertAsc_perm {A : Type} (key : A -> Z) x l : Permutation (insertAsc key x l) (x :: l).
Proof.
  induction l as [|y r IH]; cbn; [reflexivity|].
  destruct (key x <=? key y); [reflexivity|].
  rewrite IH. apply perm_swap.
Qed.

Lemma sortAsc_perm {A : Type} (key : A -> Z) l : Permutation (sortAsc key l) l.
Proof.
  induction l as [|x r IH]; cbn; [reflexivity|].
  fold (sortAsc key r). rewrite insertAsc_perm. by constructor.
Qed.

Lemma insertAsc_sorted {A : Type} (key : A -> Z) x l :
  StronglySorted (fun a b => key a <= key b) l ->
  StronglySorted (fun a b => key a <= key b) (insertAsc key x l).
Proof.
  induction l as [|y r IH]; cbn; intros Hs.
  - constructor; [constructor | constructor].
  - destruct (key x <=? key y) eqn:E.
    + apply Z.leb_le in E. constructor; [exact Hs|].
      apply StronglySorted_inv in Hs as [_ Hy]. constructor; [assumption|].
      rewrite List.Forall_forall in Hy. apply List.Forall_forall. intros z Hz.
      specialize (Hy z Hz). cbn in Hy. lia.
    + apply Z.leb_gt in E. apply StronglySorted_inv in Hs as [Hr Hy].
      constructor; [by apply IH|].
      apply List.Forall_forall. intros z Hz.
      apply (Permutation_in _ (insertAsc_perm key x r)) in Hz as [<-|Hz]; [lia|].
      rewrite List.Forall_forall in Hy. by apply Hy.
Qed.

Lemma sortAsc_sorted {A : Type} (key : A -> Z) l :
  StronglySorted (fun a b => key a <= key b) (sortAsc key l).
Proof.
  induction l as [|x r IH]; cbn; [constructor|]. by apply insertAsc_sorted.
Qed.

Lemma sorted_take_drop {A : Type} (R : A -> A -> Prop) n : forall l,
  StronglySorted R l ->
  StronglySorted R (take n l)
  /\ forall a b, In a (take n l) -> In b (drop n l) -> R a b.
Proof.
  induction n as [|n IH]; intros l Hs.
  - cbn. split; [constructor | intros a b []].
  - destruct l as [|x r]; cbn; [split; [constructor | intros a b []]|].
    apply StronglySorted_inv in Hs as [Hr Hx]. destruct (IH r Hr) as [Ht Hc]. split.
    + constructor; [assumption|]. apply List.Forall_forall. intros z Hz.
      rewrite List.Forall_forall in Hx. apply Hx.
      apply list_elem_of_In, (subseteq_take n r), list_elem_of_In, Hz.
    + intros a b [<-|Ha] Hb; [|by apply Hc].
      rewrite List.Forall_forall in Hx. apply Hx.
      apply list_elem_of_In, (subseteq_drop n r), list_elem_of_In, Hb.
Qed.

(** The first [n] of a list sorted by a key: what a sorted and limited
    query returns. *)
Lemma take_sortAsc {A : Type} (key : A -> Z) n l :
  let page := take n (sortAsc key l) in
  length page = Nat.min n (length l)
  /\ StronglySorted (fun a b => key a <= key b) page
  /\ exists rest, Permutation (page ++ rest) l
                  /\ forall a b, In a page -> In b rest -> key a <= key b.
Proof.
  intros page. destruct (sorted_take_drop _ n _ (sortAsc_sorted key l)) as [Hs Hc].
  split; [|split].
  - unfold page. rewrite length_take. by rewrite (Permutation_length (sortAsc_perm key l)).
  - exact Hs.
  - exists (drop n (sortAsc key l)). split; [|exact Hc].
    unfold page. rewrite take_drop. apply sortAsc_perm.
Qed.

(** X19. The login route, on either server.  Without an email it answers
    400 and changes nothing.  With one it always succeeds: the user it
    replies with is the one [/api/me] returns for the cookie it sets; a new
    account starts with no credits and an existing one keeps its balance;
    no other account, hold or booking is touched; and repeating the same
    login changes nothing further. *)
Theorem login_outcome :
  forall st email name,
    match truthy email with
    | None => login st email name = (Refused 400 "email required", st)
    | Some e =>
        let st' := snd (login st email name) in
        exists u,
          fst (login st email name) = Json u
          /\ me st' (Some e) = Some u
          /\ User.hbotCredits u
             = match Users st !! e with Some u0 => User.hbotCredits u0 | None => 0 end
          /\ (forall e', e' <> e -> Users st' !! e' = Users st !! e')
          /\ Holds st' = Holds st /\ Bookings st' = Bookings st /\ nextId st' = nextId st
          /\ login st' email name = (Json u, st')
    end.
Proof.
  intros st email name. destruct (truthy email) as [e|] eqn:He.
  2:{ unfold login. by rewrite He. }
  pose proof (truthy_fix _ _ He) as He'.
  unfold me, userOfCookie. rewrite He'.
  assert (Hagain : forall n, truthy name = Some n -> String.eqb n "" = false).
  { intros n Hn. apply truthy_Some in Hn as [_ Hne]. by apply String.eqb_neq. }
  destruct (Users st !! e) as [u|] eqn:Hu.
  - destruct (truthy name) as [n|] eqn:Hn.
    + destruct (String.eqb (User.name u) "") eqn:Hnm.
      * assert (Hl : login st email name
                     = (Json {| User.email := User.email u; User.name := n;
                                User.hbotCredits := User.hbotCredits u |},
                        withUsers (<[e := {| User.email := User.email u; User.name := n;
                                             User.hbotCredits := User.hbotCredits u |}]>
                                     (Users st)) st)).
        { unfold login. by rewrite He, Hu, Hn, Hnm. }
        rewrite Hl. cbn [fst snd]. eexists. split; [reflexivity|].
        cbn [Users withUsers Holds Bookings nextId]. rewrite lookup_insert_eq.
        split; [reflexivity|]. split; [reflexivity|].
        split; [intros e' Hne; by rewrite lookup_insert_ne|].
        do 3 (split; [reflexivity|]).
        unfold login. rewrite He. cbn [Users withUsers]. rewrite lookup_insert_eq, Hn.
        cbn [User.name]. by rewrite (Hagain n eq_refl).
      * assert (Hl : login st email name = (Json u, st)).
        { unfold login. by rewrite He, Hu, Hn, Hnm. }
        rewrite !Hl. cbn [fst snd]. exists u. rewrite Hu. by repeat split.
    + assert (Hl : login st email name = (Json u, st)).
      { unfold login. by rewrite He, Hu, Hn. }
      rewrite !Hl. cbn [fst snd]. exists u. rewrite Hu. by repeat split.
  - set (u := {| User.email := e;
                 User.name := match truthy name with Some n => n | None => "" end;
                 User.hbotCredits := 0 |}).
    assert (Hl : login st email name = (Json u, withUsers (<[e := u]> (Users st)) st)).
    { unfold login. by rewrite He, Hu. }
    rewrite Hl. cbn [fst snd]. exists u. split; [reflexivity|].
    cbn [Users withUsers Holds Bookings nextId]. rewrite lookup_insert_eq.
    split; [reflexivity|]. split; [reflexivity|].
    split; [intros e' Hne; by rewrite lookup_insert_ne|].
    do 3 (split; [reflexivity|]).
    unfold login. rewrite He. cbn [Users withUsers]. rewrite lookup_insert_eq.
    destruct (truthy name) as [n|] eqn:Hn; [|reflexivity].
    subst u. cbn [User.name]. by rewrite (Hagain n eq_refl).
Qed.

(** X20. Granting a pack of credits, in any world either server reaches
    from the empty store.  For a missing email (400) or one without an
    account (404) nothing changes.  Otherwise the balance of that account
    rises by exactly 10, no other account, hold or booking is touched, and
    the quote for mHBOT with that cookie is then the member price of 60. *)
Theorem grant_hbot_pack_outcome :
  forall v t0 requests email,
    let st := db (serveAll v (emptyWorld t0) requests) in
    let r := grant_hbot_pack st email in
    match me st email with
    | None =>
        snd r = st
        /\ exists status error, fst r = Refused status error /\ (status = 400 \/ status = 404)
    | Some u =>
        fst r = Json (withCredits u (User.hbotCredits u + 10))
        /\ me (snd r) email = Some (withCredits u (User.hbotCredits u + 10))
        /\ (forall e', Some e' <> email -> Users (snd r) !! e' = Users st !! e')
        /\ Holds (snd r) = Holds st /\ Bookings (snd r) = Bookings st
        /\ nextId (snd r) = nextId st
        /\ quote (snd r) email (Some hbot) = Json 60
    end.
Proof.
  intros v t0 requests email st r.
  pose proof (wf_users _ (Wf_serveAll v requests _ (Wf_empty t0))) as Hus. fold st in Hus.
  subst r. unfold me, quote, userOfCookie, grant_hbot_pack.
  destruct (truthy email) as [e|] eqn:He.
  2:{ split; [reflexivity|]. eexists _, _. split; [reflexivity | by left]. }
  destruct (Users st !! e) as [u|] eqn:Hu.
  2:{ split; [reflexivity|]. eexists _, _. split; [reflexivity | by right]. }
  destruct (Hus e u Hu) as [_ Hc]. cbn. rewrite lookup_insert_eq.
  split; [reflexivity|]. split; [reflexivity|].
  split.
  { intros e' Hne. rewrite lookup_insert_ne; [reflexivity|].
    apply truthy_Some in He as [-> _]. congruence. }
  do 3 (split; [reflexivity|]). cbn.
  destruct (0 <? User.hbotCredits u + 10) eqn:E; [reflexivity|].
  apply Z.ltb_ge in E. lia.
Qed.

(** X21. The customer's list of bookings, on either server: 401 without a
    cookie; otherwise the reply holds the bookings of the store made under
    that email and no others, latest start first, cut to the 200 latest;
    what is cut off starts no later than anything listed. *)
Theorem my_bookings_lists_own :
  forall st cookie,
    match truthy cookie with
    | None => my_bookings st cookie = Refused 401 "not logged in"
    | Some e =>
        let own := List.filter (fun b => bool_decide (Booking.clientEmail b = Some e))
                               (Bookings st) in
        exists page,
          my_bookings st cookie = Json page
          /\ length page = Nat.min 200 (length own)
          /\ StronglySorted (fun a b => Booking.startISO b <= Booking.startISO a) page
          /\ Forall (fun b => In b (Bookings st) /\ Booking.clientEmail b = Some e) page
          /\ exists rest,
               Permutation (page ++ rest) own
               /\ forall a b, In a page -> In b rest -> Booking.startISO b <= Booking.startISO a
    end.
Proof.
  intros st cookie. unfold my_bookings. destruct (truthy cookie) as [e|]; [|reflexivity].
  cbv zeta. set (own := List.filter _ (Bookings st)). unfold sortDesc.
  destruct (take_sortAsc (fun b => - Booking.startISO b) 200 own) as (Hlen & Hs & rest & Hp & Hc).
  eexists. split; [reflexivity|]. split; [exact Hlen|]. split; [|split].
  - clear -Hs. induction Hs as [|a l Hl IH Ha]; constructor; [exact IH|].
    rewrite List.Forall_forall in Ha. apply List.Forall_forall. intros z Hz.
    specialize (Ha z Hz). cbn in Ha. lia.
  - apply List.Forall_forall. intros b Hb.
    assert (Hin : In b own).
    { apply (Permutation_in _ Hp). apply in_app_iff. by left. }
    apply filter_In in Hin as [Hin Hd]. apply bool_decide_eq_true in Hd. by split.
  - exists rest. split; [exact Hp|]. intros a b Ha Hb. specialize (Hc a b Ha Hb). cbn in Hc. lia.
Qed.

(** X22. The admin guard, on either server.  A request passes exactly when
    [ADMIN_TOKEN] is set and equals the query token, or the header token
    when the query carries none; so with [ADMIN_TOKEN] unset no request
    passes, and a wrong query token is not rescued by a right header.  A
    request that does not pass gets 401 from each admin route. *)
Theorem requireAdmin_default_deny :
  forall ADMIN_TOKEN queryToken headerToken st now,
    (requireAdmin ADMIN_TOKEN queryToken headerToken = true
       <-> ADMIN_TOKEN <> "" /\ jsOr queryToken headerToken = Some ADMIN_TOKEN)
    /\ requireAdmin "" queryToken headerToken = false
    /\ (forall q, q <> "" -> q <> ADMIN_TOKEN ->
          requireAdmin ADMIN_TOKEN (Some q) headerToken = false)
    /\ (requireAdmin ADMIN_TOKEN queryToken headerToken = false ->
          admin_overview ADMIN_TOKEN queryToken headerToken st now = Refused 401 "Unauthorized"
          /\ admin_bookings ADMIN_TOKEN queryToken headerToken st = Refused 401 "Unauthorized"
          /\ admin_holds ADMIN_TOKEN queryToken headerToken st now = Refused 401 "Unauthorized").
Proof.
  intros T q h st now. split; [|split; [|split]].
  - unfold requireAdmin. rewrite negb_true_iff, orb_false_iff, negb_false_iff,
      bool_decide_eq_true. split.
    + intros [Hne Heq]. split; [|assumption]. apply String.eqb_neq in Hne. exact Hne.
    + intros [Hne Heq]. split; [|assumption]. by apply String.eqb_neq.
  - reflexivity.
  - intros q' Hq Hne. unfold requireAdmin, jsOr. destruct q'; [congruence|]. cbn [truthy].
    rewrite bool_decide_eq_false_2 by congruence. by rewrite orb_true_r.
  - intros Hno. unfold admin_overview, admin_bookings, admin_holds. by rewrite Hno.
Qed.

(** X23. What the admin sees of the holds, on either server: only holds
    that have not expired, soonest expiry first, at most 500; the overview
    counts exactly those.  Whether the TTL monitor has already removed the
    expired ones makes no difference to either reply. *)
Theorem admin_holds_only_live :
  forall ADMIN_TOKEN queryToken headerToken st t now,
    t <= now ->
    admin_holds ADMIN_TOKEN queryToken headerToken (Mongo.ttlSweep t st) now
      = admin_holds ADMIN_TOKEN queryToken headerToken st now
    /\ admin_overview ADMIN_TOKEN queryToken headerToken (Mongo.ttlSweep t st) now
       = admin_overview ADMIN_TOKEN queryToken headerToken st now
    /\ match admin_holds ADMIN_TOKEN queryToken headerToken st now,
             admin_overview ADMIN_TOKEN queryToken headerToken st now with
       | Json page, Json o =>
           Forall (fun h => In h (Holds st) /\ live now h) page
           /\ StronglySorted (fun a b => Hold.expireAt a <= Hold.expireAt b) page
           /\ length page = Nat.min 500 (Overview.activeHolds o)
           /\ Overview.bookings o = length (Bookings st)
       | Refused a _, Refused b _ => a = 401 /\ b = 401
       | _, _ => False
       end.
Proof.
  intros T q h st t now Hle.
  assert (Hf : List.filter (fun h => now <? Hold.expireAt h) (Holds (Mongo.ttlSweep t st))
               = List.filter (fun h => now <? Hold.expireAt h) (Holds st)).
  { pose proof (filter_live_earlier (fun _ => true) t now (Holds st) Hle) as H.
    cbn in H. exact H. }
  unfold admin_holds, admin_overview. rewrite Hf.
  split; [reflexivity|]. split; [reflexivity|].
  destruct (requireAdmin T q h); [|by split].
  set (alive := List.filter _ (Holds st)).
  destruct (take_sortAsc Hold.expireAt 500 alive) as (Hlen & Hs & rest & Hp & _).
  split; [|split; [exact Hs | split; [exact Hlen | reflexivity]]].
  apply List.Forall_forall. intros x Hx.
  assert (Hin : In x alive). { apply (Permutation_in _ Hp). apply in_app_iff. by left. }
  apply filter_In in Hin as [Hin Hl]. apply Z.ltb_lt in Hl. by split.
Qed.

(** X24. The admin's list of bookings, on either server, for a request
    that passes the guard: the bookings of the store, earliest start first,
    cut to the first 500. *)
Theorem admin_bookings_sorted :
  forall ADMIN_TOKEN queryToken headerToken st,
    requireAdmin ADMIN_TOKEN queryToken headerToken = true ->
    exists page,
      admin_bookings ADMIN_TOKEN queryToken headerToken st = Json page
      /\ length page = Nat.min 500 (length (Bookings st))
      /\ StronglySorted (fun a b => Booking.startISO a <= Booking.startISO b) page
      /\ exists rest,
           Permutation (page ++ rest) (Bookings st)
           /\ forall a b, In a page -> In b rest -> Booking.startISO a <= Booking.startISO b.
Proof.
  intros T q h st Hok. unfold admin_bookings. rewrite Hok.
  destruct (take_sortAsc Booking.startISO 500 (Bookings st)) as (Hlen & Hs & rest & Hp & Hc).
  eexists. split; [reflexivity|]. split; [exact Hlen|]. split; [exact Hs|].
  exists rest. by split.
Qed.

(** * Checkout *)

Lemma jsOr_None a : jsOr a None = truthy a.
Proof. unfold jsOr. by destruct (truthy a). Qed.

Lemma find_bundle bundleId bundle :
  List.find (fun b => String.eqb (Bundle.id b) bundleId) BUNDLES = Some bundle ->
  In bundle BUNDLES /\ Bundle.id bundle = bundleId
  /\ (2 <= length (Bundle.services bundle))%nat.
Proof.
  intros Hf. apply find_some in Hf as [Hin Hid]. apply String.eqb_eq in Hid.
  split; [assumption|]. split; [assumption|].
  clear Hid. unfold BUNDLES in Hin. cbn [In] in Hin.
  repeat (destruct Hin as [<-|Hin]; [cbn; lia|]). destruct Hin.
Qed.

(** X25. A single checkout for a service of the catalogue, on
    [src/server.js], always replies.  A refusal
    is a 409 and leaves the store as it was.  On success the amount charged
    is one hundred times what [/api/quote] answers for the same cookie and
    service at that moment; exactly one hold is added, for that amount and
    under the email of the cookie, and the session metadata names it.  In
    no case is an account or a booking touched: a credit is not set aside
    by a checkout. *)
Theorem checkout_single_charges_quote :
  forall st now cookie service startISO,
    let r := checkout_single (B := backend MongoServer) st now cookie (Some service) (Some startISO) in
    Users (snd r) = Users st /\ Bookings (snd r) = Bookings st
    /\ match fst r with
       | Json co =>
           (exists price, quote st cookie (Some service) = Json price
                          /\ Checkout.unit_amount co = price * 100)
           /\ Checkout.metadata co = MetaSingle service startISO (nextId st)
           /\ nextId (snd r) = S (nextId st)
           /\ exists h, Holds (snd r) = Holds st ++ [h]
                        /\ Hold.id h = nextId st
                        /\ Hold.service h = service
                        /\ Hold.unitAmount h = Some (Checkout.unit_amount co)
                        /\ Hold.email h = truthy cookie
       | Refused status _ => status = 409 /\ snd r = st
       | NoReply => False
       end.
Proof.
  intros st now cookie service startISO. cbv zeta. unfold checkout_single.
  destruct (placeHoldSingle_cases (B := backend MongoServer) st now service startISO cookie
              (userPriceFor service (userOfCookie st cookie) * 100)) as [[e ->] | ->].
  - cbn. by repeat split.
  - cbn [fst snd Users Bookings Holds nextId withNextId withHolds
         Checkout.unit_amount Checkout.metadata].
    split; [reflexivity|]. split; [reflexivity|]. split; [|split; [reflexivity|split]].
    + eexists. by split.
    + reflexivity.
    + eexists. split; [reflexivity|]. unfold singleDoc. cbn. rewrite jsOr_None. by repeat split.
Qed.

Lemma placeHoldBundle_threw {B : Backend} st now bundleId selections email amount :
  fst (placeHoldBundle st now bundleId selections email amount) = HoldThrew -> selections = [].
Proof.
  unfold placeHoldBundle. destruct (validateSelections st now selections); [discriminate|].
  destruct selections; [reflexivity | discriminate].
Qed.

(** X26. A bundle checkout whose selections name services of the
    catalogue, on [src/server.js], always replies.  A refusal
    is a 400 (unknown bundle, or a number of selections other than that of
    the bundle) or a 409, and leaves the store as it was.  On success the
    bundle price times one hundred is charged; one hold per selection is
    added, at least two, in the order of the selections, with consecutive
    identifiers after that of the group, each under the group named in the
    session metadata, for the whole amount, expiring [HOLD_TTL_MIN] minutes
    from now.  No account or booking is touched. *)
Theorem checkout_bundle_outcome :
  forall st now cookie bundleId selections,
    let r := checkout_bundle (B := backend MongoServer) st now cookie bundleId selections in
    Users (snd r) = Users st /\ Bookings (snd r) = Bookings st
    /\ match fst r with
       | Json co =>
           exists bundle sels docs,
             In bundle BUNDLES /\ Bundle.id bundle = bundleId /\ selections = Some sels
             /\ Checkout.unit_amount co = Bundle.price bundle * 100
             /\ Checkout.metadata co = MetaBundle bundleId (nextId st)
             /\ Holds (snd r) = Holds st ++ docs
             /\ length docs = length (Bundle.services bundle)
             /\ (2 <= length docs)%nat
             /\ map Hold.service docs = map Selection.service sels
             /\ map Hold.id docs = seq (S (nextId st)) (length docs)
             /\ Forall (fun h => Hold.groupId h = Some (nextId st)
                                 /\ Hold.amount h = Some (Bundle.price bundle * 100)
                                 /\ Hold.email h = truthy cookie
                                 /\ Hold.expireAt h = addMinutes now HOLD_TTL_MIN) docs
             /\ nextId (snd r) = (S (nextId st) + length docs)%nat
       | Refused status _ => (status = 400 \/ status = 409) /\ snd r = st
       | NoReply => False
       end.
Proof.
  intros st now cookie bundleId selections. cbv zeta. unfold checkout_bundle.
  destruct (List.find _ BUNDLES) as [bundle|] eqn:Hf; [|cbn; split; [reflexivity|]; split; [reflexivity|]; split; [by left | reflexivity]].
  apply find_bundle in Hf as (Hin & Hid & Hlen).
  destruct selections as [sels|]; [|cbn; split; [reflexivity|]; split; [reflexivity|]; split; [by left | reflexivity]].
  destruct (Nat.eqb (length sels) (length (Bundle.services bundle))) eqn:Hn; cbn [negb];
    [|cbn; split; [reflexivity|]; split; [reflexivity|]; split; [by left | reflexivity]].
  apply Nat.eqb_eq in Hn.
  pose proof (placeHoldBundle_threw (B := backend MongoServer) st now bundleId sels cookie
                (Bundle.price bundle * 100)) as Hthrew.
  destruct (placeHoldBundle_cases (B := backend MongoServer) st now bundleId sels cookie
              (Bundle.price bundle * 100)) as [(r & Hpl & Hr) | [[_ ->] | [Hne ->]]].
  - rewrite Hpl in *. destruct r as [g| |]; [by destruct (Hr g)
      | cbn; split; [reflexivity|]; split; [reflexivity|]; split; [by right | reflexivity] |].
    rewrite (Hthrew eq_refl) in Hn. cbn in Hn. lia.
  - cbn in Hn. lia.
  - cbn [fst snd Users Bookings Holds nextId withNextId withHolds
         Checkout.unit_amount Checkout.metadata].
    split; [reflexivity|]. split; [reflexivity|].
    exists bundle, sels, (mapFrom (bundleDoc now (nextId st) bundleId cookie
                                     (Bundle.price bundle * 100)) (S (nextId st)) sels).
    rewrite mapFrom_length.
    split; [assumption|]. split; [assumption|]. do 4 (split; [reflexivity|]).
    split; [assumption|]. split; [lia|]. split; [|split; [|split; [|reflexivity]]].
    + clear. generalize (S (nextId st)). induction sels as [|s r IH]; intros n; cbn;
        [reflexivity | by rewrite IH].
    + clear. generalize (S (nextId st)). induction sels as [|s r IH]; intros n; cbn;
        [reflexivity | by rewrite IH].
    + apply List.Forall_forall. intros h Hh. apply In_mapFrom in Hh as (k & sel & _ & ->).
      cbn. rewrite jsOr_None. by repeat split.
Qed.

(** * What no request undoes *)

Section Grows.
Context {B : Backend}.

Lemma checkout_single_grows st now cookie service startISO :
  let st' := snd (checkout_single st now cookie service startISO) in
  Bookings st' = Bookings st /\ (nextId st <= nextId st')%nat.
Proof.
  cbv zeta. unfold checkout_single.
  destruct service as [service|], startISO as [startISO|]; try (cbn; split; [reflexivity | lia]).
  destruct (placeHoldSingle_cases st now service startISO cookie
              (userPriceFor service (userOfCookie st cookie) * 100)) as [[e ->] | ->];
    cbn; split; try reflexivity; lia.
Qed.

Lemma checkout_bundle_grows st now cookie bundleId selections :
  let st' := snd (checkout_bundle st now cookie bundleId selections) in
  Bookings st' = Bookings st /\ (nextId st <= nextId st')%nat.
Proof.
  cbv zeta. unfold checkout_bundle.
  destruct (List.find _ BUNDLES) as [bundle|]; [|cbn; split; [reflexivity | lia]].
  destruct selections as [sels|]; [|cbn; split; [reflexivity | lia]].
  destruct (negb _); [cbn; split; [reflexivity | lia]|].
  destruct (placeHoldBundle_cases st now bundleId sels cookie (Bundle.price bundle * 100))
    as [(r & -> & Hr) | [[-> _] | [_ ->]]].
  - destruct r; cbn; split; try reflexivity; lia.
  - cbn; split; [reflexivity | lia].
  - cbn; split; [reflexivity | lia].
Qed.

Lemma confirm_grows stripe st now cookie session_id :
  let st' := snd (confirm stripe st now cookie session_id) in
  (exists added, Bookings st' = Bookings st ++ added) /\ (nextId st <= nextId st')%nat.
Proof.
  assert (Hnil : (exists added : list Booking.t, Bookings st = Bookings st ++ added)
                 /\ (nextId st <= nextId st)%nat).
  { split; [exists []; by rewrite app_nil_r | lia]. }
  cbv zeta. unfold confirm.
  destruct (truthy session_id) as [sid|]; [|exact Hnil].
  destruct (stripe sid) as [session|]; [|exact Hnil].
  destruct (negb _); [exact Hnil|].
  destruct (Session.metadata session) as [svc t hid | bid g |]; [| |exact Hnil].
  - destruct (findHold st hid) as [hold|]; [|destruct fallbackLookupThrows; exact Hnil].
    cbn. rewrite consumeCredit_Bookings, consumeCredit_nextId. split; [by eexists | lia].
  - destruct (findOrder _) as [|h0 hs]; [exact Hnil|].
    cbn [snd Bookings nextId withHolds withNextId withBookings]. split; [by eexists | lia].
Qed.

End Grows.

Lemma openSession_grows w r :
  db (openSession w r) = snd r
  /\ clock (openSession w r) = clock w
  /\ exists new, sessions (openSession w r) = sessions w ++ new.
Proof.
  destruct r as [[co | status e |] st]; cbn; split; try reflexivity; split; try reflexivity;
    first [by eexists | exists []; by rewrite app_nil_r].
Qed.

Lemma serve_grows v w r :
  (exists added, Bookings (db (serve v w r)) = Bookings (db w) ++ added)
  /\ clock w <= clock (serve v w r)
  /\ (nextId (db w) <= nextId (db (serve v w r)))%nat
  /\ (length (sessions w) <= length (sessions (serve v w r)))%nat
  /\ map Session.id (take (length (sessions w)) (sessions (serve v w r)))
     = map Session.id (sessions w).
Proof.
  assert (Hgen : forall w', (exists added, Bookings (db w') = Bookings (db w) ++ added) ->
            clock w <= clock w' ->
            (nextId (db w) <= nextId (db w'))%nat ->
            (exists new, sessions w' = sessions w ++ new) ->
            (exists added, Bookings (db w') = Bookings (db w) ++ added)
            /\ clock w <= clock w'
            /\ (nextId (db w) <= nextId (db w'))%nat
            /\ (length (sessions w) <= length (sessions w'))%nat
            /\ map Session.id (take (length (sessions w)) (sessions w'))
               = map Session.id (sessions w)).
  { intros w' Hb Hc Hn [new Hs]. split; [assumption|].
    split; [assumption|]. split; [assumption|]. rewrite Hs, length_app. split; [lia|].
    by rewrite take_app_length. }
  assert (Hsame : forall w', Bookings (db w') = Bookings (db w) ->
            clock w <= clock w' ->
            (nextId (db w) <= nextId (db w'))%nat ->
            (exists new, sessions w' = sessions w ++ new) ->
            (exists added, Bookings (db w') = Bookings (db w) ++ added)
            /\ clock w <= clock w'
            /\ (nextId (db w) <= nextId (db w'))%nat
            /\ (length (sessions w) <= length (sessions w'))%nat
            /\ map Session.id (take (length (sessions w)) (sessions w'))
               = map Session.id (sessions w)).
  { intros w' Hb. apply Hgen. exists []. by rewrite app_nil_r. }
  assert (Hnil : exists new : list Session.t, sessions w = sessions w ++ new).
  { exists []. by rewrite app_nil_r. }
  destruct r as [e | email name | email]; cbn [serve].
  - destruct e as [ms | cookie service startISO | cookie bundleId selections | sid
                  | cookie sid | ]; cbn [step].
    + apply Hsame; cbn; [reflexivity | lia | lia | exact Hnil].
    + destruct (openSession_grows w (checkout_single (B := backend v) (db w) (clock w) cookie
                  (Some service) (Some startISO))) as (Hd & Hc & Hs).
      destruct (checkout_single_grows (B := backend v) (db w) (clock w) cookie
                  (Some service) (Some startISO)) as [Hb Hn].
      apply Hsame; rewrite ?Hd, ?Hc; [assumption | lia | assumption | exact Hs].
    + destruct (openSession_grows w (checkout_bundle (B := backend v) (db w) (clock w) cookie
                  bundleId (Some selections))) as (Hd & Hc & Hs).
      destruct (checkout_bundle_grows (B := backend v) (db w) (clock w) cookie
                  bundleId (Some selections)) as [Hb Hn].
      apply Hsame; rewrite ?Hd, ?Hc; [assumption | lia | assumption | exact Hs].
    + split; [exists []; by rewrite app_nil_r|]. cbn. split; [lia|]. split; [lia|].
      rewrite length_map. split; [lia|]. rewrite firstn_all2 by (rewrite length_map; lia).
      rewrite map_map. apply map_ext. intros s. unfold markPaid.
      by destruct (String.eqb _ _).
    + destruct (confirm_grows (B := backend v) (retrieve (sessions w)) (db w) (clock w)
                  cookie (Some sid)) as [Hb Hn].
      apply Hgen; cbn; [assumption | lia | assumption | exact Hnil].
    + destruct v; apply Hsame; cbn; try reflexivity; try lia; exact Hnil.
  - unfold login. destruct (truthy email) as [e|];
      [destruct (Users (db w) !! e); [destruct (truthy name);
         [destruct (String.eqb _ _)|]|]|];
      apply Hsame; cbn; try reflexivity; try lia; exact Hnil.
  - unfold grant_hbot_pack. destruct (truthy email) as [e|];
      [destruct (Users (db w) !! e)|]; apply Hsame; cbn; try reflexivity; try lia; exact Hnil.
Qed.

(** X27. Nothing either server does takes a booking back.  Along any
    sequence of requests from any world, the bookings at the start stay
    where they are and later ones are appended after them; the clock and
    the supply of identifiers never go back; and the checkout sessions at
    the start stay in place under their identifiers. *)
Theorem bookings_never_removed :
  forall v requests w,
    let w' := serveAll v w requests in
    (exists added, Bookings (db w') = Bookings (db w) ++ added)
    /\ clock w <= clock w'
    /\ (nextId (db w) <= nextId (db w'))%nat
    /\ (length (sessions w) <= length (sessions w'))%nat
    /\ map Session.id (take (length (sessions w)) (sessions w')) = map Session.id (sessions w).
Proof.
  intros v requests. induction requests as [|r rest IH]; intros w; cbv zeta.
  - cbn. split; [exists []; by rewrite app_nil_r|]. split; [lia|]. split; [lia|].
    split; [lia|]. by rewrite firstn_all.
  - cbn [serveAll fold_left]. fold (serveAll v (serve v w r) rest).
    destruct (serve_grows v w r) as ([a1 Hb1] & Hc1 & Hn1 & Hl1 & Hs1).
    destruct (IH (serve v w r)) as ([a2 Hb2] & Hc2 & Hn2 & Hl2 & Hs2).
    split; [exists (a1 ++ a2); by rewrite Hb2, Hb1, app_assoc|].
    split; [lia|]. split; [lia|]. split; [lia|].
    rewrite <- Hs1. apply (f_equal (firstn (length (sessions w)))) in Hs2.
    rewrite !firstn_map, firstn_firstn in Hs2.
    by rewrite Nat.min_l in Hs2 by lia.
Qed.

(** * From an offered slot to a hold *)

Lemma startOfDay_within d c : startOfDay d <= c < startOfDay d + DAY -> startOfDay c = startOfDay d.
Proof.
  unfold startOfDay, DAY. intros Hc. f_equal.
  symmetry. apply (Z.div_unique c 86400000 (d / 86400000) (c - 86400000 * (d / 86400000))); lia.
Qed.

Lemma getDay_within d c : startOfDay c = startOfDay d -> getDay c = getDay d.
Proof. intros H. by rewrite <- (getDay_startOfDay c), H, getDay_startOfDay. Qed.

(** * The hours check and the process zone *)

Lemma prisma_window_of_day d d' :
  startOfDay d = startOfDay d' -> Prisma.businessWindowOn d = Prisma.businessWindowOn d'.
Proof.
  intros H. rewrite !businessWindowOn_same.
  by rewrite <- (businessWindowOn_startOfDay d), H, businessWindowOn_startOfDay.
Qed.

Lemma withinHoursIn_east offset s t :
  0 <= offset < DAY -> Prisma.withinHoursIn offset s t = Prisma.withinHours s t.
Proof.
  intros Ho. unfold Prisma.withinHoursIn, Prisma.withinHours, Prisma.dateOnlyIn, formatISODate.
  assert (Hd : startOfDay (startOfDay t + offset) = startOfDay (startOfDay t)).
  { rewrite startOfDay_idem. apply startOfDay_within. lia. }
  by rewrite (prisma_window_of_day _ _ Hd).
Qed.

Lemma withinHoursIn_west offset s t :
  - DAY < offset < 0 -> Prisma.withinHoursIn offset s t = false.
Proof.
  intros Ho. unfold Prisma.withinHoursIn, Prisma.dateOnlyIn.
  rewrite businessWindowOn_same, mongo_window_hours.
  destruct ((getDay (startOfDay t + offset) =? 0) || (getDay (startOfDay t + offset) =? 6));
    [reflexivity|].
  cbn [Window.open Window.close].
  assert (Hday : startOfDay (startOfDay t + offset) = startOfDay t - DAY).
  { assert (Hs : startOfDay (startOfDay t - DAY) = startOfDay t - DAY).
    { unfold startOfDay, DAY.
      replace (86400000 * (t / 86400000) - 86400000) with (86400000 * (t / 86400000 - 1)) by lia.
      rewrite (Z.mul_comm 86400000 (t / 86400000 - 1)), Z.div_mul by lia. lia. }
    rewrite <- Hs. apply startOfDay_within. rewrite Hs. lia. }
  rewrite Hday.
  assert (Ht : startOfDay t <= t).
  { unfold startOfDay, DAY. pose proof (Z.mul_div_le t 86400000). lia. }
  assert (Hlate : isAfter t (startOfDay t - DAY
            + (if (getDay (startOfDay t + offset) =? 2) || (getDay (startOfDay t + offset) =? 4)
               then 12 else 18) * HOUR) = true).
  { unfold isAfter. apply Z.ltb_lt. unfold DAY, HOUR in *.
    destruct ((getDay (startOfDay t + offset) =? 2) || (getDay (startOfDay t + offset) =? 4)); lia. }
  by rewrite Hlate.
Qed.

(** C7. The business-hours check of [src/server.js] accepts a start
    exactly when the day has a window, the start is not before its opening
    and the end of the service without its buffer is not after its closing.
    A one hour hbot session (30 minutes of buffer) starting at 11:00 on a
    Tuesday, which closes at 12:00, passes the check and is held on an
    empty store although its buffered end 12:30 is after closing.  The
    check of the Prisma server is that test only in a process zone at or
    east of UTC.  It takes the window of the date-only string of the start,
    which [new Date] reads as midnight UTC; west of UTC that instant lies
    on the day before, whose window has closed before any start of the
    day, and the check refuses every start: in a zone six hours west it
    refuses the hbot session on Tuesday at 11:00. *)
Theorem withinHours_ignores_buffer :
  (forall s t,
     withinHours (Backend := backend MongoServer) s t = true <->
     exists win, businessWindowOn (Backend := backend MongoServer) (startOfDay t) = Some win
                 /\ Window.open win <= t
                 /\ addMinutes t (Service.duration (SERVICES s)) <= Window.close win)
  /\ (let start := atTime tuesday 11 0 in
      let iv := intervalWithBuffer hbot start in
      businessWindowOn (Backend := backend MongoServer) (startOfDay start)
        = Some {| Window.open := atTime tuesday 7 0; Window.close := atTime tuesday 12 0 |}
      /\ Interval.end_ iv = atTime tuesday 12 0
      /\ Interval.endWB iv = atTime tuesday 12 30
      /\ withinHours (Backend := backend MongoServer) hbot start = true
      /\ withinHours (Backend := backend MongoServer) hbot (start + 1) = false
      /\ forall now email unitAmount,
           fst (placeHoldSingle (B := backend MongoServer) emptyStore now hbot start email unitAmount)
           = HoldOk 0%nat)
  /\ (forall offset s t,
        0 <= offset < DAY ->
        Prisma.withinHoursIn offset s t = withinHours (Backend := backend MongoServer) s t)
  /\ (forall offset s t, - DAY < offset < 0 -> Prisma.withinHoursIn offset s t = false)
  /\ Prisma.withinHoursIn (- 6 * HOUR) hbot (atTime tuesday 11 0) = false.
Proof.
  split; [intros s t; apply withinHours_mongo_iff|].
  split.
  { repeat split; vm_compute; reflexivity. }
  split.
  { intros offset s t Ho. rewrite withinHoursIn_east by assumption. apply withinHours_same. }
  split; [apply withinHoursIn_west|]. vm_compute. reflexivity.
Qed.

(** X28. What [/api/availability] of [src/server.js] offers can be held:
    a single hold requested for the start of an offered slot, against the
    same store and at the same time, is placed, whoever asks and whatever
    the charge. *)
Theorem offered_slot_can_be_held :
  forall st now service date slot email unitAmount,
    In slot (slotsOf (availability (B := backend MongoServer) st now (Some service) (Some date))) ->
    fst (placeHoldSingle (B := backend MongoServer) st now service (Slot.startISO slot) email unitAmount)
    = HoldOk (nextId st).
Proof.
  intros st now service date slot email unitAmount. rewrite availability_slots.
  destruct ((getDay date =? 0) || (getDay date =? 6)) eqn:Hwe; [intros []|].
  intros Hin. apply in_map_iff in Hin as (c & <- & Hc).
  apply filter_In in Hc as [Hc Hfree]. apply grid_member in Hc as (Ho & Hcl & _ & Hw).
  specialize (Hw (wholeSecond_opening date)).
  cbn [slotAt Slot.startISO]. rewrite (wholeSecond_formatISO c Hw).
  assert (Hday : startOfDay c = startOfDay date).
  { apply startOfDay_within. pose proof (duration_nonneg service) as Hd.
    unfold addMinutes, MINUTE, HOUR, DAY in *.
    destruct ((getDay date =? 2) || (getDay date =? 4)); lia. }
  assert (Hwh : withinHours (Backend := backend MongoServer) service c = true).
  { apply withinHours_mongo_iff. rewrite Hday, businessWindowOn_startOfDay, mongo_window_hours, Hwe.
    eexists. split; [reflexivity|]. cbn [Window.open Window.close]. by split. }
  unfold freeAt in Hfree. apply negb_true_iff in Hfree.
  unfold placeHoldSingle. rewrite Hwh. cbn [negb].
  assert (Hcut : sameDayCutoffOK (Backend := backend MongoServer) now c = true) by reflexivity.
  rewrite Hcut. cbn [negb]. by rewrite Hfree.
Qed.

(** * Instances of the further properties *)

Lemma overlapsMongo_decides_conflict_witness :
  atTime monday 7 0 <= holdEndWB sauna (atTime monday 7 0)
  /\ orderedStore (db heldForAnn)
  /\ (Mongo.overlapsMongo (db heldForAnn) (atTime monday 6 5) sauna (atTime monday 7 0)
        (holdEndWB sauna (atTime monday 7 0)) = true
      <-> conflictSpec (db heldForAnn) (atTime monday 6 5) sauna (atTime monday 7 0)
            (holdEndWB sauna (atTime monday 7 0))).
Proof.
  assert (Hle : atTime monday 7 0 <= holdEndWB sauna (atTime monday 7 0))
    by (vm_compute; discriminate).
  assert (Ho : orderedStore (db heldForAnn)).
  { split; intros x Hx; vm_compute in Hx.
    - destruct Hx.
    - destruct Hx as [<-|[]]. vm_compute. discriminate. }
  split; [exact Hle|]. split; [exact Ho|].
  exact (proj1 (overlapsMongo_decides_conflict (db heldForAnn) (atTime monday 6 5) sauna
                  (atTime monday 7 0) (holdEndWB sauna (atTime monday 7 0)) Hle Ho)).
Defined.

Lemma expired_holds_never_block_witness :
  atTime monday 6 30 <= atTime monday 6 31
  /\ overlaps (Backend := backend PrismaServer) (Mongo.ttlSweep (atTime monday 6 30) (db heldForAnn))
       (atTime monday 6 31) sauna (atTime monday 7 0) (holdEndWB sauna (atTime monday 7 0))
     = overlaps (Backend := backend PrismaServer) (db heldForAnn)
         (atTime monday 6 31) sauna (atTime monday 7 0) (holdEndWB sauna (atTime monday 7 0)).
Proof.
  assert (Hle : atTime monday 6 30 <= atTime monday 6 31) by (vm_compute; discriminate).
  split; [exact Hle|].
  exact (expired_holds_never_block PrismaServer (db heldForAnn) (atTime monday 6 30)
           (atTime monday 6 31) sauna (atTime monday 7 0) (holdEndWB sauna (atTime monday 7 0)) Hle).
Defined.

Lemma placed_hold_blocks_repeat_witness :
  exists st1,
    placeHoldSingle (B := backend MongoServer) emptyStore (atTime monday 6 0) sauna
      (atTime monday 7 0) ann 1500 = (HoldOk 0, st1)
    /\ atTime monday 6 11 < addMinutes (atTime monday 6 0) HOLD_TTL_MIN
    /\ overlaps (Backend := backend MongoServer) st1 (atTime monday 6 11) sauna
         (atTime monday 7 0) (holdEndWB sauna (atTime monday 7 0)) = true
    /\ placeHoldSingle (B := backend MongoServer) st1 (atTime monday 6 11) sauna
         (atTime monday 7 0) bob 1500 = (HoldRefused "slot currently unavailable", st1).
Proof.
  eexists.
  assert (Hp : placeHoldSingle (B := backend MongoServer) emptyStore (atTime monday 6 0) sauna
                 (atTime monday 7 0) ann 1500
               = (HoldOk 0, snd (placeHoldSingle (B := backend MongoServer) emptyStore
                                   (atTime monday 6 0) sauna (atTime monday 7 0) ann 1500)))
    by (vm_compute; reflexivity).
  assert (Hlt : atTime monday 6 11 < addMinutes (atTime monday 6 0) HOLD_TTL_MIN)
    by (vm_compute; reflexivity).
  split; [exact Hp|]. split; [exact Hlt|].
  exact (placed_hold_blocks_repeat emptyStore (atTime monday 6 0) sauna
           (atTime monday 7 0) ann 1500 0 _ Hp (atTime monday 6 11) bob 1500 Hlt).
Defined.

Lemma availability_mongo_conflict_free_witness :
  orderedStore (db heldForAnn)
  /\ In {| Slot.startISO := atTime monday 9 0; Slot.endISO := atTime monday 9 15 |}
        (slotsOf (availability (B := backend MongoServer) (db heldForAnn) (atTime monday 6 5)
                    (Some sauna) (Some (atTime monday 0 0))))
  /\ ~ conflictSpec (db heldForAnn) (atTime monday 6 5) sauna (atTime monday 9 0)
         (holdEndWB sauna (atTime monday 9 0)).
Proof.
  assert (Ho : orderedStore (db heldForAnn)).
  { split; intros x Hx; vm_compute in Hx.
    - destruct Hx.
    - destruct Hx as [<-|[]]. vm_compute. discriminate. }
  assert (Hin : In {| Slot.startISO := atTime monday 9 0; Slot.endISO := atTime monday 9 15 |}
        (slotsOf (availability (B := backend MongoServer) (db heldForAnn) (atTime monday 6 5)
                    (Some sauna) (Some (atTime monday 0 0))))).
  { vm_compute. repeat (first [left; reflexivity | right]). }
  split; [exact Ho|]. split; [exact Hin|].
  exact (availability_mongo_conflict_free (db heldForAnn) (atTime monday 6 5) sauna
           (atTime monday 0 0) _ Ho Hin).
Defined.

Lemma swept_hold_is_reported_expired_witness :
  exists st,
    checkout_single (B := backend MongoServer) (annWithCredits 3) (atTime monday 6 0) ann
      (Some hbot) (Some (atTime tuesday 10 0))
    = (Json {| Checkout.unit_amount := 6000;
               Checkout.metadata := MetaSingle hbot (atTime tuesday 10 0) 0 |}, st)
    /\ gateway "cs_0" = Some annSession
    /\ Session.paid annSession = true
    /\ confirm (B := backend MongoServer) gateway (Mongo.ttlSweep (atTime monday 6 13) st)
         (atTime monday 6 13) ann (Some "cs_0")
       = (Refused 409 "hold expired; payment safe — please reschedule",
          Mongo.ttlSweep (atTime monday 6 13) st).
Proof.
  eexists.
  assert (Hco : checkout_single (B := backend MongoServer) (annWithCredits 3) (atTime monday 6 0)
                  ann (Some hbot) (Some (atTime tuesday 10 0))
                = (Json {| Checkout.unit_amount := 6000;
                           Checkout.metadata := MetaSingle hbot (atTime tuesday 10 0) 0 |},
                   snd (checkout_single (B := backend MongoServer) (annWithCredits 3)
                          (atTime monday 6 0) ann (Some hbot) (Some (atTime tuesday 10 0)))))
    by (vm_compute; reflexivity).
  split; [exact Hco|]. split; [reflexivity|]. split; [reflexivity|].
  apply (proj1 (swept_hold_is_reported_expired gateway _ (atTime monday 6 13) ann "cs_0"
                  annSession ltac:(discriminate) eq_refl eq_refl)
           hbot (atTime tuesday 10 0) 0%nat eq_refl).
  intros h Hh _. vm_compute in Hh. destruct Hh as [<-|[]]. vm_compute. discriminate.
Defined.

Lemma admin_holds_only_live_witness :
  atTime monday 6 13 <= atTime monday 6 14
  /\ admin_holds "secret" (Some "secret") None
       (Mongo.ttlSweep (atTime monday 6 13) (db heldForAnn)) (atTime monday 6 14)
     = admin_holds "secret" (Some "secret") None (db heldForAnn) (atTime monday 6 14)
  /\ admin_holds "secret" (Some "secret") None (db heldForAnn) (atTime monday 6 14) = Json [].
Proof.
  assert (Hle : atTime monday 6 13 <= atTime monday 6 14) by (vm_compute; discriminate).
  split; [exact Hle|].
  split; [|vm_compute; reflexivity].
  exact (proj1 (admin_holds_only_live "secret" (Some "secret") None (db heldForAnn)
                  (atTime monday 6 13) (atTime monday 6 14) Hle)).
Defined.

Lemma admin_bookings_sorted_witness :
  requireAdmin "secret" None (Some "secret") = true
  /\ exists page,
       admin_bookings "secret" None (Some "secret")
         (db (run PrismaServer mondayMorning insideTheBuffer)) = Json page
       /\ length page = 2%nat
       /\ StronglySorted (fun a b => Booking.startISO a <= Booking.startISO b) page.
Proof.
  assert (Hok : requireAdmin "secret" None (Some "secret") = true) by (vm_compute; reflexivity).
  split; [exact Hok|].
  destruct (admin_bookings_sorted "secret" None (Some "secret")
              (db (run PrismaServer mondayMorning insideTheBuffer)) Hok)
    as (page & Hpage & Hlen & Hs & _).
  exists page. split; [exact Hpage|]. split; [|exact Hs].
  rewrite Hlen. vm_compute. reflexivity.
Defined.

Lemma no_double_booking_when_orderly_witness :
  orderlyRun MongoServer mondayMorning saunaTwice
  /\ map (fun b => (Booking.service b, Booking.startISO b, Booking.clientEmail b))
         (Bookings (db (run MongoServer mondayMorning saunaTwice)))
     = [ (sauna, atTime monday 7 0, ann); (sauna, atTime monday 7 30, bob) ]
  /\ ~ doubleBooked (db (run MongoServer mondayMorning saunaTwice)).
Proof.
  assert (Ho : orderlyRun MongoServer mondayMorning saunaTwice).
  { unfold saunaTwice. cbn [orderlyRun orderly].
    split; [vm_compute; reflexivity|]. split; [exact I|].
    split; [intros h Hh; vm_compute in Hh; destruct Hh as [<-|[]]; vm_compute; reflexivity|].
    split; [vm_compute; reflexivity|]. split; [vm_compute; reflexivity|]. split; [exact I|].
    split; [intros h Hh; vm_compute in Hh; destruct Hh as [<-|[]]; vm_compute; reflexivity|].
    exact I. }
  split; [exact Ho|]. split; [vm_compute; reflexivity|].
  exact (no_double_booking_when_orderly (atTime monday 6 0) saunaTwice Ho).
Defined.

Lemma offered_slot_can_be_held_witness :
  In {| Slot.startISO := atTime monday 9 0; Slot.endISO := atTime monday 9 15 |}
     (slotsOf (availability (B := backend MongoServer) (db heldForAnn) (atTime monday 6 5)
                 (Some sauna) (Some (atTime monday 0 0))))
  /\ fst (placeHoldSingle (B := backend MongoServer) (db heldForAnn) (atTime monday 6 5)
            sauna (atTime monday 9 0) bob 1500) = HoldOk 1.
Proof.
  assert (Hin : In {| Slot.startISO := atTime monday 9 0; Slot.endISO := atTime monday 9 15 |}
     (slotsOf (availability (B := backend MongoServer) (db heldForAnn) (atTime monday 6 5)
                 (Some sauna) (Some (atTime monday 0 0))))).
  { vm_compute. repeat (first [left; reflexivity | right]). }
  split; [exact Hin|].
  exact (offered_slot_can_be_held (db heldForAnn) (atTime monday 6 5) sauna
           (atTime monday 0 0) _ bob 1500 Hin).
Defined.

(** The claim of C9 read for every confirmation fails on [src/server.js]:
    Ann's second hbot hold was placed while her balance was 1, at the
    discounted charge of 6000; by the time it is confirmed the first
    confirmation has taken her one credit, and the second takes none. *)
Lemma credit_pricing_counterexample :
  Users (db (run MongoServer annWithOneCredit (take 2 twoOnOneCredit)))
    = Users (annWithCredits 1)
  /\ quote (annWithCredits 1) ann (Some hbot) = Json 60
  /\ map (fun h => (Hold.id h, Hold.service h, Hold.unitAmount h))
         (Holds (db afterFirstConfirmation)) = [ (1%nat, hbot, Some 6000) ]
  /\ (User.hbotCredits <$> Users (db afterFirstConfirmation) !! "ann@example.com") = Some 0
  /\ fst (confirm (B := backend MongoServer) (retrieve (sessions afterFirstConfirmation))
            (db afterFirstConfirmation) (clock afterFirstConfirmation) ann (Some "cs_1"))
     = Json ConfirmedSingle
  /\ (User.hbotCredits <$>
        Users (snd (confirm (B := backend MongoServer) (retrieve (sessions afterFirstConfirmation))
                      (db afterFirstConfirmation) (clock afterFirstConfirmation) ann
                      (Some "cs_1"))) !! "ann@example.com") = Some 0.
Proof.
  split; [vm_compute; reflexivity|]. split; [vm_compute; reflexivity|].
  split; [vm_compute; reflexivity|]. split; [vm_compute; reflexivity|].
  split; vm_compute; reflexivity.
Qed.
